(** * trading_system: tape reading, confluence and risk gating

  A shallow embedding of the filters, the confluence analyzer, the
  trade cache and the risk manager of the trading system, with the
  properties the specification states about them.

  Conventions of the embedding.
  - Python [float] values (prices, confidences, factors, ratios) are
    exact rationals [Q]; every property below is a comparison that
    rounding to the nearest double preserves, or is stated on the
    exact value.
  - A naive [datetime] is the number of microseconds since the
    midnight that starts some reference day; a [timedelta] is a signed
    number of microseconds, read through the normalised fields
    [days], [seconds] and [microseconds] as Python does.
  - [datetime.now()] is an explicit argument [now] of every function
    that reads the clock.
  - A raised exception is the result [None]. *)

From Stdlib Require Import ZArith QArith Qminmax Qround Qabs Lia Lqa String Ascii List Bool.
From Stdlib Require Import DecimalString.
From stdpp Require Import gmap strings list.

Set Default Proof Using "Type".

(** ** Python primitives used by the sources *)

Module Py.

(** [min(a, b)]: the first argument unless the second is strictly smaller. *)
Definition Qltb (a b : Q) : bool := negb (Qle_bool b a).
Definition min (a b : Q) : Q := if Qltb b a then b else a.
Definition max (a b : Q) : Q := if Qltb a b then b else a.

(** [int(x)] on a float: truncation towards zero. *)
Definition int (x : Q) : Z := Z.quot (Qnum x) (Zpos (Qden x)).

(** [s[:n]] and [s[-n:]] for a non-negative [n]; [s[-0:]] is all of [s]. *)
Definition slice_to {A} (n : nat) (s : list A) : list A := firstn n s.
Definition slice_last {A} (n : nat) (s : list A) : list A :=
  match n with
  | O => s
  | _ => skipn (length s - n) s
  end.

(** [str.upper()] on the letters a to z; other bytes are kept, so the
    model agrees with Python on strings whose letters are ASCII, as
    the names of patterns, levels and actions are. *)
Definition upper_ascii (c : ascii) : ascii :=
  let n := nat_of_ascii c in
  if (97 <=? n)%nat && (n <=? 122)%nat then ascii_of_nat (n - 32) else c.
Fixpoint upper (s : string) : string :=
  match s with
  | EmptyString => EmptyString
  | String c r => String (upper_ascii c) (upper r)
  end.

End Py.

(** ** datetime and timedelta *)

Module PyTime.

Abbreviation datetime := Z.
Abbreviation timedelta := Z.

Definition us_per_second : Z := 1000000.
Definition us_per_day : Z := 86400 * us_per_second.

(** [a - b] on two datetimes. *)
Definition sub (a b : datetime) : timedelta := (a - b)%Z.

(** [timedelta(seconds=s)]. *)
Definition of_seconds (s : Z) : timedelta := (s * us_per_second)%Z.

(** The normalised fields of a timedelta: [days] may be negative,
    [0 <= seconds < 86400]. *)
Definition days (d : timedelta) : Z := (d / us_per_day)%Z.
Definition seconds (d : timedelta) : Z := ((d mod us_per_day) / us_per_second)%Z.

(** [datetime.hour] and [datetime.time()] (microseconds since midnight). *)
Definition time_of_day (t : datetime) : Z := (t mod us_per_day)%Z.
Definition hour (t : datetime) : Z := (time_of_day t / (3600 * us_per_second))%Z.

(** [hh:mm] as a [time] object. *)
Definition hm (h m : Z) : Z := ((h * 3600 + m * 60) * us_per_second)%Z.

End PyTime.

(** ** Insertion-ordered dictionaries with string keys

  Python dictionaries iterate in insertion order; the sources below
  iterate over their dictionaries, so they are association lists in
  which every key occurs once. *)

Module Dict.

Section Ops.
Context {V : Type}.

Fixpoint get (k : string) (d : list (string * V)) : option V :=
  match d with
  | [] => None
  | (k', v) :: r => if String.eqb k' k then Some v else get k r
  end.

(** [d[k] = v]: replaces the value in place or appends a new key. *)
Fixpoint set (k : string) (v : V) (d : list (string * V)) : list (string * V) :=
  match d with
  | [] => [(k, v)]
  | (k', v') :: r =>
      if String.eqb k' k then (k', v) :: r else (k', v') :: set k v r
  end.

End Ops.

End Dict.

(** ** application/services/risk/adaptive_system.py *)

Module AdaptiveRiskSystem.

(** core/analysis/regime/types.py *)
Inductive MarketRegime :=
| TRENDING_UP | TRENDING_DOWN | RANGING | VOLATILE | QUIET | BREAKOUT | REVERSAL.

Definition regime_eqb (a b : MarketRegime) : bool :=
  match a, b with
  | TRENDING_UP, TRENDING_UP | TRENDING_DOWN, TRENDING_DOWN | RANGING, RANGING
  | VOLATILE, VOLATILE | QUIET, QUIET | BREAKOUT, BREAKOUT | REVERSAL, REVERSAL => true
  | _, _ => false
  end.

(** The [adjustments] dictionary of [_calculate_regime_adjustments]. *)
Record Factors := {
  signal_frequency : Q;
  quality_threshold : Q;
  concurrent_signals : Q;
  timeout : Q;
  circuit_breaker_sensitivity : Q
}.

(** The [current_limits] dictionary. *)
Record Limits := {
  max_signals_per_minute : Z;
  max_signals_per_hour : Z;
  max_confluence_per_hour : Z;
  max_concurrent_signals : Z;
  signal_timeout : Z;
  lim_quality_threshold : Q
}.

Record t := {
  base_max_signals_per_minute : Z;
  base_max_signals_per_hour : Z;
  base_max_confluence_per_hour : Z;
  base_max_concurrent_signals : Z;
  base_signal_timeout : Z;
  base_quality_threshold : Q;
  current_limits : Limits;
  current_market_regime : list (string * MarketRegime);
  regime_adjustment_factors : Factors
}.

Definition unit_factors : Factors :=
  {| signal_frequency := 1; quality_threshold := 1; concurrent_signals := 1;
     timeout := 1; circuit_breaker_sensitivity := 1 |}.

(** One iteration of the loop over [current_market_regime.items()]. *)
Definition adjust_for (regime : MarketRegime) (a : Factors) : Factors :=
  match regime with
  | TRENDING_UP | TRENDING_DOWN =>
      {| signal_frequency := signal_frequency a * 1.2;
         quality_threshold := quality_threshold a * 0.9;
         concurrent_signals := concurrent_signals a * 1.3;
         timeout := timeout a;
         circuit_breaker_sensitivity := circuit_breaker_sensitivity a |}
  | VOLATILE =>
      {| signal_frequency := signal_frequency a * 0.7;
         quality_threshold := quality_threshold a * 1.3;
         concurrent_signals := concurrent_signals a * 0.6;
         timeout := timeout a * 0.8;
         circuit_breaker_sensitivity := circuit_breaker_sensitivity a * 1.5 |}
  | QUIET =>
      {| signal_frequency := signal_frequency a * 0.5;
         quality_threshold := quality_threshold a * 1.5;
         concurrent_signals := concurrent_signals a * 0.5;
         timeout := timeout a;
         circuit_breaker_sensitivity := circuit_breaker_sensitivity a |}
  | BREAKOUT =>
      {| signal_frequency := signal_frequency a * 1.5;
         quality_threshold := quality_threshold a * 0.8;
         concurrent_signals := concurrent_signals a * 1.5;
         timeout := timeout a * 1.2;
         circuit_breaker_sensitivity := circuit_breaker_sensitivity a |}
  | REVERSAL =>
      {| signal_frequency := signal_frequency a * 0.8;
         quality_threshold := quality_threshold a * 1.2;
         concurrent_signals := concurrent_signals a * 0.8;
         timeout := timeout a;
         circuit_breaker_sensitivity := circuit_breaker_sensitivity a * 1.3 |}
  | RANGING => a
  end.

(** The correction applied when the regimes of WDO and DOL differ. *)
Definition diverge (a : Factors) : Factors :=
  {| signal_frequency := signal_frequency a;
     quality_threshold := quality_threshold a * 1.1;
     concurrent_signals := concurrent_signals a * 0.9;
     timeout := timeout a;
     circuit_breaker_sensitivity := circuit_breaker_sensitivity a |}.

(** [max(0.3, min(2.0, x))]. *)
Definition clamp (x : Q) : Q := Py.max 0.3 (Py.min 2.0 x).

Definition normalize (a : Factors) : Factors :=
  {| signal_frequency := clamp (signal_frequency a);
     quality_threshold := clamp (quality_threshold a);
     concurrent_signals := clamp (concurrent_signals a);
     timeout := clamp (timeout a);
     circuit_breaker_sensitivity := clamp (circuit_breaker_sensitivity a) |}.

(** [_calculate_regime_adjustments]; [None] is the [KeyError] of
    [current_market_regime['WDO']] or [['DOL']]. *)
Definition _calculate_regime_adjustments (s : t) : option t :=
  let adjustments :=
    fold_left (fun a kv => adjust_for (snd kv) a) (current_market_regime s) unit_factors in
  match Dict.get "WDO" (current_market_regime s), Dict.get "DOL" (current_market_regime s) with
  | Some w, Some d =>
      let adjustments := if regime_eqb w d then adjustments else diverge adjustments in
      Some {| base_max_signals_per_minute := base_max_signals_per_minute s;
              base_max_signals_per_hour := base_max_signals_per_hour s;
              base_max_confluence_per_hour := base_max_confluence_per_hour s;
              base_max_concurrent_signals := base_max_concurrent_signals s;
              base_signal_timeout := base_signal_timeout s;
              base_quality_threshold := base_quality_threshold s;
              current_limits := current_limits s;
              current_market_regime := current_market_regime s;
              regime_adjustment_factors := normalize adjustments |}
  | _, _ => None
  end.

(** [_apply_regime_adjustments]. *)
Definition _apply_regime_adjustments (s : t) : t :=
  let f := regime_adjustment_factors s in
  {| base_max_signals_per_minute := base_max_signals_per_minute s;
     base_max_signals_per_hour := base_max_signals_per_hour s;
     base_max_confluence_per_hour := base_max_confluence_per_hour s;
     base_max_concurrent_signals := base_max_concurrent_signals s;
     base_signal_timeout := base_signal_timeout s;
     base_quality_threshold := base_quality_threshold s;
     current_limits :=
       {| max_signals_per_minute :=
            Py.int (inject_Z (base_max_signals_per_minute s) * signal_frequency f);
          max_signals_per_hour :=
            Py.int (inject_Z (base_max_signals_per_hour s) * signal_frequency f);
          max_confluence_per_hour :=
            Py.int (inject_Z (base_max_confluence_per_hour s) * signal_frequency f);
          max_concurrent_signals :=
            Z.max 1 (Py.int (inject_Z (base_max_concurrent_signals s) * concurrent_signals f));
          signal_timeout :=
            Py.int (inject_Z (base_signal_timeout s) * timeout f);
          lim_quality_threshold :=
            Py.min 0.9 (base_quality_threshold s * quality_threshold f) |};
     current_market_regime := current_market_regime s;
     regime_adjustment_factors := f |}.

Definition set_regime (s : t) (symbol : string) (r : MarketRegime) : t :=
  {| base_max_signals_per_minute := base_max_signals_per_minute s;
     base_max_signals_per_hour := base_max_signals_per_hour s;
     base_max_confluence_per_hour := base_max_confluence_per_hour s;
     base_max_concurrent_signals := base_max_concurrent_signals s;
     base_signal_timeout := base_signal_timeout s;
     base_quality_threshold := base_quality_threshold s;
     current_limits := current_limits s;
     current_market_regime := Dict.set symbol r (current_market_regime s);
     regime_adjustment_factors := regime_adjustment_factors s |}.

(** [update_market_regime]: the new state and the [changed] flag. *)
Definition update_market_regime (s : t) (symbol : string) (new_regime : MarketRegime)
  : option (t * bool) :=
  let old_regime := Dict.get symbol (current_market_regime s) in
  let same := match old_regime with
              | Some o => regime_eqb o new_regime
              | None => false
              end in
  if same then Some (s, false)
  else
    match _calculate_regime_adjustments (set_regime s symbol new_regime) with
    | Some s' => Some (_apply_regime_adjustments s', true)
    | None => None
    end.

(** The configuration read by [__init__], with its defaults. *)
Record Config := {
  cfg_max_signals_per_minute : Z;
  cfg_max_signals_per_hour : Z;
  cfg_max_confluence_per_hour : Z;
  cfg_max_concurrent_signals : Z;
  cfg_signal_timeout : Z;
  cfg_signal_quality_threshold : Q
}.

Definition default_config : Config :=
  {| cfg_max_signals_per_minute := 10; cfg_max_signals_per_hour := 100;
     cfg_max_confluence_per_hour := 20; cfg_max_concurrent_signals := 5;
     cfg_signal_timeout := 60; cfg_signal_quality_threshold := 0.35 |}.

Definition pre_init (c : Config) : t :=
  {| base_max_signals_per_minute := cfg_max_signals_per_minute c;
     base_max_signals_per_hour := cfg_max_signals_per_hour c;
     base_max_confluence_per_hour := cfg_max_confluence_per_hour c;
     base_max_concurrent_signals := cfg_max_concurrent_signals c;
     base_signal_timeout := cfg_signal_timeout c;
     base_quality_threshold := cfg_signal_quality_threshold c;
     current_limits :=
       {| max_signals_per_minute := cfg_max_signals_per_minute c;
          max_signals_per_hour := cfg_max_signals_per_hour c;
          max_confluence_per_hour := cfg_max_confluence_per_hour c;
          max_concurrent_signals := cfg_max_concurrent_signals c;
          signal_timeout := cfg_signal_timeout c;
          lim_quality_threshold := cfg_signal_quality_threshold c |};
     current_market_regime := [("WDO"%string, RANGING); ("DOL"%string, RANGING)];
     regime_adjustment_factors := unit_factors |}.

(** [__init__]. *)
Definition init (c : Config) : option t := _calculate_regime_adjustments (pre_init c).

(** A run of the system: [__init__] followed by regime updates. *)
Fixpoint updates (s : t) (us : list (string * MarketRegime)) : option t :=
  match us with
  | [] => Some s
  | (symbol, r) :: rest =>
      match update_market_regime s symbol r with
      | Some (s', _) => updates s' rest
      | None => None
      end
  end.

Definition run (c : Config) (us : list (string * MarketRegime)) : option t :=
  match init c with
  | Some s => updates s us
  | None => None
  end.

Definition in_bounds (x : Q) : Prop := (0.3 <= x)%Q /\ (x <= 2.0)%Q.

Definition factors_in_bounds (f : Factors) : Prop :=
  in_bounds (signal_frequency f) /\ in_bounds (quality_threshold f) /\
  in_bounds (concurrent_signals f) /\ in_bounds (timeout f) /\
  in_bounds (circuit_breaker_sensitivity f).

End AdaptiveRiskSystem.

(** ** core/entities/signal.py *)

Module Signal.

Inductive SignalSource := ARBITRAGE | TAPE_READING | CONFLUENCE | SYSTEM | MANIPULATION.
Inductive SignalLevel := INFO | WARNING | ALERT.

(** [source.value] *)
Definition source_value (s : SignalSource) : string :=
  match s with
  | ARBITRAGE => "ARBITRAGE" | TAPE_READING => "TAPE_READING"
  | CONFLUENCE => "CONFLUENCE" | SYSTEM => "SYSTEM" | MANIPULATION => "MANIPULATION"
  end.

(** The entries of [Signal.details] that the filters and the risk
    manager read; [None] is an absent key. *)
Record Details := {
  symbol : option string;
  pattern : option string;
  original_pattern : option string;
  profit : option Q;
  cvd_roc : option Q
}.

(** The [Signal] entity (the message is presentation and is left out). *)
Record t := {
  source : SignalSource;
  level : SignalLevel;
  details : Details
}.

End Signal.

(** ** application/services/calculated_market/confluence_matrix.py *)

Module ConfluenceMatrix.

(** A rule of the matrix: a dictionary with the keys [acao],
    [confianca] and [desc], as every rule of the default table and of
    [check_extreme_conditions] has. *)
Record Rule := { acao : string; confianca : Q; desc : string }.

Record t := {
  rules : gmap (string * string) Rule;
  extreme_force_threshold : Z;
  minimum_force : Z;
  minimum_confidence : Q
}.

Definition mk (a : string) (c : Q) (d : string) : Rule :=
  {| acao := a; confianca := c; desc := d |}.

(** [_get_default_rules] *)
Definition _get_default_rules : gmap (string * string) Rule :=
  list_to_map [
    (("ABSORCAO_COMPRADORA", "DEVENDO"), mk "COMPRA" 0.85 "Absorção em suporte forte");
    (("ABSORCAO_COMPRADORA", "SOFGRE"), mk "COMPRA" 0.90 "Absorção em suporte extremo");
    (("ABSORCAO_COMPRADORA", "PB"), mk "COMPRA" 0.75 "Absorção em suporte primário");
    (("EXAUSTAO_VENDEDORA", "DEVENDO"), mk "COMPRA" 0.80 "Exaustão vendedora em suporte");
    (("EXAUSTAO_VENDEDORA", "SOFGRE"), mk "COMPRA" 0.85 "Exaustão vendedora extrema");
    (("ICEBERG_COMPRADOR", "DEVENDO"), mk "COMPRA" 0.85 "Iceberg comprador em suporte forte");
    (("ICEBERG_COMPRADOR", "PB"), mk "COMPRA" 0.75 "Iceberg comprador em suporte");
    (("VOLUME_SPREAD_COMPRA", "DEVENDO"), mk "COMPRA" 0.80 "Volume spread positivo em suporte");
    (("TRAP", "DEVENDO"), mk "COMPRA" 0.85 "Armadilha de baixa em suporte forte");
    (("SQUEEZE", "SOFGRE"), mk "COMPRA" 0.90 "Squeeze de baixa em suporte extremo");
    (("DIVERGENCIA_ALTA", "DEVENDO"), mk "COMPRA" 0.85 "Divergência altista em suporte forte");
    (("DIVERGENCIA_ALTA", "SOFGRE"), mk "COMPRA" 0.90 "Divergência altista em suporte extremo");
    (("DIVERGENCIA_ALTA", "PB"), mk "COMPRA" 0.75 "Divergência altista em suporte primário");
    (("MOMENTUM_EXTREMO", "SOFGRE"), mk "COMPRA" 0.85 "Momentum de compra extremo em suporte máximo");
    (("MOMENTUM_EXTREMO", "DEVENDO"), mk "COMPRA" 0.80 "Momentum de compra em suporte forte");
    (("ABSORCAO_VENDEDORA", "SOFRER"), mk "VENDA" 0.85 "Absorção em resistência forte");
    (("ABSORCAO_VENDEDORA", "SOFRER_2X"), mk "VENDA" 0.90 "Absorção em resistência extrema");
    (("ABSORCAO_VENDEDORA", "DEFENDO"), mk "VENDA" 0.75 "Absorção em resistência primária");
    (("EXAUSTAO_COMPRADORA", "SOFRER"), mk "VENDA" 0.80 "Exaustão compradora em resistência");
    (("EXAUSTAO_COMPRADORA", "SOFRER_2X"), mk "VENDA" 0.85 "Exaustão compradora extrema");
    (("ICEBERG_VENDEDOR", "DEFENDO"), mk "VENDA" 0.75 "Iceberg vendedor em resistência");
    (("ICEBERG_VENDEDOR", "SOFRER"), mk "VENDA" 0.80 "Iceberg vendedor em resistência forte");
    (("VOLUME_SPREAD_VENDA", "SOFRER"), mk "VENDA" 0.80 "Volume spread negativo em resistência");
    (("TRAP", "SOFRER"), mk "VENDA" 0.85 "Armadilha de alta em resistência forte");
    (("SQUEEZE", "SOFRER_2X"), mk "VENDA" 0.90 "Squeeze de alta em resistência extrema");
    (("DIVERGENCIA_BAIXA", "SOFRER"), mk "VENDA" 0.85 "Divergência baixista em resistência forte");
    (("DIVERGENCIA_BAIXA", "SOFRER_2X"), mk "VENDA" 0.90 "Divergência baixista em resistência extrema");
    (("DIVERGENCIA_BAIXA", "DEFENDO"), mk "VENDA" 0.75 "Divergência baixista em resistência primária");
    (("MOMENTUM_EXTREMO", "SOFRER_2X"), mk "VENDA" 0.85 "Momentum de venda extremo em resistência máxima");
    (("MOMENTUM_EXTREMO", "SOFRER"), mk "VENDA" 0.80 "Momentum de venda em resistência forte")
  ]%string.

(** [__init__] with an empty configuration. *)
Definition default : t :=
  {| rules := _get_default_rules;
     extreme_force_threshold := 9;
     minimum_force := 7;
     minimum_confidence := 0.65 |}.

(** [find_rule]; the absent or empty [signal_direction] is [""]. *)
Definition find_rule (m : t) (pattern_name level_name signal_direction : string)
  : option Rule :=
  match rules m !! (pattern_name, level_name) with
  | Some rule =>
      if negb (String.eqb signal_direction "") then
        if negb (String.eqb (Py.upper (acao rule)) (Py.upper signal_direction))
        then None
        else Some rule
      else Some rule
  | None => None
  end.

(** [check_extreme_conditions] *)
Definition check_extreme_conditions (m : t) (strength : Z) (level_name : string)
  : option Rule :=
  if (extreme_force_threshold m <=? strength)%Z then
    if String.eqb level_name "SOFRER_2X" then
      Some (mk "VENDA" 0.85 "Força extrema em resistência máxima")
    else if String.eqb level_name "SOFGRE" then
      Some (mk "COMPRA" 0.85 "Força extrema em suporte máximo")
    else None
  else None.

(** [is_valid_signal] *)
Definition is_valid_signal (m : t) (rule : option Rule) (strength : Z) : bool :=
  match rule with
  | None => false
  | Some r =>
      if (strength <? minimum_force m)%Z then false
      else if Py.Qltb (confianca r) (minimum_confidence m) then false
      else true
  end.

End ConfluenceMatrix.

(** ** application/services/calculated_market/analyzer.py *)

Module CalculatedMarketAnalyzer.

(** level_calculator.py, [CalculatedLevel] *)
Record CalculatedLevel := {
  name : string;
  price : Q;
  type : string;
  strength : Z;
  distance : option Q;
  position : option string
}.

Record t := {
  tolerancia_proximidade : Q;
  matrix : ConfluenceMatrix.t;
  janelas_ptax : list (Z * Z);
  niveis_calculados : list (string * CalculatedLevel)
}.

(** The default [janelas_ptax] after [_parse_ptax_windows]. *)
Definition default_janelas_ptax : list (Z * Z) :=
  [(PyTime.hm 10 0, PyTime.hm 10 10); (PyTime.hm 11 0, PyTime.hm 11 10);
   (PyTime.hm 12 0, PyTime.hm 12 10); (PyTime.hm 13 0, PyTime.hm 13 10)].

(** The assignment to [nivel.distance] and [nivel.position] in
    [check_proximity]. *)
Definition touch (p : Q) (n : CalculatedLevel) : CalculatedLevel :=
  {| name := name n; price := price n; type := type n; strength := strength n;
     distance := Some (Qabs (p - price n));
     position := Some (if Py.Qltb (price n) p then "ACIMA" else "ABAIXO")%string |}.

(** [check_proximity]: the first level within the tolerance, and the
    level dictionary after the update of that level. *)
Fixpoint check_proximity_in (tol p : Q) (niveis : list (string * CalculatedLevel))
  : option (string * CalculatedLevel) * list (string * CalculatedLevel) :=
  match niveis with
  | [] => (None, [])
  | (nome, nivel) :: rest =>
      if Qle_bool (Qabs (p - price nivel)) tol
      then (Some (nome, touch p nivel), (nome, touch p nivel) :: rest)
      else
        let '(r, rest') := check_proximity_in tol p rest in
        (r, (nome, nivel) :: rest')
  end.

Definition with_niveis (a : t) (niveis : list (string * CalculatedLevel)) : t :=
  {| tolerancia_proximidade := tolerancia_proximidade a;
     matrix := matrix a;
     janelas_ptax := janelas_ptax a;
     niveis_calculados := niveis |}.

Definition check_proximity (a : t) (p : Q) : option (string * CalculatedLevel) * t :=
  let '(r, niveis) := check_proximity_in (tolerancia_proximidade a) p (niveis_calculados a) in
  (r, with_niveis a niveis).

(** [is_ptax_window] *)
Definition is_ptax_window (a : t) (timestamp : PyTime.datetime) : bool :=
  let current_time := PyTime.time_of_day timestamp in
  existsb (fun w => (fst w <=? current_time)%Z && (current_time <=? snd w)%Z)
          (janelas_ptax a).

(** [_normalize_pattern_name] *)
Definition _normalize_pattern_name (pattern : string) : string :=
  if String.eqb pattern "" then "UNKNOWN"%string else Py.upper pattern.

(** The confidence stored in the signal:
    [if is_ptax: confidence = min(confidence + 0.1, 0.95)]. *)
Definition ptax_confidence (is_ptax : bool) (confidence : Q) : Q :=
  if is_ptax then Py.min (confidence + 0.1) 0.95 else confidence.

(** The confluence signal: [source], [level] and the entries of
    [details] (the message, the stop and the target are presentation
    and are left out). *)
Record ConfluenceSignal := {
  source : Signal.SignalSource;
  level : Signal.SignalLevel;
  d_symbol : string;
  d_pattern : string;
  d_pattern_normalized : string;
  d_price : Q;
  d_level : string;
  d_level_price : Q;
  d_level_type : string;
  d_action : string;
  d_confidence : Q;
  d_strength : Z;
  d_volume : Z;
  d_is_ptax_window : bool;
  d_timestamp : PyTime.datetime;
  d_rule_applied : ConfluenceMatrix.Rule;
  d_direction : string
}.

(** [_create_confluence_signal] *)
Definition _create_confluence_signal (a : t) (tape_pattern : string) (p : Q)
    (symbol level_name : string) (level_info : CalculatedLevel)
    (rule : ConfluenceMatrix.Rule) (strength volume : Z)
    (timestamp : PyTime.datetime) (direction : string) : ConfluenceSignal :=
  let is_ptax := is_ptax_window a timestamp in
  {| source := Signal.CONFLUENCE;
     level := Signal.ALERT;
     d_symbol := symbol;
     d_pattern := tape_pattern;
     d_pattern_normalized := _normalize_pattern_name tape_pattern;
     d_price := p;
     d_level := level_name;
     d_level_price := price level_info;
     d_level_type := type level_info;
     d_action := ConfluenceMatrix.acao rule;
     d_confidence := ptax_confidence is_ptax (ConfluenceMatrix.confianca rule);
     d_strength := strength;
     d_volume := volume;
     d_is_ptax_window := is_ptax;
     d_timestamp := timestamp;
     d_rule_applied := rule;
     d_direction := direction |}.

(** [analyze_confluence]; [direction] is the keyword argument of that
    name, [""] when it is not passed. *)
Definition analyze_confluence (a : t) (tape_pattern : string) (p : Q)
    (symbol : string) (strength volume : Z) (timestamp : PyTime.datetime)
    (direction : string) : option ConfluenceSignal * t :=
  match check_proximity a p with
  | (None, a') => (None, a')
  | (Some (level_name, level_info), a') =>
      let pattern_normalized := _normalize_pattern_name tape_pattern in
      let rule := ConfluenceMatrix.find_rule (matrix a') pattern_normalized level_name direction in
      let rule := match rule with
                  | Some r => Some r
                  | None => ConfluenceMatrix.check_extreme_conditions (matrix a') strength level_name
                  end in
      if ConfluenceMatrix.is_valid_signal (matrix a') rule strength then
        match rule with
        | Some r =>
            (Some (_create_confluence_signal a' tape_pattern p symbol level_name
                     level_info r strength volume timestamp direction), a')
        | None => (None, a')
        end
      else (None, a')
  end.

End CalculatedMarketAnalyzer.

(** ** application/services/calculated_market/level_calculator.py *)

Module LevelCalculator.
Import CalculatedMarketAnalyzer.

(** [round(x)]: the nearest integer, a half going to the even one. *)
Definition round_half_even (x : Q) : Z :=
  let f := Qfloor x in
  let r := (x - inject_Z f)%Q in
  if Py.Qltb r (1 # 2) then f
  else if Py.Qltb (1 # 2) r then (f + 1)%Z
  else if Z.even f then f else (f + 1)%Z.

(** [round(x, 2)] *)
Definition round2 (x : Q) : Q := (inject_Z (round_half_even (x * 100)) / 100)%Q.

Record t := {
  cupom_cambial : Q;
  volatilidade_unidade : Q;
  multiplicadores : list (string * Q)
}.

(** [__init__] with an empty configuration. *)
Definition default : t :=
  {| cupom_cambial := 25;
     volatilidade_unidade := 12.5;
     multiplicadores :=
       [("SOFRER_2X", 1.60); ("SOFRER", 1.25); ("SX_SUP", 0.80); ("DEFENDO", 0.45);
        ("BASE", 0.00); ("PB", -0.45); ("SX", -0.80); ("DEVENDO", -1.25);
        ("SOFGRE", -1.60)]%string%Q |}.

(** The body of the loop of [calculate] for one multiplier. *)
Definition level_of (lc : t) (valor_justo : Q) (nome : string) (multiplicador : Q)
  : CalculatedLevel :=
  let preco := (valor_justo + multiplicador * volatilidade_unidade lc)%Q in
  let tipo :=
    if Py.Qltb 0 multiplicador then "RESISTENCIA"%string
    else if Py.Qltb multiplicador 0 then "SUPORTE"%string
    else "PIVOT"%string in
  let strength := Z.min (Z.abs (Py.int (multiplicador * 2))) 3 in
  {| name := nome; price := round2 preco; type := tipo; strength := strength;
     distance := None; position := None |}.

(** [calculate] *)
Definition calculate (lc : t) (ptax : Q) : Q * list (string * CalculatedLevel) :=
  if Qle_bool ptax 0 then (0%Q, [])
  else
    let valor_justo := (ptax * 1000 + cupom_cambial lc)%Q in
    (round2 valor_justo,
     map (fun kv => (fst kv, level_of lc valor_justo (fst kv) (snd kv))) (multiplicadores lc)).

(** [max(l)] and [min(l)] of a list that is not empty. *)
Definition maximum (l : list Q) : option Q :=
  match l with
  | [] => None
  | x :: rest => Some (fold_left Py.max rest x)
  end.

Definition minimum (l : list Q) : option Q :=
  match l with
  | [] => None
  | x :: rest => Some (fold_left Py.min rest x)
  end.

(** [[n.price for n in niveis.values() if n.type == tipo and keep(n.price)]] *)
Definition prices_of (tipo : string) (keep : Q -> bool)
    (niveis : list (string * CalculatedLevel)) : list Q :=
  map price
    (List.filter (fun n => String.eqb (type n) tipo && keep (price n)) (map snd niveis)).

(** [calculate_stops_and_targets] *)
Definition calculate_stops_and_targets (action : string) (current_price : Q)
    (niveis : list (string * CalculatedLevel)) : Q * Q :=
  let supports := prices_of "SUPORTE" (fun p => Py.Qltb p current_price) niveis in
  let resistances := prices_of "RESISTENCIA" (fun p => Py.Qltb current_price p) niveis in
  if String.eqb action "COMPRA" then
    let stop :=
      match maximum supports with
      | Some m => (m - 5.0)%Q
      | None => (current_price - 20.0)%Q
      end in
    let target :=
      match minimum resistances with
      | Some m => m
      | None => (current_price + 20.0)%Q
      end in
    (round2 stop, round2 target)
  else
    let stop :=
      match minimum resistances with
      | Some m => (m + 5.0)%Q
      | None => (current_price + 20.0)%Q
      end in
    let target :=
      match maximum supports with
      | Some m => m
      | None => (current_price - 20.0)%Q
      end in
    (round2 stop, round2 target).

End LevelCalculator.

(** ** collections.deque with a maximum length *)

Module Deque.

(** [d.append(x)] on a [deque(maxlen=n)]: when the deque is full its
    oldest element is discarded. *)
Definition append {A} (maxlen : nat) (d : list A) (x : A) : list A :=
  match maxlen with
  | O => d
  | _ => if (length d <? maxlen)%nat then d ++ [x] else tl d ++ [x]
  end.

(** [d.extend(xs)]: the elements are appended one by one. *)
Definition extend {A} (maxlen : nat) (d : list A) (xs : list A) : list A :=
  fold_left (append maxlen) xs d.

End Deque.

(** ** application/services/risk/types.py *)

Module RiskTypes.

Inductive RiskLevel := LOW | MEDIUM | HIGH | CRITICAL.
Inductive SignalQuality := POOR | FAIR | GOOD | EXCELLENT.

(** [CircuitBreakerState] *)
Record CircuitBreakerState := {
  active : bool;
  triggered_at : option PyTime.datetime;
  reason : string;
  cooldown_seconds : Z
}.

End RiskTypes.

(** ** application/services/risk/circuit_breaker.py *)

Module CircuitBreakerSystem.
Import RiskTypes.

(** The [breakers] dictionary, in insertion order. *)
Definition t := list (string * CircuitBreakerState).

Definition fresh (cooldown : Z) : CircuitBreakerState :=
  {| active := false; triggered_at := None; reason := ""; cooldown_seconds := cooldown |}.

(** [__init__]; [cooldown] is [circuit_breaker_cooldown], 300 by default. *)
Definition init (cooldown : Z) : t :=
  [("frequency", fresh cooldown); ("quality", fresh cooldown);
   ("drawdown", fresh cooldown); ("consecutive_losses", fresh cooldown);
   ("emergency", fresh cooldown); ("exposure", fresh 60)]%string.

(** An entry of [result['triggered']]: the breaker, its reason and the
    remaining seconds when the f-string prints them. *)
Record Triggered := {
  t_name : string;
  t_reason : string;
  t_remaining : option Z
}.

Record CheckResult := {
  all_clear : bool;
  triggered : list Triggered
}.

(** The assignments of [_reset_breaker] on one state. *)
Definition reset_state (st : CircuitBreakerState) : CircuitBreakerState :=
  {| active := false; triggered_at := None; reason := "";
     cooldown_seconds := cooldown_seconds st |}.

(** [_reset_breaker]; [None] is the [KeyError] of an unknown name. *)
Definition _reset_breaker (bs : t) (name : string) : option t :=
  match Dict.get name bs with
  | Some st => Some (Dict.set name (reset_state st) bs)
  | None => None
  end.

Definition blocked (res : CheckResult) (e : Triggered) : CheckResult :=
  {| all_clear := false; triggered := triggered res ++ [e] |}.

(** The body of the loop of [check_all] for one breaker: the result so
    far and the state of that breaker afterwards. *)
Definition check_one (now : PyTime.datetime) (name : string)
    (state : CircuitBreakerState) (res : CheckResult)
  : CheckResult * CircuitBreakerState :=
  if active state then
    match triggered_at state with
    | Some at_ =>
        let elapsed := PyTime.seconds (PyTime.sub now at_) in
        if (elapsed <? cooldown_seconds state)%Z then
          (blocked res {| t_name := name; t_reason := reason state;
                          t_remaining := Some (cooldown_seconds state - elapsed)%Z |},
           state)
        else (res, reset_state state)
    | None =>
        (blocked res {| t_name := name; t_reason := reason state; t_remaining := None |},
         state)
    end
  else (res, state).

Fixpoint check_loop (now : PyTime.datetime) (items : t) (res : CheckResult)
  : CheckResult * t :=
  match items with
  | [] => (res, [])
  | (name, state) :: rest =>
      let '(res1, state1) := check_one now name state res in
      let '(res2, rest2) := check_loop now rest res1 in
      (res2, (name, state1) :: rest2)
  end.

(** [check_all] *)
Definition check_all (bs : t) (now : PyTime.datetime) : CheckResult * t :=
  check_loop now bs {| all_clear := true; triggered := [] |}.

(** [trigger] *)
Definition trigger (bs : t) (now : PyTime.datetime) (name why : string) : t :=
  match Dict.get name bs with
  | None => bs
  | Some st =>
      if active st then bs
      else Dict.set name {| active := true; triggered_at := Some now; reason := why;
                           cooldown_seconds := cooldown_seconds st |} bs
  end.

(** [get_active_breakers] *)
Definition get_active_breakers (bs : t) : list string :=
  map fst (List.filter (fun kv => active (snd kv)) bs).

(** [reset_all]: [_reset_breaker] for each of the names. *)
Fixpoint reset_names (names : list string) (bs : t) : option t :=
  match names with
  | [] => Some bs
  | name :: rest =>
      match _reset_breaker bs name with
      | Some bs' => reset_names rest bs'
      | None => None
      end
  end.

Definition reset_all (bs : t) : option t := reset_names (map fst bs) bs.

End CircuitBreakerSystem.

(** ** application/services/risk/evaluator.py *)

Module SignalEvaluator.
Import RiskTypes.

Record Weights := {
  source_weight : Q;
  level_weight : Q;
  details_weight : Q;
  pattern_weight : Q
}.

Definition default_weights : Weights :=
  {| source_weight := 1.5; level_weight := 0.8; details_weight := 1.5; pattern_weight := 1.2 |}.

Record t := {
  quality_threshold : Q;
  quality_weights : Weights;
  evaluated_count : Z;
  approved_count : Z;
  rejection_reasons : gmap string Z
}.

(** [QualityEvaluation] without the display lists [criteria] and
    [improvements]. *)
Record QualityEvaluation := {
  q_score : Q;
  q_rating : SignalQuality;
  q_passed : bool
}.

Definition high_quality_patterns : list string :=
  ["ESCORA_DETECTADA"; "DIVERGENCIA_ALTA"; "DIVERGENCIA_BAIXA"; "ICEBERG"; "MOMENTUM_EXTREMO"]%string.
Definition medium_quality_patterns : list string :=
  ["PRESSAO_COMPRA"; "PRESSAO_VENDA"; "VOLUME_SPIKE"]%string.

Definition mem (x : string) (l : list string) : bool := existsb (String.eqb x) l.

Definition Qgeb (a b : Q) : bool := Qle_bool b a.

(** The accumulated [score] and [max_score] of [evaluate_quality]. *)
Definition quality_score (w : Weights) (signal : Signal.t) : Q * Q :=
  let score := 0%Q in
  let max_score := 0%Q in
  let max_score := (max_score + source_weight w)%Q in
  let score :=
    match Signal.source signal with
    | Signal.CONFLUENCE => (score + source_weight w)%Q
    | Signal.ARBITRAGE => (score + source_weight w * 0.8)%Q
    | Signal.TAPE_READING => (score + source_weight w * 0.6)%Q
    | _ => (score + source_weight w * 0.3)%Q
    end in
  let max_score := (max_score + level_weight w)%Q in
  let score :=
    match Signal.level signal with
    | Signal.ALERT => (score + level_weight w)%Q
    | Signal.WARNING => (score + level_weight w * 0.6)%Q
    | Signal.INFO => (score + level_weight w * 0.2)%Q
    end in
  let max_score := (max_score + details_weight w)%Q in
  let profit := default 0%Q (Signal.profit (Signal.details signal)) in
  let score :=
    if Qgeb profit 50 then (score + details_weight w * 0.6)%Q
    else if Qgeb profit 20 then (score + details_weight w * 0.4)%Q
    else score in
  let max_score := (max_score + pattern_weight w)%Q in
  let pattern := default ""%string (Signal.original_pattern (Signal.details signal)) in
  let score :=
    if mem pattern high_quality_patterns then (score + pattern_weight w)%Q
    else if mem pattern medium_quality_patterns then (score + pattern_weight w * 0.7)%Q
    else score in
  (score, max_score).

(** [evaluate_quality] *)
Definition evaluate_quality (e : t) (signal : Signal.t) : QualityEvaluation * t :=
  let '(score, max_score) := quality_score (quality_weights e) signal in
  let normalized_score := if Py.Qltb 0 max_score then (score / max_score)%Q else 0%Q in
  let rating :=
    if Qgeb normalized_score 0.7 then EXCELLENT
    else if Qgeb normalized_score 0.5 then GOOD
    else if Qgeb normalized_score 0.35 then FAIR
    else POOR in
  let passed := Qgeb normalized_score (quality_threshold e) in
  let pattern := default ""%string (Signal.original_pattern (Signal.details signal)) in
  let pattern_key := if String.eqb pattern "" then "UNKNOWN"%string else pattern in
  ({| q_score := normalized_score; q_rating := rating; q_passed := passed |},
   {| quality_threshold := quality_threshold e;
      quality_weights := quality_weights e;
      evaluated_count := evaluated_count e + 1;
      approved_count := if passed then approved_count e + 1 else approved_count e;
      rejection_reasons :=
        if passed then rejection_reasons e
        else <[pattern_key := (default 0%Z (rejection_reasons e !! pattern_key) + 1)%Z]>
               (rejection_reasons e) |}).

(** The entries of [risk_factors]. *)
Inductive RiskFactor :=
| SystemCritical | SystemHigh | SystemMedium
| NearMaxDrawdown | LowLiquidityHour | ExtremeVolatility.

(** The [context] dictionary built by the risk manager. *)
Record Context := {
  system_risk_level : RiskLevel;
  current_drawdown : Q;
  consecutive_losses : Z
}.

(** [ContextualRisk] ([reason] is the factors joined by ["; "]). *)
Record ContextualRisk := {
  level : RiskLevel;
  score : Z;
  factors : list RiskFactor
}.

(** The four additive contributions of [evaluate_contextual_risk]. *)
Definition system_points (r : RiskLevel) : Z * list RiskFactor :=
  match r with
  | CRITICAL => (3, [SystemCritical])
  | HIGH => (2, [SystemHigh])
  | MEDIUM => (1, [SystemMedium])
  | LOW => (0, [])
  end%Z.

Definition drawdown_points (drawdown : Q) : Z * list RiskFactor :=
  if Py.Qltb 1.5 drawdown then (2, [NearMaxDrawdown])%Z else (0, [])%Z.

Definition hour_points (now : PyTime.datetime) : Z * list RiskFactor :=
  let hour := PyTime.hour now in
  if (hour <? 10)%Z || (16 <? hour)%Z then (1, [LowLiquidityHour])%Z else (0, [])%Z.

Definition volatility_points (signal : Signal.t) : Z * list RiskFactor :=
  match Signal.cvd_roc (Signal.details signal) with
  | Some roc => if Py.Qltb 150 (Qabs roc) then (1, [ExtremeVolatility])%Z else (0, [])%Z
  | None => (0, [])%Z
  end.

Definition level_of_score (risk_score : Z) : RiskLevel :=
  if (4 <=? risk_score)%Z then CRITICAL
  else if (3 <=? risk_score)%Z then HIGH
  else if (2 <=? risk_score)%Z then MEDIUM
  else LOW.

(** [evaluate_contextual_risk] *)
Definition evaluate_contextual_risk (signal : Signal.t) (context : Context)
    (now : PyTime.datetime) : ContextualRisk :=
  let risk_factors := [] in
  let risk_score := 0%Z in
  let '(p, f) := system_points (system_risk_level context) in
  let risk_score := (risk_score + p)%Z in
  let risk_factors := risk_factors ++ f in
  let '(p, f) := drawdown_points (current_drawdown context) in
  let risk_score := (risk_score + p)%Z in
  let risk_factors := risk_factors ++ f in
  let '(p, f) := hour_points now in
  let risk_score := (risk_score + p)%Z in
  let risk_factors := risk_factors ++ f in
  let '(p, f) := volatility_points signal in
  let risk_score := (risk_score + p)%Z in
  let risk_factors := risk_factors ++ f in
  {| level := level_of_score risk_score; score := risk_score; factors := risk_factors |}.

End SignalEvaluator.

(** ** application/services/risk/metrics_tracker.py *)

Module RiskMetricsTracker.
Import RiskTypes.

Record RiskMetrics := {
  total_signals : Z;
  signals_approved : Z;
  signals_rejected : Z;
  consecutive_losses : Z;
  daily_pnl : Q;
  peak_pnl : Q;
  current_drawdown : Q
}.

Record ActiveSignal := {
  as_signal : Signal.t;
  as_timestamp : PyTime.datetime;
  as_timeout : PyTime.datetime
}.

Record t := {
  cfg_signal_timeout : Z;
  ts_all : list PyTime.datetime;
  ts_confluence : list PyTime.datetime;
  ts_arbitrage : list PyTime.datetime;
  ts_tape_reading : list PyTime.datetime;
  active_signals : gmap (string * Z) ActiveSignal;
  signal_history : list (Signal.t * PyTime.datetime * bool);
  metrics : RiskMetrics
}.

(** [__init__]; [timeout] is [signal_timeout], 60 by default. *)
Definition init (timeout : Z) : t :=
  {| cfg_signal_timeout := timeout;
     ts_all := []; ts_confluence := []; ts_arbitrage := []; ts_tape_reading := [];
     active_signals := ∅;
     signal_history := [];
     metrics := {| total_signals := 0; signals_approved := 0; signals_rejected := 0;
                   consecutive_losses := 0; daily_pnl := 0; peak_pnl := 0;
                   current_drawdown := 0 |} |}.

(** [get_active_signals_count] *)
Definition get_active_signals_count (m : t) : Z := Z.of_nat (size (active_signals m)).

(** [record_signal_approval]; the identifier
    [f"{signal.source.value}_{now.timestamp()}"] is the pair of its parts. *)
Definition record_signal_approval (m : t) (signal : Signal.t) (now : PyTime.datetime) : t :=
  let src := Signal.source signal in
  {| cfg_signal_timeout := cfg_signal_timeout m;
     ts_all := Deque.append 500 (ts_all m) now;
     ts_confluence :=
       match src with
       | Signal.CONFLUENCE => Deque.append 100 (ts_confluence m) now
       | _ => ts_confluence m
       end;
     ts_arbitrage :=
       match src with
       | Signal.ARBITRAGE => Deque.append 200 (ts_arbitrage m) now
       | _ => ts_arbitrage m
       end;
     ts_tape_reading :=
       match src with
       | Signal.TAPE_READING => Deque.append 300 (ts_tape_reading m) now
       | _ => ts_tape_reading m
       end;
     active_signals :=
       <[(Signal.source_value src, now) :=
           {| as_signal := signal; as_timestamp := now;
              as_timeout := (now + PyTime.of_seconds (cfg_signal_timeout m))%Z |}]>
         (active_signals m);
     signal_history := Deque.append 1000 (signal_history m) (signal, now, true);
     metrics :=
       {| total_signals := total_signals (metrics m) + 1;
          signals_approved := signals_approved (metrics m) + 1;
          signals_rejected := signals_rejected (metrics m);
          consecutive_losses := consecutive_losses (metrics m);
          daily_pnl := daily_pnl (metrics m);
          peak_pnl := peak_pnl (metrics m);
          current_drawdown := current_drawdown (metrics m) |} |}.

(** The rejections of [check_signal_frequency], with the count reported. *)
Inductive FrequencyCheck :=
| WithinLimits
| PerMinute (n : Z)
| PerHour (n : Z)
| ConfluencePerHour (n : Z).

Definition count_after (cut : PyTime.datetime) (ts : list PyTime.datetime) : Z :=
  Z.of_nat (length (List.filter (fun t => (cut <? t)%Z) ts)).

(** [check_signal_frequency] *)
Definition check_signal_frequency (m : t) (signal : Signal.t)
    (limits : AdaptiveRiskSystem.Limits) (now : PyTime.datetime) : FrequencyCheck :=
  let one_minute_ago := (now - PyTime.of_seconds 60)%Z in
  let signals_last_minute := count_after one_minute_ago (ts_all m) in
  if (AdaptiveRiskSystem.max_signals_per_minute limits <=? signals_last_minute)%Z
  then PerMinute signals_last_minute
  else
    let one_hour_ago := (now - PyTime.of_seconds 3600)%Z in
    let signals_last_hour := count_after one_hour_ago (ts_all m) in
    if (AdaptiveRiskSystem.max_signals_per_hour limits <=? signals_last_hour)%Z
    then PerHour signals_last_hour
    else
      match Signal.source signal with
      | Signal.CONFLUENCE =>
          let confluence_last_hour := count_after one_hour_ago (ts_confluence m) in
          if (AdaptiveRiskSystem.max_confluence_per_hour limits <=? confluence_last_hour)%Z
          then ConfluencePerHour confluence_last_hour
          else WithinLimits
      | _ => WithinLimits
      end.

(** [record_signal_rejection] *)
Definition record_signal_rejection (m : t) (signal : Signal.t) (now : PyTime.datetime) : t :=
  {| cfg_signal_timeout := cfg_signal_timeout m;
     ts_all := ts_all m; ts_confluence := ts_confluence m;
     ts_arbitrage := ts_arbitrage m; ts_tape_reading := ts_tape_reading m;
     active_signals := active_signals m;
     signal_history := Deque.append 1000 (signal_history m) (signal, now, false);
     metrics :=
       {| total_signals := total_signals (metrics m) + 1;
          signals_approved := signals_approved (metrics m);
          signals_rejected := signals_rejected (metrics m) + 1;
          consecutive_losses := consecutive_losses (metrics m);
          daily_pnl := daily_pnl (metrics m);
          peak_pnl := peak_pnl (metrics m);
          current_drawdown := current_drawdown (metrics m) |} |}.

Definition with_metrics (m : t) (r : RiskMetrics) : t :=
  {| cfg_signal_timeout := cfg_signal_timeout m;
     ts_all := ts_all m; ts_confluence := ts_confluence m;
     ts_arbitrage := ts_arbitrage m; ts_tape_reading := ts_tape_reading m;
     active_signals := active_signals m;
     signal_history := signal_history m;
     metrics := r |}.

(** The metrics after [update_pnl]. *)
Definition pnl_metrics (r : RiskMetrics) (pnl : Q) : RiskMetrics :=
  let daily := (daily_pnl r + pnl)%Q in
  let peak := if Py.Qltb (peak_pnl r) daily then daily else peak_pnl r in
  let drawdown := (peak - daily)%Q in
  let drawdown_pct := if Py.Qltb 0 peak then (drawdown / peak * 100)%Q else 0%Q in
  {| total_signals := total_signals r;
     signals_approved := signals_approved r;
     signals_rejected := signals_rejected r;
     consecutive_losses := if Py.Qltb pnl 0 then consecutive_losses r + 1 else 0;
     daily_pnl := daily;
     peak_pnl := peak;
     current_drawdown := drawdown_pct |}.

(** [update_pnl] *)
Definition update_pnl (m : t) (pnl : Q) : t := with_metrics m (pnl_metrics (metrics m) pnl).

(** [cleanup_expired_signals]: the tracker and the number returned. *)
Definition cleanup_expired_signals (m : t) (timeout_seconds : Z) (now : PyTime.datetime)
  : t * Z :=
  let kept := filter (fun kv => (as_timeout (snd kv) <? now)%Z = false) (active_signals m) in
  ({| cfg_signal_timeout := cfg_signal_timeout m;
      ts_all := ts_all m; ts_confluence := ts_confluence m;
      ts_arbitrage := ts_arbitrage m; ts_tape_reading := ts_tape_reading m;
      active_signals := kept;
      signal_history := signal_history m;
      metrics := metrics m |},
   Z.of_nat (size kept)).

End RiskMetricsTracker.

(** ** application/services/risk/manager.py *)

Module RiskManager.
Import RiskTypes.

(** The entries of [assessment['reasons']]. *)
Inductive Reason :=
| BreakerActive (e : CircuitBreakerSystem.Triggered)
| ActiveSignalsLimit (limit : Z)
| CurrentRegime (regimes : list (string * AdaptiveRiskSystem.MarketRegime))
| FrequencyLimit (c : RiskMetricsTracker.FrequencyCheck)
| InsufficientQuality (score threshold : Q)
| RaisedThreshold
| HighContextualRisk (factors : list SignalEvaluator.RiskFactor).

(** [SignalAssessment] (the display list [recommendations] is left out). *)
Record SignalAssessment := {
  approved : bool;
  risk_level : RiskLevel;
  quality : SignalQuality;
  reasons : list Reason;
  timestamp : PyTime.datetime
}.

(** What the manager publishes on the event bus. *)
Inductive Event :=
| SIGNAL_APPROVED (signal : Signal.t) (assessment : SignalAssessment).

Record t := {
  circuit_breakers : CircuitBreakerSystem.t;
  evaluator : SignalEvaluator.t;
  adaptive_system : AdaptiveRiskSystem.t;
  metrics_tracker : RiskMetricsTracker.t;
  consecutive_losses_limit : Z;
  max_drawdown_percent : Q;
  emergency_stop_loss : Q;
  published : list Event
}.

Definition with_breakers (m : t) (bs : CircuitBreakerSystem.t) : t :=
  {| circuit_breakers := bs;
     evaluator := evaluator m;
     adaptive_system := adaptive_system m;
     metrics_tracker := metrics_tracker m;
     consecutive_losses_limit := consecutive_losses_limit m;
     max_drawdown_percent := max_drawdown_percent m;
     emergency_stop_loss := emergency_stop_loss m;
     published := published m |}.

Definition with_evaluator (m : t) (e : SignalEvaluator.t) : t :=
  {| circuit_breakers := circuit_breakers m;
     evaluator := e;
     adaptive_system := adaptive_system m;
     metrics_tracker := metrics_tracker m;
     consecutive_losses_limit := consecutive_losses_limit m;
     max_drawdown_percent := max_drawdown_percent m;
     emergency_stop_loss := emergency_stop_loss m;
     published := published m |}.

Definition set_threshold (e : SignalEvaluator.t) (q : Q) : SignalEvaluator.t :=
  {| SignalEvaluator.quality_threshold := q;
     SignalEvaluator.quality_weights := SignalEvaluator.quality_weights e;
     SignalEvaluator.evaluated_count := SignalEvaluator.evaluated_count e;
     SignalEvaluator.approved_count := SignalEvaluator.approved_count e;
     SignalEvaluator.rejection_reasons := SignalEvaluator.rejection_reasons e |}.

(** The state after [record_signal_approval] and the publication of
    [SIGNAL_APPROVED]. *)
Definition approve (m : t) (signal : Signal.t) (a : SignalAssessment)
    (now : PyTime.datetime) : t :=
  {| circuit_breakers := circuit_breakers m;
     evaluator := evaluator m;
     adaptive_system := adaptive_system m;
     metrics_tracker :=
       RiskMetricsTracker.record_signal_approval (metrics_tracker m) signal now;
     consecutive_losses_limit := consecutive_losses_limit m;
     max_drawdown_percent := max_drawdown_percent m;
     emergency_stop_loss := emergency_stop_loss m;
     published := published m ++ [SIGNAL_APPROVED signal a] |}.

Definition Qgeb (a b : Q) : bool := Qle_bool b a.

Definition is_volatile (r : AdaptiveRiskSystem.MarketRegime) : bool :=
  match r with
  | AdaptiveRiskSystem.VOLATILE => true
  | _ => false
  end.

(** [_calculate_current_risk_level] *)
Definition _calculate_current_risk_level (m : t) : RiskLevel :=
  let metrics := RiskMetricsTracker.metrics (metrics_tracker m) in
  let active_breakers :=
    Z.of_nat (length (CircuitBreakerSystem.get_active_breakers (circuit_breakers m))) in
  if (3 <=? active_breakers)%Z then CRITICAL
  else if (2 <=? active_breakers)%Z then HIGH
  else if (1 <=? active_breakers)%Z then MEDIUM
  else
    let losses := inject_Z (RiskMetricsTracker.consecutive_losses metrics) in
    let limit := inject_Z (consecutive_losses_limit m) in
    if Qgeb losses limit then CRITICAL
    else if Qgeb losses (limit * 0.6) then HIGH
    else
      let drawdown := RiskMetricsTracker.current_drawdown metrics in
      if Qgeb drawdown (max_drawdown_percent m) then CRITICAL
      else if Qgeb drawdown (max_drawdown_percent m * 0.7) then HIGH
      else
        let pnl := RiskMetricsTracker.daily_pnl metrics in
        if Qle_bool pnl (- emergency_stop_loss m) then CRITICAL
        else if Qle_bool pnl (- emergency_stop_loss m * 0.5) then HIGH
        else
          let volatile_count :=
            length (List.filter (fun kv => is_volatile (snd kv))
                      (AdaptiveRiskSystem.current_market_regime (adaptive_system m))) in
          if (2 <=? volatile_count)%nat then MEDIUM else LOW.

Definition is_high_or_critical (l : RiskLevel) : bool :=
  match l with
  | HIGH | CRITICAL => true
  | _ => false
  end.

(** The assessment dictionary at the start of [evaluate_signal]. *)
Definition initial_assessment (now : PyTime.datetime) : SignalAssessment :=
  {| approved := false; risk_level := LOW; quality := POOR; reasons := [];
     timestamp := now |}.

Definition reject (a : SignalAssessment) (l : RiskLevel) (q : SignalQuality)
    (rs : list Reason) : SignalAssessment :=
  {| approved := false; risk_level := l; quality := q; reasons := rs;
     timestamp := timestamp a |}.

(** Steps 5 and 6 of [evaluate_signal]: the contextual risk and the
    approval. [m] is the manager after step 4, [q] the rating it gave. *)
Definition contextual_stage (m : t) (signal : Signal.t) (assessment : SignalAssessment)
    (q : SignalQuality) (now : PyTime.datetime) : bool * SignalAssessment * t :=
  let metrics := RiskMetricsTracker.metrics (metrics_tracker m) in
  let context :=
    {| SignalEvaluator.system_risk_level := _calculate_current_risk_level m;
       SignalEvaluator.current_drawdown := RiskMetricsTracker.current_drawdown metrics;
       SignalEvaluator.consecutive_losses := RiskMetricsTracker.consecutive_losses metrics |} in
  let context_risk := SignalEvaluator.evaluate_contextual_risk signal context now in
  let lvl := SignalEvaluator.level context_risk in
  if is_high_or_critical lvl then
    (false,
     reject assessment lvl q
       (reasons assessment ++ [HighContextualRisk (SignalEvaluator.factors context_risk)]),
     m)
  else
    let a := {| approved := true; risk_level := lvl; quality := q;
                reasons := reasons assessment; timestamp := timestamp assessment |} in
    (true, a, approve m signal a now).

(** Steps 2 to 4 of [evaluate_signal]: exposure, frequency and quality.
    [inl] is a rejection, [inr] the manager and the rating that reach
    step 5. *)
Definition limit_stages (m : t) (signal : Signal.t) (assessment : SignalAssessment)
    (now : PyTime.datetime)
  : (SignalAssessment * t) + (SignalQuality * t) :=
  let current_limits := AdaptiveRiskSystem.current_limits (adaptive_system m) in
  let active_count := RiskMetricsTracker.get_active_signals_count (metrics_tracker m) in
  if (AdaptiveRiskSystem.max_concurrent_signals current_limits <=? active_count)%Z then
    inl (reject assessment HIGH (quality assessment)
           (reasons assessment ++
              [ActiveSignalsLimit (AdaptiveRiskSystem.max_concurrent_signals current_limits);
               CurrentRegime (AdaptiveRiskSystem.current_market_regime (adaptive_system m))]),
         m)
  else
    match RiskMetricsTracker.check_signal_frequency (metrics_tracker m) signal current_limits now with
    | RiskMetricsTracker.WithinLimits =>
        let threshold := AdaptiveRiskSystem.lim_quality_threshold current_limits in
        let '(qe, e) :=
          SignalEvaluator.evaluate_quality (set_threshold (evaluator m) threshold) signal in
        let m := with_evaluator m e in
        if SignalEvaluator.q_passed qe then inr (SignalEvaluator.q_rating qe, m)
        else
          let factors := AdaptiveRiskSystem.regime_adjustment_factors (adaptive_system m) in
          inl (reject assessment MEDIUM (SignalEvaluator.q_rating qe)
                 (reasons assessment ++
                    [InsufficientQuality (SignalEvaluator.q_score qe) threshold] ++
                    (if Py.Qltb 1.1 (AdaptiveRiskSystem.quality_threshold factors)
                     then [RaisedThreshold] else [])),
               m)
    | c =>
        inl (reject assessment HIGH (quality assessment)
               (reasons assessment ++ [FrequencyLimit c]), m)
    end.

(** [evaluate_signal] *)
Definition evaluate_signal (m : t) (signal : Signal.t) (now : PyTime.datetime)
  : bool * SignalAssessment * t :=
  let assessment := initial_assessment now in
  let '(cb_check, bs) := CircuitBreakerSystem.check_all (circuit_breakers m) now in
  let m := with_breakers m bs in
  if negb (CircuitBreakerSystem.all_clear cb_check) then
    (false,
     reject assessment CRITICAL (quality assessment)
       (map BreakerActive (CircuitBreakerSystem.triggered cb_check)),
     m)
  else
    match limit_stages m signal assessment now with
    | inl (a, m) => (false, a, m)
    | inr (q, m) => contextual_stage m signal assessment q now
    end.

(** [__init__] with an empty configuration. *)
Definition init (adaptive : AdaptiveRiskSystem.t) : t :=
  {| circuit_breakers := CircuitBreakerSystem.init 300;
     evaluator :=
       {| SignalEvaluator.quality_threshold := 0.35;
          SignalEvaluator.quality_weights := SignalEvaluator.default_weights;
          SignalEvaluator.evaluated_count := 0;
          SignalEvaluator.approved_count := 0;
          SignalEvaluator.rejection_reasons := ∅ |};
     adaptive_system := adaptive;
     metrics_tracker := RiskMetricsTracker.init 60;
     consecutive_losses_limit := 5;
     max_drawdown_percent := 2.0;
     emergency_stop_loss := 1000.0;
     published := [] |}.

End RiskManager.

(** ** application/services/risk/risk_listeners.py

    The handlers work on the components of the manager that built
    them. *)

Module RiskEventHandlers.
Import RiskTypes.

(** The manager, and the payloads published as [SIGNAL_REJECTED]. *)
Record t := {
  manager : RiskManager.t;
  rejected : list (Signal.t * RiskManager.SignalAssessment)
}.

Definition with_manager (h : t) (m : RiskManager.t) : t :=
  {| manager := m; rejected := rejected h |}.

Definition with_tracker (m : RiskManager.t) (k : RiskMetricsTracker.t) : RiskManager.t :=
  {| RiskManager.circuit_breakers := RiskManager.circuit_breakers m;
     RiskManager.evaluator := RiskManager.evaluator m;
     RiskManager.adaptive_system := RiskManager.adaptive_system m;
     RiskManager.metrics_tracker := k;
     RiskManager.consecutive_losses_limit := RiskManager.consecutive_losses_limit m;
     RiskManager.max_drawdown_percent := RiskManager.max_drawdown_percent m;
     RiskManager.emergency_stop_loss := RiskManager.emergency_stop_loss m;
     RiskManager.published := RiskManager.published m |}.

(** [handle_signal_generated]; the evaluation and the record of the
    rejection read the clock at [now]. *)
Definition handle_signal_generated (h : t) (signal : Signal.t) (now : PyTime.datetime) : t :=
  let '(approved, assessment, m) := RiskManager.evaluate_signal (manager h) signal now in
  if negb approved then
    {| manager :=
         with_tracker m
           (RiskMetricsTracker.record_signal_rejection (RiskManager.metrics_tracker m)
              signal now);
       rejected := rejected h ++ [(signal, assessment)] |}
  else with_manager h m.

Section Formats.

(** The renderings [f"{x:.1f}"] and [f"{x:.2f}"] of a float. *)
Variable format_1f format_2f : Q -> string.

(** [f"{n}"] for an integer. *)
Definition format_d (n : Z) : string := NilZero.string_of_int (Z.to_int n).

(** circuit_breaker.py, [update_from_metrics]; the three calls of
    [trigger] read the clock at [now]. *)
Definition update_from_metrics (bs : CircuitBreakerSystem.t)
    (metrics : RiskMetricsTracker.RiskMetrics) (now : PyTime.datetime)
  : CircuitBreakerSystem.t :=
  let bs :=
    if (5 <=? RiskMetricsTracker.consecutive_losses metrics)%Z then
      CircuitBreakerSystem.trigger bs now "consecutive_losses"
        (format_d (RiskMetricsTracker.consecutive_losses metrics) ++ " perdas consecutivas")
    else bs in
  let bs :=
    if Qle_bool 2.0 (RiskMetricsTracker.current_drawdown metrics) then
      CircuitBreakerSystem.trigger bs now "drawdown"
        ("Drawdown " ++ format_1f (RiskMetricsTracker.current_drawdown metrics) ++ "%")
    else bs in
  if Qle_bool (RiskMetricsTracker.daily_pnl metrics) (-1000) then
    CircuitBreakerSystem.trigger bs now "emergency"
      ("PnL diário: R$" ++ format_2f (RiskMetricsTracker.daily_pnl metrics))
  else bs.

(** [handle_trade_closed]; [pnl] is [trade_result.get('pnl', 0)]. *)
Definition handle_trade_closed (h : t) (pnl : Q) (now : PyTime.datetime) : t :=
  let m := manager h in
  let k := RiskMetricsTracker.update_pnl (RiskManager.metrics_tracker m) pnl in
  let bs :=
    update_from_metrics (RiskManager.circuit_breakers m) (RiskMetricsTracker.metrics k) now in
  with_manager h (RiskManager.with_breakers (with_tracker m k) bs).

End Formats.

End RiskEventHandlers.

(** ** The contextual risk score as the specification words it

    Used only to compare the specification with [evaluate_contextual_risk]. *)

Module ContextualRiskSpec.
Import RiskTypes.

(** "+3 if the system risk level is already CRITICAL (+2 if HIGH, +1 if MEDIUM)" *)
Definition system_points (r : RiskLevel) : Z :=
  match r with CRITICAL => 3 | HIGH => 2 | MEDIUM => 1 | LOW => 0 end%Z.

(** "+2 if the current drawdown is within 25% of the configured maximum drawdown" *)
Definition drawdown_points (drawdown max_drawdown : Q) : Z :=
  if Qle_bool (0.75 * max_drawdown) drawdown then 2%Z else 0%Z.

(** "+1 if the time of day is outside 10:00-16:00" *)
Definition hour_points (now : PyTime.datetime) : Z :=
  let t := PyTime.time_of_day now in
  if (t <? PyTime.hm 10 0)%Z || (PyTime.hm 16 0 <? t)%Z then 1%Z else 0%Z.

(** "+1 if the signal's |CVD-RoC| exceeds 150" *)
Definition volatility_points (cvd_roc : option Q) : Z :=
  match cvd_roc with
  | Some roc => if Py.Qltb 150 (Qabs roc) then 1%Z else 0%Z
  | None => 0%Z
  end.

Definition score (r : RiskLevel) (drawdown max_drawdown : Q) (now : PyTime.datetime)
    (cvd_roc : option Q) : Z :=
  (system_points r + drawdown_points drawdown max_drawdown + hour_points now
   + volatility_points cvd_roc)%Z.

(** "CRITICAL iff the score is at least 4, HIGH iff at least 3, MEDIUM
    iff at least 2, otherwise LOW" *)
Definition level (s : Z) : RiskLevel :=
  if (4 <=? s)%Z then CRITICAL
  else if (3 <=? s)%Z then HIGH
  else if (2 <=? s)%Z then MEDIUM
  else LOW.

End ContextualRiskSpec.

(** ** core/entities/trade.py and core/entities/book.py *)

Module Trade.

Inductive TradeSide := BUY | SELL | UNKNOWN.

Record t := {
  symbol : string;
  price : Q;
  volume : Z;
  side : TradeSide;
  timestamp : PyTime.datetime;
  time_str : string
}.

End Trade.

Module OrderBook.

Record BookLevel := { price : Q; volume : Z }.

Record t := { bids : list BookLevel; asks : list BookLevel }.

End OrderBook.

(** ** infrastructure/cache/memory.py

    The cache holds one deque object per symbol and hands out list
    objects.  To tell a copy from an alias, every sequence object lives
    in a store at its own address: [cache] maps a symbol to the address
    of its deque, and [objects] gives the contents of every sequence
    allocated so far. *)

Module TradeMemoryCache.

Definition addr := positive.

Record Stats := { hits : Z; misses : Z; additions : Z; evictions : Z }.

Record Metadata := {
  created_at : PyTime.datetime;
  last_update : PyTime.datetime;
  total_added : Z
}.

Record t := {
  max_size : nat;
  cache : gmap string addr;
  objects : gmap addr (list Trade.t);
  stats : Stats;
  metadata : gmap string Metadata
}.

(** [__init__] *)
Definition init (max_size : nat) : t :=
  {| max_size := max_size; cache := ∅; objects := ∅;
     stats := {| hits := 0; misses := 0; additions := 0; evictions := 0 |};
     metadata := ∅ |}.

(** The address of a new object. *)
Definition new_addr (c : t) : addr := fresh (dom (objects c)).

(** The contents of the object at an address. *)
Definition deref (c : t) (a : addr) : list Trade.t := default [] (objects c !! a).

(** The trades cached for a symbol, oldest first. *)
Definition contents (c : t) (symbol : string) : list Trade.t :=
  match cache c !! symbol with
  | Some a => deref c a
  | None => []
  end.

(** The number of trades that [add_trades] counts as evicted. *)
Definition evicted (max_size current_size new_trades_count : nat) : nat :=
  if (max_size <? current_size + new_trades_count)%nat
  then Nat.min current_size (current_size + new_trades_count - max_size)
  else 0%nat.

(** [add_trades] *)
Definition add_trades (c : t) (symbol : string) (trades : list Trade.t)
    (now : PyTime.datetime) : t :=
  match trades with
  | [] => c
  | _ =>
      let '(a, cache1, objects1, metadata1) :=
        match cache c !! symbol with
        | Some a => (a, cache c, objects c, metadata c)
        | None =>
            let a := new_addr c in
            (a, <[symbol := a]> (cache c), <[a := []]> (objects c),
             <[symbol := {| created_at := now; last_update := now; total_added := 0 |}]>
               (metadata c))
        end in
      let d := default [] (objects1 !! a) in
      let current_size := length d in
      let new_trades_count := length trades in
      let ev := evicted (max_size c) current_size new_trades_count in
      {| max_size := max_size c;
         cache := cache1;
         objects := <[a := Deque.extend (max_size c) d trades]> objects1;
         stats := {| hits := hits (stats c); misses := misses (stats c);
                     additions := additions (stats c) + Z.of_nat new_trades_count;
                     evictions := evictions (stats c) + Z.of_nat ev |};
         metadata :=
           match metadata1 !! symbol with
           | Some md =>
               <[symbol := {| created_at := created_at md; last_update := now;
                              total_added := total_added md + Z.of_nat new_trades_count |}]>
                 metadata1
           | None => metadata1
           end |}
  end.

Definition count_miss (c : t) : Stats :=
  {| hits := hits (stats c); misses := misses (stats c) + 1;
     additions := additions (stats c); evictions := evictions (stats c) |}.

Definition count_hit (c : t) : Stats :=
  {| hits := hits (stats c) + 1; misses := misses (stats c);
     additions := additions (stats c); evictions := evictions (stats c) |}.

(** Allocation of a new list object with the given contents. *)
Definition alloc (c : t) (st : Stats) (l : list Trade.t) : addr * t :=
  let a := new_addr c in
  (a, {| max_size := max_size c; cache := cache c;
         objects := <[a := l]> (objects c); stats := st; metadata := metadata c |}).

(** [s[-count:]] for an integer [count]. *)
Definition last_slice {A} (count : Z) (s : list A) : list A :=
  if (0 <? count)%Z then skipn (length s - Z.to_nat count) s
  else skipn (Z.to_nat (- count)) s.

(** [get_recent_trades]: the address of the returned list. *)
Definition get_recent_trades (c : t) (symbol : string) (count : Z) : addr * t :=
  match cache c !! symbol with
  | None => alloc c (count_miss c) []
  | Some a =>
      let '(all_trades, c1) := alloc c (count_hit c) (deref c a) in
      if (Z.of_nat (length (deref c1 all_trades)) <=? count)%Z
      then (all_trades, c1)
      else alloc c1 (stats c1) (last_slice count (deref c1 all_trades))
  end.

(** [get_all_trades] *)
Definition get_all_trades (c : t) (symbol : string) : addr * t :=
  match cache c !! symbol with
  | None => alloc c (count_miss c) []
  | Some a => alloc c (count_hit c) (deref c a)
  end.

(** The loop of [get_trades_by_time_window] over the reversed deque;
    the result is built newest first. *)
Fixpoint newer_than (cutoff_time : PyTime.datetime) (reversed : list Trade.t)
  : list Trade.t :=
  match reversed with
  | [] => []
  | trade :: rest =>
      if (cutoff_time <? Trade.timestamp trade)%Z
      then trade :: newer_than cutoff_time rest
      else []
  end.

(** [get_trades_by_time_window] *)
Definition get_trades_by_time_window (c : t) (symbol : string) (seconds : Z)
    (now : PyTime.datetime) : addr * t :=
  match cache c !! symbol with
  | None => alloc c (count_miss c) []
  | Some a =>
      let cutoff_time := (now - PyTime.of_seconds seconds)%Z in
      alloc c (count_hit c) (rev (newer_than cutoff_time (rev (deref c a))))
  end.

(** [get_size] *)
Definition get_size (c : t) (symbol : string) : nat := length (contents c symbol).

(** [clear] *)
Definition clear (c : t) (symbol : option string) : t :=
  match symbol with
  | Some s =>
      if String.eqb s "" then
        {| max_size := max_size c; cache := ∅; objects := objects c;
           stats := {| hits := 0; misses := 0; additions := 0; evictions := 0 |};
           metadata := ∅ |}
      else
        match cache c !! s with
        | Some _ =>
            {| max_size := max_size c; cache := delete s (cache c); objects := objects c;
               stats := stats c; metadata := delete s (metadata c) |}
        | None => c
        end
  | None =>
      {| max_size := max_size c; cache := ∅; objects := objects c;
         stats := {| hits := 0; misses := 0; additions := 0; evictions := 0 |};
         metadata := ∅ |}
  end.

(** What a caller reads from the list that [get_recent_trades] returns. *)
Definition recent (c : t) (symbol : string) (count : Z) : list Trade.t * t :=
  let '(a, c') := get_recent_trades c symbol count in (deref c' a, c').

(** A caller's in-place update of a list it was given
    ([returned.append(x)], [returned.clear()], ...). *)
Definition mutate (c : t) (a : addr) (f : list Trade.t -> list Trade.t) : t :=
  {| max_size := max_size c; cache := cache c;
     objects := <[a := f (deref c a)]> (objects c);
     stats := stats c; metadata := metadata c |}.

(** The operations of a client, for runs of the cache. *)
Inductive Op :=
| AddTrades (symbol : string) (trades : list Trade.t) (now : PyTime.datetime)
| GetRecent (symbol : string) (count : Z)
| GetAll (symbol : string)
| GetWindow (symbol : string) (seconds : Z) (now : PyTime.datetime).

Definition step (c : t) (o : Op) : t :=
  match o with
  | AddTrades symbol trades now => add_trades c symbol trades now
  | GetRecent symbol count => snd (get_recent_trades c symbol count)
  | GetAll symbol => snd (get_all_trades c symbol)
  | GetWindow symbol seconds now => snd (get_trades_by_time_window c symbol seconds now)
  end.

Definition run (c : t) (ops : list Op) : t := fold_left step ops c.

(** Every deque of the cache is an allocated object that holds at most
    [max_size] trades. *)
Definition bounded (c : t) : Prop :=
  forall symbol a, cache c !! symbol = Some a ->
    exists d, objects c !! a = Some d /\ (length d <= max_size c)%nat.

End TradeMemoryCache.

(** ** core/analysis/filters/defensive.py *)

Module DefensiveSignalFilter.

Inductive Manipulation := LAYERING | SPOOFING.
Inductive Side := BID | ASK.

(** The [manipulation_detection] configuration with the defaults that
    the [get] calls of the filter supply. [min_levels] and
    [levels_to_check] are slice bounds and are taken non-negative. *)
Record t := {
  layering_enabled : bool;
  spoofing_enabled : bool;
  block_signals : bool;
  min_levels : nat;
  min_volume_per_level : Z;
  uniformity_threshold : Q;
  levels_to_check : nat;
  imbalance_ratio : Q;
  layering_penalty : Q;
  spoofing_penalty : Q
}.

Definition default : t :=
  {| layering_enabled := true; spoofing_enabled := true; block_signals := true;
     min_levels := 4; min_volume_per_level := 50; uniformity_threshold := 0.10;
     levels_to_check := 5; imbalance_ratio := 5.0;
     layering_penalty := 0.4; spoofing_penalty := 0.3 |}.

(** The result dictionaries of [_check_layering] and [_check_spoofing]. *)
Record Detection := {
  detected : bool;
  kind : Manipulation;
  side : option Side
}.

Definition sum_volumes (vs : list Z) : Z := fold_left Z.add vs 0%Z.

(** The test of one side of the book in [_check_layering]; [None] is
    the [ZeroDivisionError] of the two divisions. *)
Definition layered (f : t) (levels : list OrderBook.BookLevel) : option bool :=
  if (min_levels f <=? length levels)%nat then
    let volumes := map OrderBook.volume (firstn 6 levels) in
    let head := firstn (min_levels f) volumes in
    if forallb (fun vol => (min_volume_per_level f <=? vol)%Z) head then
      match min_levels f with
      | O => None
      | _ =>
          let avg_vol := (inject_Z (sum_volumes head) / inject_Z (Z.of_nat (min_levels f)))%Q in
          match head with
          | [] => Some true
          | _ =>
              if Qeq_bool avg_vol 0 then None
              else
                Some (forallb
                        (fun vol =>
                           Qle_bool (Qabs (inject_Z vol - avg_vol) / avg_vol)
                                    (uniformity_threshold f))
                        head)
          end
      end
    else Some false
  else Some false.

(** [_check_layering] *)
Definition _check_layering (f : t) (book : OrderBook.t) : option Detection :=
  match layered f (OrderBook.bids book) with
  | None => None
  | Some true => Some {| detected := true; kind := LAYERING; side := Some BID |}
  | Some false =>
      match layered f (OrderBook.asks book) with
      | None => None
      | Some true => Some {| detected := true; kind := LAYERING; side := Some ASK |}
      | Some false => Some {| detected := false; kind := LAYERING; side := None |}
      end
  end.

(** [_check_spoofing] *)
Definition _check_spoofing (f : t) (book : OrderBook.t) : Detection :=
  let none := {| detected := false; kind := SPOOFING; side := None |} in
  match OrderBook.bids book, OrderBook.asks book with
  | [], _ | _, [] => none
  | _, _ =>
      let bid_volume :=
        sum_volumes (map OrderBook.volume (firstn (levels_to_check f) (OrderBook.bids book))) in
      let ask_volume :=
        sum_volumes (map OrderBook.volume (firstn (levels_to_check f) (OrderBook.asks book))) in
      if (bid_volume =? 0)%Z || (ask_volume =? 0)%Z then none
      else
        let '(ratio, heavier_side) :=
          if (ask_volume <? bid_volume)%Z
          then ((inject_Z bid_volume / inject_Z ask_volume)%Q, BID)
          else ((inject_Z ask_volume / inject_Z bid_volume)%Q, ASK) in
        if Qle_bool (imbalance_ratio f) ratio
        then {| detected := true; kind := SPOOFING; side := Some heavier_side |}
        else none
  end.

(** The advice of [_determine_action]. *)
Inductive Action :=
| CarefulBuying | CarefulSelling | HeavyBid | HeavyAsk | AbnormalBook.

Definition is_kind (k : Manipulation) (d : Detection) : bool :=
  match k, kind d with
  | LAYERING, LAYERING | SPOOFING, SPOOFING => true
  | _, _ => false
  end.

Definition has_risk (k : Manipulation) (risks : list Manipulation) : bool :=
  existsb (fun r => match k, r with
                    | LAYERING, LAYERING | SPOOFING, SPOOFING => true
                    | _, _ => false
                    end) risks.

(** The loop of [_determine_action] over [details] for one kind: the
    first detail of that kind with a side decides. *)
Fixpoint first_side (k : Manipulation) (details : list Detection) : option Side :=
  match details with
  | [] => None
  | d :: rest =>
      if is_kind k d then
        match side d with
        | Some s => Some s
        | None => first_side k rest
        end
      else first_side k rest
  end.

(** [_determine_action] *)
Definition _determine_action (risks : list Manipulation) (details : list Detection)
  : Action :=
  match (if has_risk LAYERING risks then first_side LAYERING details else None) with
  | Some BID => CarefulBuying
  | Some ASK => CarefulSelling
  | None =>
      match (if has_risk SPOOFING risks then first_side SPOOFING details else None) with
      | Some BID => HeavyBid
      | Some ASK => HeavyAsk
      | None => AbnormalBook
      end
  end.

(** The [risk_info] dictionary. *)
Record RiskInfo := {
  safe : bool;
  risks : list Manipulation;
  confidence : Q;
  action_required : option Action;
  details : list Detection
}.

Definition is_nil {A} (l : list A) : bool :=
  match l with [] => true | _ => false end.

(** The two checks of [is_signal_safe] inside [if book and ...]: the
    risks, the confidence and the details they leave. *)
Definition inspect (f : t) (book : OrderBook.t)
  : option (list Manipulation * Q * list Detection) :=
  let start := ([], 1.0%Q, []) in
  let after_layering :=
    if layering_enabled f then
      match _check_layering f book with
      | None => None
      | Some r =>
          if detected r
          then Some ([LAYERING], (1.0 * (1 - layering_penalty f))%Q, [r])
          else Some start
      end
    else Some start in
  match after_layering with
  | None => None
  | Some (rs, conf, ds) =>
      if spoofing_enabled f then
        let r := _check_spoofing f book in
        if detected r
        then Some (rs ++ [SPOOFING], (conf * (1 - spoofing_penalty f))%Q, ds ++ [r])
        else Some (rs, conf, ds)
      else Some (rs, conf, ds)
  end.

(** [is_signal_safe]; the signal and the recent trades are not read.
    [None] is a raised exception. *)
Definition is_signal_safe (f : t) (book : option OrderBook.t)
  : option (bool * RiskInfo) :=
  let found :=
    match book with
    | Some b => if block_signals f then inspect f b else Some ([], 1.0%Q, [])
    | None => Some ([], 1.0%Q, [])
    end in
  match found with
  | None => None
  | Some (rs, conf, ds) =>
      let ok := is_nil rs in
      Some (ok, {| safe := ok; risks := rs; confidence := conf;
                   action_required := if ok then None else Some (_determine_action rs ds);
                   details := ds |})
  end.

End DefensiveSignalFilter.

(** ** core/analysis/filters/cooldown.py *)

Module PatternCooldown.

Record t := {
  cooldown_seconds : gmap string Z;
  last_pattern_time : gmap string PyTime.datetime;
  blocked_count : gmap string Z
}.

(** [__init__] *)
Definition init (cooldown_seconds : gmap string Z) : t :=
  {| cooldown_seconds := cooldown_seconds; last_pattern_time := ∅; blocked_count := ∅ |}.

(** [f"{symbol}_{pattern}"] *)
Definition key (pattern symbol : string) : string := (symbol ++ "_" ++ pattern)%string.

(** [cooldown_seconds.get(pattern, cooldown_seconds.get('default', 30))] *)
Definition cooldown_of (c : t) (pattern : string) : Z :=
  default (default 30%Z (cooldown_seconds c !! "default"%string))
          (cooldown_seconds c !! pattern).

Definition stamp (c : t) (k : string) (now : PyTime.datetime) : t :=
  {| cooldown_seconds := cooldown_seconds c;
     last_pattern_time := <[k := now]> (last_pattern_time c);
     blocked_count := blocked_count c |}.

(** [can_emit_pattern] *)
Definition can_emit_pattern (c : t) (pattern symbol : string) (now : PyTime.datetime)
  : bool * t :=
  let k := key pattern symbol in
  match last_pattern_time c !! k with
  | None => (true, stamp c k now)
  | Some last =>
      let cooldown := cooldown_of c pattern in
      let elapsed := PyTime.seconds (PyTime.sub now last) in
      if (cooldown <=? elapsed)%Z then (true, stamp c k now)
      else
        (false,
         {| cooldown_seconds := cooldown_seconds c;
            last_pattern_time := last_pattern_time c;
            blocked_count :=
              <[k := (default 0%Z (blocked_count c !! k) + 1)%Z]> (blocked_count c) |})
  end.

(** The [total_blocked] and [active_cooldowns] of [get_statistics]. *)
Definition total_blocked (c : t) : Z :=
  map_fold (fun _ n acc => (n + acc)%Z) 0%Z (blocked_count c).
Definition active_cooldowns (c : t) : nat := size (last_pattern_time c).

(** The cooldowns that the tape reading service configures by default. *)
Definition default_cooldowns : gmap string Z :=
  list_to_map [
    ("default", 30); ("PRESSAO_COMPRA", 15); ("PRESSAO_VENDA", 15);
    ("MOMENTUM_EXTREMO", 20); ("ESCORA_DETECTADA", 30); ("DIVERGENCIA_ALTA", 25);
    ("DIVERGENCIA_BAIXA", 25); ("ICEBERG", 30); ("VOLUME_SPIKE", 15);
    ("PACE_ANOMALY", 20); ("INSTITUTIONAL_FOOTPRINT", 60); ("HIDDEN_LIQUIDITY", 45);
    ("MULTIFRAME_DIVERGENCE", 40); ("MULTIFRAME_CONFLUENCE", 35); ("TRAP_DETECTED", 30);
    ("BOOK_PULLING", 10); ("BOOK_STACKING", 10); ("FLASH_ORDER", 5);
    ("IMBALANCE_SHIFT", 15)
  ]%string%Z.

End PatternCooldown.

(** ** The candidate dictionaries of the detectors

    A raw signal is a dictionary; the record has the keys that the
    filters, the confirmation system and the formatter read or write,
    [None] standing for an absent key. *)

Module RawSignal.

Record t := {
  symbol : option string;
  pattern : option string;
  volume : option Q;
  ratio : option Q;
  cvd_roc : option Q;
  concentration : option Q;
  repetitions : option Q;
  multiplier : option Q;
  pace : option Q;
  baseline : option Q;
  price : option Q;
  level : option Q;
  confidence : option Q;
  profit : option Q;
  direction : option string;
  operation_type : option string;
  hidden_levels : list Q;
  strength : option Z;
  original_pattern : option string;
  confirmed : option bool;
  confirmation_attempts : option Z;
  confirmation_time : option Z
}.

Definition set_strength (d : t) (s : Z) : t :=
  {| symbol := symbol d; pattern := pattern d; volume := volume d; ratio := ratio d;
     cvd_roc := cvd_roc d; concentration := concentration d; repetitions := repetitions d;
     multiplier := multiplier d; pace := pace d; baseline := baseline d; price := price d;
     level := level d; confidence := confidence d; profit := profit d;
     direction := direction d; operation_type := operation_type d;
     hidden_levels := hidden_levels d; strength := Some s;
     original_pattern := original_pattern d; confirmed := confirmed d;
     confirmation_attempts := confirmation_attempts d;
     confirmation_time := confirmation_time d |}.

Definition set_original_pattern (d : t) (p : string) : t :=
  {| symbol := symbol d; pattern := pattern d; volume := volume d; ratio := ratio d;
     cvd_roc := cvd_roc d; concentration := concentration d; repetitions := repetitions d;
     multiplier := multiplier d; pace := pace d; baseline := baseline d; price := price d;
     level := level d; confidence := confidence d; profit := profit d;
     direction := direction d; operation_type := operation_type d;
     hidden_levels := hidden_levels d; strength := strength d;
     original_pattern := Some p; confirmed := confirmed d;
     confirmation_attempts := confirmation_attempts d;
     confirmation_time := confirmation_time d |}.

(** The four assignments at the start of [_emit_confirmed_pattern]. *)
Definition set_confirmed (d : t) (attempts time : Z) (p : string) : t :=
  {| symbol := symbol d; pattern := Some p; volume := volume d; ratio := ratio d;
     cvd_roc := cvd_roc d; concentration := concentration d; repetitions := repetitions d;
     multiplier := multiplier d; pace := pace d; baseline := baseline d; price := price d;
     level := level d; confidence := confidence d; profit := profit d;
     direction := direction d; operation_type := operation_type d;
     hidden_levels := hidden_levels d; strength := strength d;
     original_pattern := original_pattern d; confirmed := Some true;
     confirmation_attempts := Some attempts;
     confirmation_time := Some time |}.

End RawSignal.

(** ** core/analysis/filters/quality.py *)

Module SignalQualityFilter.

Record t := {
  min_quality_score : Q;
  filtered_count : Z;
  passed_count : Z
}.

(** [__init__] *)
Definition init (min_quality_score : Q) : t :=
  {| min_quality_score := min_quality_score; filtered_count := 0; passed_count := 0 |}.

Definition num (o : option Q) : Q := default 0%Q o.
Definition pattern_is (p : option string) (s : string) : bool :=
  match p with
  | Some x => String.eqb x s
  | None => false
  end.

(** The [raw_score] and [max_score] of [evaluate_signal_quality]. *)
Definition raw_score (d : RawSignal.t) : Q * Q :=
  let pattern := RawSignal.pattern d in
  if pattern_is pattern "PRESSAO_COMPRA" || pattern_is pattern "PRESSAO_VENDA" then
    let ratio := num (RawSignal.ratio d) in
    ((if Py.Qltb 0.9 ratio then 2.0 else if Py.Qltb 0.85 ratio then 1.5 else 0.5)%Q, 2.0%Q)
  else if pattern_is pattern "MOMENTUM_EXTREMO" then
    let cvd_roc := Qabs (num (RawSignal.cvd_roc d)) in
    ((if Py.Qltb 500 cvd_roc then 2.5 else if Py.Qltb 300 cvd_roc then 2.0
      else if Py.Qltb 200 cvd_roc then 1.5 else 0.8)%Q, 2.5%Q)
  else if pattern_is pattern "ESCORA_DETECTADA" then
    let volume := num (RawSignal.volume d) in
    let concentration := num (RawSignal.concentration d) in
    let s1 := (if Py.Qltb 5000 volume then 1.5 else if Py.Qltb 2000 volume then 1.0 else 0.5)%Q in
    let s2 := (if Py.Qltb 0.6 concentration then 1.5
               else if Py.Qltb 0.5 concentration then 1.0 else 0.5)%Q in
    ((s1 + s2)%Q, 3.0%Q)
  else if pattern_is pattern "DIVERGENCIA_ALTA" || pattern_is pattern "DIVERGENCIA_BAIXA" then
    let cvd_roc := Qabs (num (RawSignal.cvd_roc d)) in
    ((if Py.Qltb 150 cvd_roc then 2.5 else if Py.Qltb 100 cvd_roc then 2.0 else 1.0)%Q, 2.5%Q)
  else if pattern_is pattern "ICEBERG" then
    let repetitions := num (RawSignal.repetitions d) in
    ((if Py.Qltb 5 repetitions then 2.0 else if Py.Qltb 3 repetitions then 1.5 else 0.8)%Q, 2.0%Q)
  else if pattern_is pattern "VOLUME_SPIKE" then
    let multiplier := num (RawSignal.multiplier d) in
    ((if Py.Qltb 10 multiplier then 1.5 else if Py.Qltb 5 multiplier then 1.0 else 0.5)%Q, 1.5%Q)
  else if pattern_is pattern "PACE_ANOMALY" then
    let pace := num (RawSignal.pace d) in
    let baseline := default 1%Q (RawSignal.baseline d) in
    let ratio := if Py.Qltb 0 baseline then (pace / baseline)%Q else 0%Q in
    ((if Py.Qltb 5 ratio then 1.0 else if Py.Qltb 3 ratio then 0.7 else 0.3)%Q, 1.0%Q)
  else (0.3%Q, 1.0%Q).

Record Evaluation := {
  score : Q;
  passed : bool;
  e_raw_score : Q;
  e_max_score : Q
}.

(** [evaluate_signal_quality] *)
Definition evaluate_signal_quality (f : t) (d : RawSignal.t) : Evaluation * t :=
  let '(s, m) := raw_score d in
  let normalized_score := if Py.Qltb 0 m then (s / m)%Q else 0%Q in
  let ok := Qle_bool (min_quality_score f) normalized_score in
  ({| score := normalized_score; passed := ok; e_raw_score := s; e_max_score := m |},
   {| min_quality_score := min_quality_score f;
      filtered_count := if ok then filtered_count f else (filtered_count f + 1)%Z;
      passed_count := if ok then (passed_count f + 1)%Z else passed_count f |}).

(** [should_emit_signal] *)
Definition should_emit_signal (f : t) (d : RawSignal.t) : bool * t :=
  let '(e, f') := evaluate_signal_quality f d in (passed e, f').

End SignalQualityFilter.

(** ** core/formatters/signal_formatter.py *)

Module SignalFormatter.

Definition high_priority : list string :=
  ["ESCORA_DETECTADA"; "DIVERGENCIA_BAIXA"; "DIVERGENCIA_ALTA"; "MOMENTUM_EXTREMO";
   "ICEBERG"; "PRESSAO_COMPRA"; "PRESSAO_VENDA"; "INSTITUTIONAL_FOOTPRINT";
   "HIDDEN_LIQUIDITY"; "MULTIFRAME_DIVERGENCE"; "MULTIFRAME_CONFLUENCE";
   "HIDDEN_ACCUMULATION"; "HIDDEN_DISTRIBUTION"; "TRAP_DETECTED"]%string.

Definition medium_priority : list string :=
  ["PACE_ANOMALY"; "VOLUME_SPIKE"; "BOOK_PULLING"; "BOOK_STACKING"; "FLASH_ORDER";
   "REGIME_CHANGE"; "IMBALANCE_SHIFT"]%string.

(** [_get_signal_level] *)
Definition _get_signal_level (pattern : string) : Signal.SignalLevel :=
  if existsb (String.eqb pattern) high_priority then Signal.ALERT
  else if existsb (String.eqb pattern) medium_priority then Signal.WARNING
  else Signal.INFO.

(** [format]: the signal, and the raw dictionary after the assignment
    to its [original_pattern].  The details are
    [{"symbol": symbol, **raw_signal}], seen through the keys of
    [Signal.Details]. *)
Definition format (raw_signal : RawSignal.t) (symbol : string)
  : Signal.t * RawSignal.t :=
  let pattern := default "UNKNOWN"%string (RawSignal.pattern raw_signal) in
  let raw := RawSignal.set_original_pattern raw_signal pattern in
  ({| Signal.source := Signal.TAPE_READING;
      Signal.level := _get_signal_level pattern;
      Signal.details :=
        {| Signal.symbol := Some (default symbol (RawSignal.symbol raw));
           Signal.pattern := RawSignal.pattern raw;
           Signal.original_pattern := RawSignal.original_pattern raw;
           Signal.profit := RawSignal.profit raw;
           Signal.cvd_roc := RawSignal.cvd_roc raw |} |},
   raw).

End SignalFormatter.

(** ** The tape reading pipeline

    application/services/tape_reading/pending_pattern_manager.py and
    signal_processor.py.  The confirmation system and the signal
    processor are built around the same cache, the same cooldown
    filter, the same defensive filter and the same event bus; these
    shared objects are the record [Shared].  The event bus is the list
    of what was published, oldest first. *)

Module TapeReading.

Inductive Event :=
| PATTERN_DETECTED (signal_data : RawSignal.t)
| SIGNAL_GENERATED (signal : Signal.t)
| MANIPULATION_DETECTED (signal : Signal.t) (risk_info : DefensiveSignalFilter.RiskInfo)
    (symbol : string).

Record Shared := {
  cache : TradeMemoryCache.t;
  defensive_filter : DefensiveSignalFilter.t;
  pattern_cooldown : PatternCooldown.t;
  published : list Event
}.

Definition with_cache (w : Shared) (c : TradeMemoryCache.t) : Shared :=
  {| cache := c; defensive_filter := defensive_filter w;
     pattern_cooldown := pattern_cooldown w; published := published w |}.

Definition with_cooldown (w : Shared) (c : PatternCooldown.t) : Shared :=
  {| cache := cache w; defensive_filter := defensive_filter w;
     pattern_cooldown := c; published := published w |}.

(** [event_bus.publish] *)
Definition publish (w : Shared) (e : Event) : Shared :=
  {| cache := cache w; defensive_filter := defensive_filter w;
     pattern_cooldown := pattern_cooldown w; published := published w ++ [e] |}.

(** [cache.get_recent_trades(symbol, count)] as the caller reads it. *)
Definition recent_trades (w : Shared) (symbol : string) (count : Z)
  : list Trade.t * Shared :=
  let '(l, c) := TradeMemoryCache.recent (cache w) symbol count in (l, with_cache w c).

(** *** The confirmation system *)

(** One entry of [config['patterns']]; [None] is an absent key. *)
Record PatternConfig := {
  pc_timeout : option Z;
  pc_min_tests : option Z;
  pc_test_threshold : option Q;
  pc_confirmation_bars : option Z;
  pc_price_confirmation : option bool;
  pc_requires_continuation : option bool;
  pc_min_continuation_cvd : option Q;
  pc_min_persistence : option Z;
  pc_volume_threshold : option Q;
  pc_reload_confirmations : option Z;
  pc_min_hidden_volume : option Q
}.

Definition empty_pattern_config : PatternConfig :=
  {| pc_timeout := None; pc_min_tests := None; pc_test_threshold := None;
     pc_confirmation_bars := None; pc_price_confirmation := None;
     pc_requires_continuation := None; pc_min_continuation_cvd := None;
     pc_min_persistence := None; pc_volume_threshold := None;
     pc_reload_confirmations := None; pc_min_hidden_volume := None |}.

Record Config := {
  enabled : bool;
  max_pending : Z;
  default_timeout : Z;
  check_interval : Q;
  patterns : gmap string PatternConfig
}.

(** The criteria dictionary of a pending pattern, by the branch of
    [_build_confirmation_criteria] that filled it, with the keys that
    the checks read. *)
Inductive Criteria :=
| Escora (min_tests : Z) (test_threshold level original_volume : Q)
    (test_count : Z) (test_volumes : list Z)
| Divergencia (confirmation_bars : Z) (price_confirmation : bool) (original_price : Q)
    (bars_checked : Z)
| Momentum (requires_continuation : bool) (min_continuation_cvd : Q)
    (original_direction : option string)
| Institutional (min_persistence : Z) (volume_threshold : Q) (persistence_checks : Z)
| HiddenLiquidity (reload_confirmations : Z) (min_hidden_volume : Q)
    (original_levels : list Q) (confirmed_reloads : Z)
| NoCriteria.

(** types.py, [PendingPattern]; the identifier stands for the UUID. *)
Record PendingPattern := {
  id : nat;
  pattern : string;
  symbol : string;
  data : RawSignal.t;
  created_at : PyTime.datetime;
  expires_at : PyTime.datetime;
  confirmation_criteria : Criteria;
  attempts : Z;
  last_check : option PyTime.datetime
}.

Record ConfirmationStats := {
  cs_signals_emitted : Z;
  cs_manipulation_detected : Z
}.

Record PatternConfirmationSystem := {
  config : Config;
  pending_patterns : list PendingPattern;
  next_id : nat;
  pcs_current_books : gmap string OrderBook.t;
  pcs_stats : ConfirmationStats
}.

(** [requires_confirmation] *)
Definition requires_confirmation (s : PatternConfirmationSystem) (pattern : string) : bool :=
  if negb (enabled (config s)) then false
  else bool_decide (is_Some (patterns (config s) !! pattern)).

(** [_build_confirmation_criteria] *)
Definition _build_confirmation_criteria (pattern : string) (d : RawSignal.t)
    (c : PatternConfig) : Criteria :=
  if String.eqb pattern "ESCORA_DETECTADA" then
    Escora (default 2%Z (pc_min_tests c)) (default 0.7%Q (pc_test_threshold c))
           (default 0%Q (RawSignal.level d)) (default 0%Q (RawSignal.volume d)) 0 []
  else if String.eqb pattern "DIVERGENCIA_ALTA" || String.eqb pattern "DIVERGENCIA_BAIXA" then
    Divergencia (default 3%Z (pc_confirmation_bars c))
                (default true (pc_price_confirmation c))
                (default 0%Q (RawSignal.price d)) 0
  else if String.eqb pattern "MOMENTUM_EXTREMO" then
    Momentum (default true (pc_requires_continuation c))
             (default 50%Q (pc_min_continuation_cvd c)) (RawSignal.direction d)
  else if String.eqb pattern "INSTITUTIONAL_FOOTPRINT" then
    Institutional (default 30%Z (pc_min_persistence c))
                  (default 0.3%Q (pc_volume_threshold c)) 0
  else if String.eqb pattern "HIDDEN_LIQUIDITY" then
    HiddenLiquidity (default 2%Z (pc_reload_confirmations c))
                    (default 500%Q (pc_min_hidden_volume c)) (RawSignal.hidden_levels d) 0
  else NoCriteria.

(** The pending pattern that [min(..., key=created_at)] selects: the
    first one with the least creation time. *)
Fixpoint oldest (l : list PendingPattern) : option PendingPattern :=
  match l with
  | [] => None
  | p :: rest =>
      match oldest rest with
      | Some q => if (created_at q <? created_at p)%Z then Some q else Some p
      | None => Some p
      end
  end.

Definition remove_id (i : nat) (l : list PendingPattern) : list PendingPattern :=
  List.filter (fun p => negb (Nat.eqb (id p) i)) l.

Definition with_pending (s : PatternConfirmationSystem) (l : list PendingPattern)
  : PatternConfirmationSystem :=
  {| config := config s; pending_patterns := l; next_id := next_id s;
     pcs_current_books := pcs_current_books s; pcs_stats := pcs_stats s |}.

(** [add_pending_pattern]; [None] is the [ValueError] of [min] on an
    empty dictionary. *)
Definition add_pending_pattern (s : PatternConfirmationSystem) (pattern symbol : string)
    (d : RawSignal.t) (now : PyTime.datetime) : option PatternConfirmationSystem :=
  let trimmed :=
    if (max_pending (config s) <=? Z.of_nat (length (pending_patterns s)))%Z then
      match oldest (pending_patterns s) with
      | Some o => Some (remove_id (id o) (pending_patterns s))
      | None => None
      end
    else Some (pending_patterns s) in
  match trimmed with
  | None => None
  | Some l =>
      let pattern_config :=
        default {| pc_timeout := Some (default_timeout (config s));
                   pc_min_tests := None; pc_test_threshold := None;
                   pc_confirmation_bars := None; pc_price_confirmation := None;
                   pc_requires_continuation := None; pc_min_continuation_cvd := None;
                   pc_min_persistence := None; pc_volume_threshold := None;
                   pc_reload_confirmations := None; pc_min_hidden_volume := None |}
                (patterns (config s) !! pattern) in
      let timeout := default (default_timeout (config s)) (pc_timeout pattern_config) in
      let pending :=
        {| id := next_id s; pattern := pattern; symbol := symbol; data := d;
           created_at := now; expires_at := (now + PyTime.of_seconds timeout)%Z;
           confirmation_criteria := _build_confirmation_criteria pattern d pattern_config;
           attempts := 0; last_check := None |} in
      Some {| config := config s; pending_patterns := l ++ [pending];
              next_id := S (next_id s);
              pcs_current_books := pcs_current_books s; pcs_stats := pcs_stats s |}
  end.

Section Analyzers.

(** The analyzers that the checks consult and that are no part of the
    modelled files: the CVD of a list of trades, and whether the hidden
    liquidity detector still reports levels near a price. *)
Variable calculate_cvd_for_trades : string -> list Trade.t -> Q.
Variable get_hidden_levels : PyTime.datetime -> string -> Q -> bool.

(** The loop of [_check_absorption_confirmation] over [recent_trades[-20:]]. *)
Definition absorption_tests (level original_volume test_threshold : Q)
    (trades : list Trade.t) (test_count : Z) (test_volumes : list Z) : Z * list Z :=
  fold_left
    (fun '(n, vs) trade =>
       if Qle_bool (Qabs (Trade.price trade - level)) 0.5 then
         (if Qle_bool (original_volume * test_threshold) (inject_Z (Trade.volume trade))
          then (n + 1)%Z else n,
          vs ++ [Trade.volume trade])
       else (n, vs))
    (TradeMemoryCache.last_slice 20 trades) (test_count, test_volumes).

Definition sum_trade_volumes (trades : list Trade.t) : Z :=
  fold_left (fun acc t => (acc + Trade.volume t)%Z) trades 0%Z.

(** The [inst_ratio] of [_check_institutional_confirmation]. *)
Definition inst_ratio (recent : list Trade.t) : Q :=
  let total_volume := sum_trade_volumes recent in
  let institutional_volume :=
    sum_trade_volumes
      (List.filter (fun t => (50 <=? Trade.volume t)%Z && (Trade.volume t <=? 1000)%Z) recent) in
  if (0 <? total_volume)%Z then (inject_Z institutional_volume / inject_Z total_volume)%Q
  else 0%Q.

(** [_check_institutional_confirmation]; the criteria are given by their
    three entries. *)
Definition _check_institutional_confirmation (w : Shared) (symbol : string)
    (min_persistence : Z) (volume_threshold : Q) (persistence_checks : Z)
  : bool * Criteria * Shared :=
  let persistence_checks := (persistence_checks + 1)%Z in
  let criteria := Institutional min_persistence volume_threshold persistence_checks in
  let '(recent, w) := recent_trades w symbol 100 in
  match recent with
  | [] => (false, criteria, w)
  | _ =>
      let is_confirmed :=
        Qle_bool volume_threshold (inst_ratio recent) &&
        (min_persistence <=? persistence_checks * 10)%Z in
      (is_confirmed, criteria, w)
  end.

(** [_check_pattern_confirmation] with the five checks it dispatches
    to; [None] is the [KeyError] of criteria that lack the keys of the
    pattern. *)
Definition _check_pattern_confirmation (w : Shared) (now : PyTime.datetime)
    (p : PendingPattern) : option (bool * Criteria * Shared) :=
  let pat := pattern p in
  let sym := symbol p in
  let criteria := confirmation_criteria p in
  if String.eqb pat "ESCORA_DETECTADA" then
    match criteria with
    | Escora min_tests test_threshold level original_volume test_count test_volumes =>
        let '(recent, w) := recent_trades w sym 100 in
        let '(n, vs) :=
          absorption_tests level original_volume test_threshold recent test_count test_volumes in
        Some ((min_tests <=? n)%Z,
              Escora min_tests test_threshold level original_volume n vs, w)
    | _ => None
    end
  else if String.eqb pat "DIVERGENCIA_ALTA" || String.eqb pat "DIVERGENCIA_BAIXA" then
    match criteria with
    | Divergencia confirmation_bars price_confirmation original_price bars_checked =>
        let '(recent, w) := recent_trades w sym 50 in
        if (length recent <? 10)%nat then Some (false, criteria, w)
        else
          let bars_checked := (bars_checked + 1)%Z in
          let criteria :=
            Divergencia confirmation_bars price_confirmation original_price bars_checked in
          let current_price := default 0%Q (option_map Trade.price (last recent)) in
          let price_confirmed :=
            if String.eqb pat "DIVERGENCIA_ALTA"
            then Qle_bool (original_price * 0.999) current_price
            else Qle_bool current_price (original_price * 1.001) in
          if price_confirmation && negb price_confirmed then Some (false, criteria, w)
          else Some ((confirmation_bars <=? bars_checked)%Z, criteria, w)
    | _ => None
    end
  else if String.eqb pat "MOMENTUM_EXTREMO" then
    match criteria with
    | Momentum requires_continuation min_continuation_cvd original_direction =>
        if negb requires_continuation then Some (true, criteria, w)
        else
          let '(recent, w) := recent_trades w sym 50 in
          let cvd := calculate_cvd_for_trades sym recent in
          let is_confirmed :=
            match original_direction with
            | Some "COMPRA"%string => Qle_bool min_continuation_cvd cvd
            | _ => Qle_bool cvd (- min_continuation_cvd)
            end in
          Some (is_confirmed, criteria, w)
    | _ => None
    end
  else if String.eqb pat "INSTITUTIONAL_FOOTPRINT" then
    match criteria with
    | Institutional min_persistence volume_threshold persistence_checks =>
        Some (_check_institutional_confirmation w sym min_persistence volume_threshold
                persistence_checks)
    | _ => None
    end
  else if String.eqb pat "HIDDEN_LIQUIDITY" then
    match criteria with
    | HiddenLiquidity reload_confirmations min_hidden_volume original_levels confirmed_reloads =>
        match original_levels with
        | [] => Some (false, criteria, w)
        | first_level :: _ =>
            let confirmed_reloads :=
              if get_hidden_levels now sym first_level
              then (confirmed_reloads + 1)%Z else confirmed_reloads in
            Some ((reload_confirmations <=? confirmed_reloads)%Z,
                  HiddenLiquidity reload_confirmations min_hidden_volume original_levels
                    confirmed_reloads, w)
        end
    | _ => None
    end
  else Some (false, criteria, w).

(** [_emit_confirmed_pattern]; [None] is an exception of the defensive
    filter. *)
Definition _emit_confirmed_pattern (s : PatternConfirmationSystem) (w : Shared)
    (p : PendingPattern) (now : PyTime.datetime)
  : option (PatternConfirmationSystem * Shared) :=
  let signal_data :=
    RawSignal.set_confirmed (data p) (attempts p)
      (PyTime.seconds (PyTime.sub now (created_at p)))
      (pattern p ++ "_CONFIRMED") in
  let '(ok, cd) :=
    PatternCooldown.can_emit_pattern (pattern_cooldown w) (pattern p) (symbol p) now in
  let w := with_cooldown w cd in
  if negb ok then Some (s, w)
  else
    let '(confirmed_signal, _) := SignalFormatter.format signal_data (symbol p) in
    let book := pcs_current_books s !! symbol p in
    let '(_, w) := recent_trades w (symbol p) 50 in
    match DefensiveSignalFilter.is_signal_safe (defensive_filter w) book with
    | None => None
    | Some (is_safe, risk_info) =>
        if is_safe then
          Some ({| config := config s; pending_patterns := pending_patterns s;
                   next_id := next_id s; pcs_current_books := pcs_current_books s;
                   pcs_stats :=
                     {| cs_signals_emitted := cs_signals_emitted (pcs_stats s) + 1;
                        cs_manipulation_detected := cs_manipulation_detected (pcs_stats s) |} |},
                publish w (SIGNAL_GENERATED confirmed_signal))
        else
          Some ({| config := config s; pending_patterns := pending_patterns s;
                   next_id := next_id s; pcs_current_books := pcs_current_books s;
                   pcs_stats :=
                     {| cs_signals_emitted := cs_signals_emitted (pcs_stats s);
                        cs_manipulation_detected :=
                          cs_manipulation_detected (pcs_stats s) + 1 |} |},
                publish w (MANIPULATION_DETECTED confirmed_signal risk_info (symbol p)))
    end.

(** The first loop of [check_pending_patterns]: the pending patterns
    that stay (with their updated criteria), and the confirmed ones. *)
Fixpoint check_loop (w : Shared) (now : PyTime.datetime) (l : list PendingPattern)
  : option (list PendingPattern * list PendingPattern * Shared) :=
  match l with
  | [] => Some ([], [], w)
  | p :: rest =>
      if (expires_at p <? now)%Z then check_loop w now rest
      else
        match _check_pattern_confirmation w now p with
        | None => None
        | Some (is_confirmed, updated_criteria, w) =>
            let p' :=
              {| id := id p; pattern := pattern p; symbol := symbol p; data := data p;
                 created_at := created_at p; expires_at := expires_at p;
                 confirmation_criteria := updated_criteria;
                 attempts := attempts p + 1; last_check := Some now |} in
            match check_loop w now rest with
            | None => None
            | Some (kept, confirmed, w) =>
                if is_confirmed then Some (kept, p' :: confirmed, w)
                else Some (p' :: kept, confirmed, w)
            end
        end
  end.

Fixpoint emit_all (s : PatternConfirmationSystem) (w : Shared)
    (confirmed : list PendingPattern) (now : PyTime.datetime)
  : option (PatternConfirmationSystem * Shared) :=
  match confirmed with
  | [] => Some (s, w)
  | p :: rest =>
      match _emit_confirmed_pattern s w p now with
      | None => None
      | Some (s, w) => emit_all s w rest now
      end
  end.

(** [check_pending_patterns] *)
Definition check_pending_patterns (s : PatternConfirmationSystem) (w : Shared)
    (now : PyTime.datetime) : option (PatternConfirmationSystem * Shared) :=
  match check_loop w now (pending_patterns s) with
  | None => None
  | Some (kept, confirmed, w) => emit_all (with_pending s kept) w confirmed now
  end.

End Analyzers.

(** [get_pending_count] *)
Definition get_pending_count (s : PatternConfirmationSystem) (sym : string) : nat :=
  length (List.filter (fun p => String.eqb (symbol p) sym) (pending_patterns s)).


(** *** The signal processor *)

Record ProcessorStats := {
  signals_filtered : Z;
  signals_emitted : Z;
  manipulation_detected : Z;
  patterns_published_for_confluence : Z
}.

Record SignalProcessor := {
  quality_filter : SignalQualityFilter.t;
  current_books : gmap string OrderBook.t;
  stats : ProcessorStats
}.

Definition strong_patterns : list string :=
  ["ABSORPTION_DETECTED"; "EXHAUSTION_DETECTED"; "MOMENTUM_EXTREMO";
   "INSTITUTIONAL_FOOTPRINT"]%string.
Definition medium_patterns : list string :=
  ["ICEBERG"; "DIVERGENCIA_ALTA"; "DIVERGENCIA_BAIXA"; "TRAP_DETECTED"]%string.

(** [_calculate_strength] *)
Definition _calculate_strength (pattern : string) (d : RawSignal.t) : Z :=
  let strength :=
    if existsb (String.eqb pattern) strong_patterns then 8%Z
    else if existsb (String.eqb pattern) medium_patterns then 7%Z
    else 5%Z in
  let volume := default 0%Q (RawSignal.volume d) in
  if Py.Qltb 2000 volume then Z.min (strength + 2) 10
  else if Py.Qltb 1000 volume then Z.min (strength + 1) 10
  else strength.

(** The first loop of [process_raw_signals]: the quality filter. *)
Fixpoint quality_loop (p : SignalProcessor) (raw_signals : list RawSignal.t)
  : list RawSignal.t * SignalProcessor :=
  match raw_signals with
  | [] => ([], p)
  | d :: rest =>
      let '(e, qf) := SignalQualityFilter.evaluate_signal_quality (quality_filter p) d in
      let p1 :=
        {| quality_filter := qf; current_books := current_books p;
           stats :=
             if SignalQualityFilter.passed e then stats p
             else
               {| signals_filtered := signals_filtered (stats p) + 1;
                  signals_emitted := signals_emitted (stats p);
                  manipulation_detected := manipulation_detected (stats p);
                  patterns_published_for_confluence :=
                    patterns_published_for_confluence (stats p) |} |} in
      let '(kept, p2) := quality_loop p1 rest in
      (if SignalQualityFilter.passed e then d :: kept else kept, p2)
  end.

Definition count_published (p : SignalProcessor) : SignalProcessor :=
  {| quality_filter := quality_filter p; current_books := current_books p;
     stats := {| signals_filtered := signals_filtered (stats p);
                 signals_emitted := signals_emitted (stats p);
                 manipulation_detected := manipulation_detected (stats p);
                 patterns_published_for_confluence :=
                   patterns_published_for_confluence (stats p) + 1 |} |}.

Definition count_emitted (p : SignalProcessor) : SignalProcessor :=
  {| quality_filter := quality_filter p; current_books := current_books p;
     stats := {| signals_filtered := signals_filtered (stats p);
                 signals_emitted := signals_emitted (stats p) + 1;
                 manipulation_detected := manipulation_detected (stats p);
                 patterns_published_for_confluence :=
                   patterns_published_for_confluence (stats p) |} |}.

Definition count_manipulation (p : SignalProcessor) : SignalProcessor :=
  {| quality_filter := quality_filter p; current_books := current_books p;
     stats := {| signals_filtered := signals_filtered (stats p);
                 signals_emitted := signals_emitted (stats p);
                 manipulation_detected := manipulation_detected (stats p) + 1;
                 patterns_published_for_confluence :=
                   patterns_published_for_confluence (stats p) |} |}.

(** The state that the loops of [process_raw_signals] thread. *)
Record Pipeline := {
  processor : SignalProcessor;
  shared : Shared;
  confirmation : option PatternConfirmationSystem
}.

(** The body of the second loop of [process_raw_signals] for one
    candidate: the signal appended to [final_signals_to_display], if
    any.  [None] is a raised exception. *)
Definition process_candidate (st : Pipeline) (signal_data : RawSignal.t)
    (now : PyTime.datetime) : option (option Signal.t * Pipeline) :=
  let sym := default "WDO"%string (RawSignal.symbol signal_data) in
  let pat := default "UNKNOWN"%string (RawSignal.pattern signal_data) in
  let strength := _calculate_strength pat signal_data in
  let signal_data := RawSignal.set_strength signal_data strength in
  let w := publish (shared st) (PATTERN_DETECTED signal_data) in
  let p := count_published (processor st) in
  let needs_confirmation :=
    match confirmation st with
    | Some s => requires_confirmation s pat
    | None => false
    end in
  if needs_confirmation then
    match confirmation st with
    | Some s =>
        match add_pending_pattern s pat sym signal_data now with
        | Some s' =>
            Some (None, {| processor := p; shared := w; confirmation := Some s' |})
        | None => None
        end
    | None => None
    end
  else
    let '(ok, cd) := PatternCooldown.can_emit_pattern (pattern_cooldown w) pat sym now in
    let w := with_cooldown w cd in
    if negb ok then
      Some (None, {| processor := p; shared := w; confirmation := confirmation st |})
    else
      let '(signal, _) := SignalFormatter.format signal_data sym in
      let book := current_books p !! sym in
      let '(_, w) := recent_trades w sym 50 in
      match DefensiveSignalFilter.is_signal_safe (defensive_filter w) book with
      | None => None
      | Some (is_safe, risk_info) =>
          if is_safe then
            Some (Some signal,
                  {| processor := count_emitted p; shared := w;
                     confirmation := confirmation st |})
          else
            Some (None,
                  {| processor := count_manipulation p;
                     shared := publish w (MANIPULATION_DETECTED signal risk_info sym);
                     confirmation := confirmation st |})
      end.

Fixpoint candidates_loop (st : Pipeline) (l : list RawSignal.t) (now : PyTime.datetime)
  : option (list Signal.t * Pipeline) :=
  match l with
  | [] => Some ([], st)
  | d :: rest =>
      match process_candidate st d now with
      | None => None
      | Some (out, st) =>
          match candidates_loop st rest now with
          | None => None
          | Some (outs, st) =>
              Some (match out with Some s => s :: outs | None => outs end, st)
          end
      end
  end.

(** [process_raw_signals] *)
Definition process_raw_signals (st : Pipeline) (raw_signals : list RawSignal.t)
    (now : PyTime.datetime) : option (list Signal.t * Pipeline) :=
  let '(quality_filtered_signals, p) := quality_loop (processor st) raw_signals in
  candidates_loop
    {| processor := p; shared := shared st; confirmation := confirmation st |}
    quality_filtered_signals now.

(** [update_book] of the processor *)
Definition update_book (p : SignalProcessor) (sym : string) (book : OrderBook.t)
  : SignalProcessor :=
  {| quality_filter := quality_filter p;
     current_books := <[sym := book]> (current_books p);
     stats := stats p |}.

(** *** Runs of the pipeline *)

(** The candidate as [process_raw_signals] publishes it, with its
    strength. *)
Definition with_strength (d : RawSignal.t) : RawSignal.t :=
  RawSignal.set_strength d
    (_calculate_strength (default "UNKNOWN"%string (RawSignal.pattern d)) d).

Definition symbol_of (d : RawSignal.t) : string :=
  default "WDO"%string (RawSignal.symbol d).
Definition pattern_of (d : RawSignal.t) : string :=
  default "UNKNOWN"%string (RawSignal.pattern d).

(** The candidate is not staged for confirmation and passes the
    cooldown filter: it reaches the defensive filter. *)
Definition reaches_defensive_filter (st : Pipeline) (d : RawSignal.t)
    (now : PyTime.datetime) : bool :=
  negb (match confirmation st with
        | Some s => requires_confirmation s (pattern_of d)
        | None => false
        end) &&
  fst (PatternCooldown.can_emit_pattern (pattern_cooldown (shared st))
         (pattern_of d) (symbol_of d) now).

(** What the defensive filter sees in a book: a detection by a check
    that is enabled, when signals are to be blocked. *)
Definition manipulation_seen (f : DefensiveSignalFilter.t) (book : option OrderBook.t)
  : option bool :=
  match book with
  | Some b =>
      if DefensiveSignalFilter.block_signals f then
        match (if DefensiveSignalFilter.layering_enabled f
               then DefensiveSignalFilter._check_layering f b
               else Some {| DefensiveSignalFilter.detected := false;
                            DefensiveSignalFilter.kind := DefensiveSignalFilter.LAYERING;
                            DefensiveSignalFilter.side := None |}) with
        | None => None
        | Some l =>
            Some (DefensiveSignalFilter.detected l ||
                  (DefensiveSignalFilter.spoofing_enabled f &&
                   DefensiveSignalFilter.detected (DefensiveSignalFilter._check_spoofing f b)))
        end
      else Some false
  | None => Some false
  end.

(** The callers of the processor: a batch of candidates at some time,
    or a new book for a symbol. *)
Inductive Step :=
| Batch (now : PyTime.datetime) (raw_signals : list RawSignal.t)
| BookUpdate (sym : string) (book : OrderBook.t).

Definition step_time (s : Step) : option PyTime.datetime :=
  match s with
  | Batch now _ => Some now
  | BookUpdate _ _ => None
  end.





(** service.py, [_check_pending_patterns_if_needed]: the confirmation
    system, the shared objects and [_last_confirmation_check] after a
    call at the time [now]. *)
Definition _check_pending_patterns_if_needed
    (calculate_cvd_for_trades : string -> list Trade.t -> Q)
    (get_hidden_levels : PyTime.datetime -> string -> Q -> bool)
    (s : PatternConfirmationSystem) (w : Shared)
    (last_confirmation_check now : PyTime.datetime)
  : option (PatternConfirmationSystem * Shared * PyTime.datetime) :=
  if Qle_bool (check_interval (config s))
              (inject_Z (now - last_confirmation_check) / inject_Z PyTime.us_per_second)
  then
    match check_pending_patterns calculate_cvd_for_trades get_hidden_levels s w now with
    | Some (s, w) => Some (s, w, now)
    | None => None
    end
  else Some (s, w, last_confirmation_check).

End TapeReading.

(** ** Statements about runs of the pipeline *)

Module PipelineSpec.
Import TapeReading.




End PipelineSpec.

(** * Properties *)

(** ** Python primitives *)

Module PyFacts.

Lemma Qltb_lt a b : Py.Qltb a b = true <-> (a < b)%Q.
Proof.
  unfold Py.Qltb. rewrite negb_true_iff.
  destruct (Qle_bool b a) eqn:E.
  - apply Qle_bool_iff in E. split; [discriminate | intros H; exfalso; lra].
  - split; [intros _ | reflexivity].
    destruct (Qlt_le_dec a b) as [H | H]; [exact H |].
    apply Qle_bool_iff in H. congruence.
Qed.

Lemma Qltb_ge a b : Py.Qltb a b = false <-> (b <= a)%Q.
Proof.
  destruct (Py.Qltb a b) eqn:E.
  - apply Qltb_lt in E. split; [discriminate | intros H; exfalso; lra].
  - split; [intros _ | reflexivity].
    destruct (Qlt_le_dec a b) as [H | H]; [| exact H].
    apply Qltb_lt in H. congruence.
Qed.

Lemma min_le_l a b : (Py.min a b <= a)%Q.
Proof.
  unfold Py.min. destruct (Py.Qltb b a) eqn:E.
  - apply Qltb_lt in E. lra.
  - lra.
Qed.

Lemma min_le_r a b : (Py.min a b <= b)%Q.
Proof.
  unfold Py.min. destruct (Py.Qltb b a) eqn:E.
  - lra.
  - apply Qltb_ge in E. lra.
Qed.

Lemma min_glb a b c : (c <= a)%Q -> (c <= b)%Q -> (c <= Py.min a b)%Q.
Proof. intros Ha Hb. unfold Py.min. destruct (Py.Qltb b a); assumption. Qed.

Lemma max_ge_l a b : (a <= Py.max a b)%Q.
Proof.
  unfold Py.max. destruct (Py.Qltb a b) eqn:E.
  - apply Qltb_lt in E. lra.
  - lra.
Qed.

Lemma max_lub a b c : (a <= c)%Q -> (b <= c)%Q -> (Py.max a b <= c)%Q.
Proof. intros Ha Hb. unfold Py.max. destruct (Py.Qltb a b); assumption. Qed.

Lemma seconds_range d : (0 <= PyTime.seconds d < 86400)%Z.
Proof.
  unfold PyTime.seconds, PyTime.us_per_day, PyTime.us_per_second.
  pose proof (Z.mod_pos_bound d (86400 * 1000000) ltac:(lia)) as Hm.
  split.
  - apply Z.div_pos; lia.
  - apply Z.div_lt_upper_bound; lia.
Qed.

(** Within the first day the [seconds] field is the whole number of
    elapsed seconds. *)
Lemma seconds_small d :
  (0 <= d < PyTime.us_per_day)%Z -> PyTime.seconds d = (d / PyTime.us_per_second)%Z.
Proof.
  intros H. unfold PyTime.seconds. rewrite Z.mod_small by exact H. reflexivity.
Qed.

Lemma seconds_le_total d :
  (0 <= d)%Z -> (PyTime.seconds d * PyTime.us_per_second <= d)%Z.
Proof.
  intros H. unfold PyTime.seconds, PyTime.us_per_day, PyTime.us_per_second in *.
  pose proof (Z.mod_le d (86400 * 1000000) H ltac:(lia)) as Hle.
  pose proof (Z.mod_pos_bound d (86400 * 1000000) ltac:(lia)) as Hm.
  pose proof (Z.mul_div_le (d mod (86400 * 1000000)) 1000000 ltac:(lia)).
  lia.
Qed.

Lemma get_set_eq {V} k (v : V) d : Dict.get k (Dict.set k v d) = Some v.
Proof.
  induction d as [| [k' v'] r IH]; simpl.
  - rewrite String.eqb_refl. reflexivity.
  - destruct (String.eqb k' k) eqn:E; simpl; rewrite E; auto.
Qed.

Lemma get_set_ne {V} k k' (v : V) d :
  k <> k' -> Dict.get k' (Dict.set k v d) = Dict.get k' d.
Proof.
  intros Hne. induction d as [| [k0 v0] r IH]; simpl.
  - destruct (String.eqb k k') eqn:E; [apply String.eqb_eq in E; congruence | reflexivity].
  - destruct (String.eqb k0 k) eqn:E; simpl.
    + apply String.eqb_eq in E. subst k0.
      destruct (String.eqb k k') eqn:E'; [apply String.eqb_eq in E'; congruence | reflexivity].
    + rewrite IH. reflexivity.
Qed.

Lemma get_set_is_Some {V} k k' (v : V) d :
  is_Some (Dict.get k' d) -> is_Some (Dict.get k' (Dict.set k v d)).
Proof.
  intros H. destruct (String.eqb k k') eqn:E.
  - apply String.eqb_eq in E. subst. rewrite get_set_eq. eauto.
  - apply String.eqb_neq in E. rewrite get_set_ne; auto.
Qed.

End PyFacts.

(** ** Adaptive risk system: bounds of the regime factors *)

Module AdaptiveFacts.
Import AdaptiveRiskSystem.

Lemma regime_eqb_eq a b : regime_eqb a b = true <-> a = b.
Proof. destruct a, b; simpl; split; congruence. Qed.

Lemma clamp_in_bounds x : in_bounds (clamp x).
Proof.
  unfold in_bounds, clamp. split.
  - apply PyFacts.max_ge_l.
  - apply PyFacts.max_lub; [lra | apply PyFacts.min_le_l].
Qed.

Lemma normalize_in_bounds f : factors_in_bounds (normalize f).
Proof. unfold factors_in_bounds, normalize; simpl. repeat split; apply clamp_in_bounds. Qed.

(** The part of the state that the regime updates maintain: both
    instruments have a regime, and the stored factors are clamped. *)
Definition regime_inv (s : t) : Prop :=
  is_Some (Dict.get "WDO" (current_market_regime s)) /\
  is_Some (Dict.get "DOL" (current_market_regime s)) /\
  factors_in_bounds (regime_adjustment_factors s).

Lemma calculate_total s :
  is_Some (Dict.get "WDO" (current_market_regime s)) ->
  is_Some (Dict.get "DOL" (current_market_regime s)) ->
  exists s', _calculate_regime_adjustments s = Some s' /\
             current_market_regime s' = current_market_regime s /\
             factors_in_bounds (regime_adjustment_factors s').
Proof.
  intros [w Hw] [d Hd]. unfold _calculate_regime_adjustments. rewrite Hw, Hd.
  eexists. split; [reflexivity |]. simpl. split; [reflexivity |].
  apply normalize_in_bounds.
Qed.

Lemma init_inv c : exists s, init c = Some s /\ regime_inv s.
Proof.
  destruct (calculate_total (pre_init c)) as (s & Hs & Hr & Hf);
    [simpl; eauto | simpl; eauto |].
  exists s. split; [exact Hs |]. unfold regime_inv. rewrite Hr. simpl. eauto.
Qed.

Lemma update_inv s symbol r :
  regime_inv s ->
  exists s' changed, update_market_regime s symbol r = Some (s', changed) /\ regime_inv s'.
Proof.
  intros (Hw & Hd & Hf). unfold update_market_regime.
  destruct (match Dict.get symbol (current_market_regime s) with
            | Some o => regime_eqb o r
            | None => false
            end).
  - exists s, false. split; [reflexivity |]. unfold regime_inv. auto.
  - destruct (calculate_total (set_regime s symbol r)) as (s' & Hs' & Hr & Hb).
    + simpl. apply PyFacts.get_set_is_Some. exact Hw.
    + simpl. apply PyFacts.get_set_is_Some. exact Hd.
    + rewrite Hs'. eexists _, true. split; [reflexivity |].
      unfold regime_inv. simpl. rewrite Hr. simpl.
      repeat split; try apply Hb.
      * apply PyFacts.get_set_is_Some. exact Hw.
      * apply PyFacts.get_set_is_Some. exact Hd.
Qed.

Lemma updates_inv us : forall s,
  regime_inv s -> exists s', updates s us = Some s' /\ regime_inv s'.
Proof.
  induction us as [| [symbol r] rest IH]; intros s Hs; simpl.
  - eauto.
  - destruct (update_inv s symbol r Hs) as (s1 & ch & H1 & Hinv).
    rewrite H1. apply IH. exact Hinv.
Qed.

(** The state in which WDO is in regime [w] and DOL in regime [d]. *)
Definition with_regimes (c : Config) (w d : MarketRegime) : t :=
  set_regime (set_regime (pre_init c) "WDO" w) "DOL" d.

(** C6. After the construction of the system and after every sequence of
    regime updates (on any symbols, to any regimes), the recomputation of
    the factors does not fail and each of the five adjustment factors
    lies in [0.3, 2.0]; in particular this holds for the factors computed
    for every pair of regimes of WDO and DOL. *)
Theorem regime_factors_bounded :
  (forall c us, exists s,
      run c us = Some s /\ factors_in_bounds (regime_adjustment_factors s)) /\
  (forall c w d, exists s,
      _calculate_regime_adjustments (with_regimes c w d) = Some s /\
      factors_in_bounds (regime_adjustment_factors s)).
Proof.
  split.
  - intros c us. unfold run.
    destruct (init_inv c) as (s0 & H0 & Hinv0). rewrite H0.
    destruct (updates_inv us s0 Hinv0) as (s & Hs & (_ & _ & Hb)).
    exists s. auto.
  - intros c w d.
    destruct (calculate_total (with_regimes c w d)) as (s & Hs & _ & Hb).
    + destruct w; simpl; eauto.
    + destruct w; simpl; eauto.
    + eauto.
Qed.

(** The clamp is what keeps the factors in range: two quiet instruments
    give the raw products 2.25 (quality) and 0.25 (concurrent). *)
Example quiet_quiet_factors :
  exists s, run default_config [("WDO"%string, QUIET); ("DOL"%string, QUIET)] = Some s /\
            (quality_threshold (regime_adjustment_factors s) == 2.0)%Q /\
            (concurrent_signals (regime_adjustment_factors s) == 0.3)%Q /\
            (signal_frequency (regime_adjustment_factors s) == 0.3)%Q.
Proof. eexists. split; [vm_compute; reflexivity |]. repeat split. Qed.

Lemma int_zero_small x : (0 <= x)%Q -> (x < 1)%Q -> Py.int x = 0%Z.
Proof.
  destruct x as [n d]. unfold Qle, Qlt, Py.int. simpl. intros H0 H1.
  apply Z.quot_small. lia.
Qed.

(** C10. Every regime-driven adjustment leaves a concurrent-signal limit
    of at least 1, whatever the base value and the factor are. *)
Theorem max_concurrent_at_least_one s symbol r s' :
  update_market_regime s symbol r = Some (s', true) ->
  (1 <= max_concurrent_signals (current_limits s'))%Z.
Proof.
  unfold update_market_regime.
  destruct (match Dict.get symbol (current_market_regime s) with
            | Some o => regime_eqb o r
            | None => false
            end); [intros H; discriminate |].
  destruct (_calculate_regime_adjustments (set_regime s symbol r)) as [s1 |];
    [| intros H; discriminate].
  intros H. injection H as <-. simpl. apply Z.le_max_l.
Qed.

(** A base of 1 with two quiet instruments: the factor is 0.3, the
    truncated product is 0 and the limit is 1. *)
Definition one_slot_config : Config :=
  {| cfg_max_signals_per_minute := 10; cfg_max_signals_per_hour := 100;
     cfg_max_confluence_per_hour := 20; cfg_max_concurrent_signals := 1;
     cfg_signal_timeout := 60; cfg_signal_quality_threshold := 0.35 |}.

(** The state after WDO turned quiet, and the state after DOL followed. *)
Definition quiet_wdo : t :=
  default (pre_init one_slot_config) (run one_slot_config [("WDO"%string, QUIET)]).

Definition quiet_both : t :=
  _apply_regime_adjustments
    (default quiet_wdo (_calculate_regime_adjustments (set_regime quiet_wdo "DOL" QUIET))).

Lemma max_concurrent_at_least_one_witness :
  update_market_regime quiet_wdo "DOL" QUIET = Some (quiet_both, true) /\
  Py.int (inject_Z (base_max_concurrent_signals quiet_both) *
          concurrent_signals (regime_adjustment_factors quiet_both)) = 0%Z /\
  (1 <= max_concurrent_signals (current_limits quiet_both))%Z.
Proof.
  assert (H : update_market_regime quiet_wdo "DOL" QUIET = Some (quiet_both, true))
    by (vm_compute; reflexivity).
  split; [exact H |].
  split; [vm_compute; reflexivity |].
  exact (max_concurrent_at_least_one quiet_wdo "DOL" QUIET quiet_both H).
Defined.

(** The floor holds for every state, in particular for every factor in
    [0.3, 2.0] whose truncated product with the base is 0. *)
Lemma apply_floor s :
  (1 <= max_concurrent_signals (current_limits (_apply_regime_adjustments s)))%Z.
Proof. simpl. apply Z.le_max_l. Qed.

End AdaptiveFacts.

(** ** Confluence analyzer *)

Module ConfluenceFacts.
Import CalculatedMarketAnalyzer.

Lemma check_proximity_in_sound tol p niveis :
  forall nome nivel niveis',
  check_proximity_in tol p niveis = (Some (nome, nivel), niveis') ->
  exists n0, In (nome, n0) niveis /\ nivel = touch p n0 /\
             (Qabs (p - price n0) <= tol)%Q.
Proof.
  induction niveis as [| [k n] rest IH]; intros nome nivel niveis' H;
    cbn [check_proximity_in] in H.
  - discriminate.
  - destruct (Qle_bool (Qabs (p - price n)) tol) eqn:E.
    + injection H as <- <- <-. exists n. split; [left; reflexivity |].
      split; [reflexivity |]. apply Qle_bool_iff. exact E.
    + destruct (check_proximity_in tol p rest) as [r rest'] eqn:Er.
      injection H as -> <-.
      destruct (IH _ _ _ eq_refl) as (n0 & Hin & Ht & Hle).
      exists n0. split; [right; exact Hin | auto].
Qed.

Lemma check_proximity_matrix a p r a' :
  check_proximity a p = (r, a') ->
  matrix a' = matrix a /\ tolerancia_proximidade a' = tolerancia_proximidade a /\
  janelas_ptax a' = janelas_ptax a.
Proof.
  unfold check_proximity.
  destruct (check_proximity_in _ _ _) as [r0 n0]. intros H. injection H as <- <-.
  simpl. auto.
Qed.

Lemma extreme_rule m strength level_name r :
  ConfluenceMatrix.check_extreme_conditions m strength level_name = Some r ->
  (ConfluenceMatrix.extreme_force_threshold m <= strength)%Z /\
  ((level_name = "SOFRER_2X"%string /\ ConfluenceMatrix.acao r = "VENDA"%string) \/
   (level_name = "SOFGRE"%string /\ ConfluenceMatrix.acao r = "COMPRA"%string)) /\
  ConfluenceMatrix.confianca r = 0.85%Q.
Proof.
  unfold ConfluenceMatrix.check_extreme_conditions.
  destruct (Z.leb_spec (ConfluenceMatrix.extreme_force_threshold m) strength) as [Hs | Hs];
    [| discriminate].
  destruct (String.eqb level_name "SOFRER_2X") eqn:E1.
  - apply String.eqb_eq in E1. intros H. injection H as <-. simpl. auto.
  - destruct (String.eqb level_name "SOFGRE") eqn:E2; [| discriminate].
    apply String.eqb_eq in E2. intros H. injection H as <-. simpl. auto.
Qed.

Lemma valid_signal m r strength :
  ConfluenceMatrix.is_valid_signal m (Some r) strength = true ->
  (ConfluenceMatrix.minimum_force m <= strength)%Z /\
  (ConfluenceMatrix.minimum_confidence m <= ConfluenceMatrix.confianca r)%Q.
Proof.
  unfold ConfluenceMatrix.is_valid_signal.
  destruct (Z.ltb_spec strength (ConfluenceMatrix.minimum_force m)); [discriminate |].
  destruct (Py.Qltb _ _) eqn:E; [discriminate |].
  apply PyFacts.Qltb_ge in E. auto.
Qed.

Lemma signal_confidence a tape_pattern p symbol strength volume timestamp direction sig a' :
  analyze_confluence a tape_pattern p symbol strength volume timestamp direction
    = (Some sig, a') ->
  d_confidence sig =
    ptax_confidence (is_ptax_window a timestamp)
                    (ConfluenceMatrix.confianca (d_rule_applied sig)).
Proof.
  unfold analyze_confluence.
  destruct (check_proximity a p) as [[[level_name level_info] |] a1] eqn:Hprox;
    [| intros H; discriminate].
  destruct (check_proximity_matrix _ _ _ _ Hprox) as (_ & _ & Hj).
  assert (Hw : is_ptax_window a1 timestamp = is_ptax_window a timestamp)
    by (unfold is_ptax_window; rewrite Hj; reflexivity).
  destruct (ConfluenceMatrix.is_valid_signal _ _ _); [| intros H; discriminate].
  destruct (match ConfluenceMatrix.find_rule _ _ _ _ with Some r => Some r | None => _ end)
    as [r |]; [| intros H; discriminate].
  intros H. injection H as <- <-. simpl. rewrite Hw. reflexivity.
Qed.

(** An analyzer with the default thresholds, one rule of the default
    table and a grid with the two extreme levels. *)
Definition sample_level (n : string) (p : Q) (ty : string) : string * CalculatedLevel :=
  (n, {| name := n; price := p; type := ty; strength := 3;
         distance := None; position := None |}).

Definition sample_analyzer : t :=
  {| tolerancia_proximidade := 3.0;
     matrix :=
       {| ConfluenceMatrix.rules :=
            {[ ("SQUEEZE", "SOFRER_2X")%string :=
                 ConfluenceMatrix.mk "VENDA" 0.90 "Squeeze de alta em resistência extrema" ]};
          ConfluenceMatrix.extreme_force_threshold := 9;
          ConfluenceMatrix.minimum_force := 7;
          ConfluenceMatrix.minimum_confidence := 0.65 |};
     janelas_ptax := default_janelas_ptax;
     niveis_calculados :=
       [sample_level "SOFRER_2X" 5045 "RESISTENCIA";
        sample_level "BASE" 5025 "PIVOT";
        sample_level "SOFGRE" 5005 "SUPORTE"] |}.

(** An analyzer configured with lower thresholds (minimum force 5,
    minimum confidence 0.5, extreme force 6) and a matrix of one rule
    of confidence 0.5. *)
Definition lenient_analyzer : t :=
  {| tolerancia_proximidade := 3.0;
     matrix :=
       {| ConfluenceMatrix.rules :=
            {[ ("PRESSAO_COMPRA", "BASE")%string :=
                 ConfluenceMatrix.mk "COMPRA" 0.5 "Pressão compradora no pivô" ]};
          ConfluenceMatrix.extreme_force_threshold := 6;
          ConfluenceMatrix.minimum_force := 5;
          ConfluenceMatrix.minimum_confidence := 0.5 |};
     janelas_ptax := default_janelas_ptax;
     niveis_calculados :=
       [sample_level "SOFRER_2X" 5045 "RESISTENCIA";
        sample_level "BASE" 5025 "PIVOT";
        sample_level "SOFGRE" 5005 "SUPORTE"] |}.

(** C1, as stated, fails: 7, 0.65 and 9 are the defaults of three
    configured values.  With [minimum_force] 5, [minimum_confidence]
    0.5 and [extreme_force_threshold] 6 the analyzer returns a
    CONFLUENCE signal of strength 5 whose rule has the confidence 0.5;
    and for a pattern without a rule it returns, at the level SOFGRE
    and at 10:05, a signal of strength 6, whose confidence is 0.95 and
    not 0.85, the time lying in a PTAX window. *)
Lemma lower_thresholds_admit_weaker_signals :
  (exists sig a',
     analyze_confluence lenient_analyzer "PRESSAO_COMPRA" 5024 "WDO" 5 300
       (PyTime.hm 14 30) "COMPRA" = (Some sig, a') /\
     source sig = Signal.CONFLUENCE /\
     (Qabs (d_price sig - d_level_price sig) <= tolerancia_proximidade lenient_analyzer)%Q /\
     (d_strength sig < 7)%Z /\
     (ConfluenceMatrix.confianca (d_rule_applied sig) < 0.65)%Q) /\
  (exists sig a',
     analyze_confluence lenient_analyzer "VOLUME_SPIKE" 5006.5 "WDO" 6 1200
       (PyTime.hm 10 5) "" = (Some sig, a') /\
     source sig = Signal.CONFLUENCE /\
     ConfluenceMatrix.find_rule (matrix lenient_analyzer)
       (_normalize_pattern_name "VOLUME_SPIKE") (d_level sig) "" = None /\
     d_level sig = "SOFGRE"%string /\ d_action sig = "COMPRA"%string /\
     (d_strength sig < 9)%Z /\
     (d_confidence sig == 0.95)%Q /\ ~ (d_confidence sig == 0.85)%Q).
Proof.
  split.
  - destruct (analyze_confluence lenient_analyzer "PRESSAO_COMPRA" 5024 "WDO" 5 300
                (PyTime.hm 14 30) "COMPRA") as [[sig |] a'] eqn:E;
      vm_compute in E; [| discriminate E].
    injection E as <- <-. eexists. eexists. split; [reflexivity |].
    cbn. repeat split; vm_compute; congruence.
  - destruct (analyze_confluence lenient_analyzer "VOLUME_SPIKE" 5006.5 "WDO" 6 1200
                (PyTime.hm 10 5) "") as [[sig |] a'] eqn:E;
      vm_compute in E; [| discriminate E].
    injection E as <- <-. eexists. eexists. split; [reflexivity |].
    cbn. repeat split; vm_compute; congruence.
Qed.

(** C1, amended.  Whatever the rules, the levels, the tolerance and the
    three thresholds of the configuration are, a signal returned by
    [analyze_confluence] has source CONFLUENCE, carries the candidate
    price and strength, and names a calculated level whose price is
    within the tolerance of the candidate price; its strength is at
    least the configured [minimum_force] and the confidence of its rule
    (before the PTAX bonus) at least the configured
    [minimum_confidence]; the confidence it carries is that of the rule
    outside the PTAX windows, and the rule's plus 0.1, capped at 0.95,
    inside them.  When [find_rule] gives no rule for the pattern, that
    level and the direction, the strength is at least the configured
    [extreme_force_threshold], the level is SOFRER_2X with action VENDA
    or SOFGRE with action COMPRA, and the rule confidence is 0.85, so
    that the signal carries 0.85 outside the PTAX windows and 0.95
    inside.  With the default thresholds the three bounds are 7, 0.65
    and 9. *)
Theorem confluence_validity a tape_pattern p symbol strength volume timestamp direction sig a' :
  analyze_confluence a tape_pattern p symbol strength volume timestamp direction
    = (Some sig, a') ->
  let m := matrix a in
  let no_rule :=
    ConfluenceMatrix.find_rule m (_normalize_pattern_name tape_pattern)
      (d_level sig) direction = None in
  source sig = Signal.CONFLUENCE /\
  d_price sig = p /\ d_strength sig = strength /\
  (exists nivel, In (d_level sig, nivel) (niveis_calculados a) /\
                 d_level_price sig = price nivel /\
                 (Qabs (p - price nivel) <= tolerancia_proximidade a)%Q) /\
  (ConfluenceMatrix.minimum_force m <= strength)%Z /\
  (ConfluenceMatrix.minimum_confidence m
     <= ConfluenceMatrix.confianca (d_rule_applied sig))%Q /\
  d_action sig = ConfluenceMatrix.acao (d_rule_applied sig) /\
  d_confidence sig =
    (if is_ptax_window a timestamp
     then Py.min (ConfluenceMatrix.confianca (d_rule_applied sig) + 0.1) 0.95
     else ConfluenceMatrix.confianca (d_rule_applied sig)) /\
  (no_rule ->
   (ConfluenceMatrix.extreme_force_threshold m <= strength)%Z /\
   ((d_level sig = "SOFRER_2X"%string /\ d_action sig = "VENDA"%string) \/
    (d_level sig = "SOFGRE"%string /\ d_action sig = "COMPRA"%string)) /\
   ConfluenceMatrix.confianca (d_rule_applied sig) = 0.85%Q /\
   (d_confidence sig == if is_ptax_window a timestamp then 0.95 else 0.85)%Q) /\
  (ConfluenceMatrix.minimum_force m = 7%Z ->
   ConfluenceMatrix.minimum_confidence m = 0.65%Q ->
   ConfluenceMatrix.extreme_force_threshold m = 9%Z ->
   (7 <= strength)%Z /\
   (0.65 <= ConfluenceMatrix.confianca (d_rule_applied sig))%Q /\
   (no_rule -> (9 <= strength)%Z)).
Proof.
  intros Hrun m no_rule.
  pose proof (signal_confidence _ _ _ _ _ _ _ _ _ _ Hrun) as Hconfidence.
  assert (Hmain :
    source sig = Signal.CONFLUENCE /\
    d_price sig = p /\ d_strength sig = strength /\
    (exists nivel, In (d_level sig, nivel) (niveis_calculados a) /\
                   d_level_price sig = price nivel /\
                   (Qabs (p - price nivel) <= tolerancia_proximidade a)%Q) /\
    (ConfluenceMatrix.minimum_force m <= strength)%Z /\
    (ConfluenceMatrix.minimum_confidence m
       <= ConfluenceMatrix.confianca (d_rule_applied sig))%Q /\
    d_action sig = ConfluenceMatrix.acao (d_rule_applied sig) /\
    (no_rule ->
     (ConfluenceMatrix.extreme_force_threshold m <= strength)%Z /\
     ((d_level sig = "SOFRER_2X"%string /\ d_action sig = "VENDA"%string) \/
      (d_level sig = "SOFGRE"%string /\ d_action sig = "COMPRA"%string)) /\
     ConfluenceMatrix.confianca (d_rule_applied sig) = 0.85%Q)).
  { subst m no_rule. clear Hconfidence. revert Hrun. unfold analyze_confluence.
    destruct (check_proximity a p) as [[[level_name level_info] |] a1] eqn:Hprox;
      [| intros H; discriminate].
    destruct (check_proximity_matrix _ _ _ _ Hprox) as (Hm & _ & _).
    unfold check_proximity in Hprox.
    destruct (check_proximity_in _ _ _) as [r0 niveis'] eqn:Hin.
    injection Hprox as -> <-. simpl matrix in *.
    destruct (check_proximity_in_sound _ _ _ _ _ _ Hin) as (n0 & Hn0 & -> & Hle).
    set (found := ConfluenceMatrix.find_rule (matrix a)
                    (_normalize_pattern_name tape_pattern) level_name direction).
    destruct found as [r |] eqn:Hfound; subst found.
    - destruct (ConfluenceMatrix.is_valid_signal (matrix a) (Some r) strength) eqn:Hv;
        [| intros H; discriminate].
      intros H. injection H as <- <-. simpl.
      apply valid_signal in Hv. destruct Hv as [Hs Hc].
      split; [reflexivity |]. split; [reflexivity |]. split; [reflexivity |].
      split; [exists n0; auto |]. split; [exact Hs |]. split; [exact Hc |].
      split; [reflexivity |].
      intros Hnone. congruence.
    - destruct (ConfluenceMatrix.check_extreme_conditions (matrix a) strength level_name)
        as [r |] eqn:Hx.
      + destruct (ConfluenceMatrix.is_valid_signal (matrix a) (Some r) strength) eqn:Hv;
          [| intros H; discriminate].
        intros H. injection H as <- <-. simpl.
        apply valid_signal in Hv. destruct Hv as [Hs Hc].
        apply extreme_rule in Hx. destruct Hx as (Hx1 & Hx2 & Hx3).
        split; [reflexivity |]. split; [reflexivity |]. split; [reflexivity |].
        split; [exists n0; auto |]. split; [exact Hs |]. split; [exact Hc |].
        split; [reflexivity |].
        intros _. auto.
      + simpl. intros H; discriminate. }
  destruct Hmain as (H1 & H2 & H3 & H4 & H5 & H6 & H7 & H8).
  split; [exact H1 |]. split; [exact H2 |]. split; [exact H3 |]. split; [exact H4 |].
  split; [exact H5 |]. split; [exact H6 |]. split; [exact H7 |].
  split.
  { rewrite Hconfidence. unfold ptax_confidence.
    destruct (is_ptax_window a timestamp); reflexivity. }
  split.
  { intros Hnone. destruct (H8 Hnone) as (Hx1 & Hx2 & Hx3).
    split; [exact Hx1 |]. split; [exact Hx2 |]. split; [exact Hx3 |].
    rewrite Hconfidence, Hx3. unfold ptax_confidence.
    destruct (is_ptax_window a timestamp); vm_compute; reflexivity. }
  intros Hforce Hconf Hext. rewrite Hforce in H5. rewrite Hconf in H6.
  split; [exact H5 |]. split; [exact H6 |].
  intros Hnone. destruct (H8 Hnone) as (Hx1 & _). rewrite Hext in Hx1. exact Hx1.
Qed.

Lemma confluence_validity_witness :
  match analyze_confluence sample_analyzer "VOLUME_SPIKE" 5006.5 "WDO" 9 1200
          (PyTime.hm 14 30) "" with
  | (Some sig, _) =>
      d_level sig = "SOFGRE"%string /\ d_action sig = "COMPRA"%string /\
      (9 <= d_strength sig)%Z /\ (d_confidence sig == 0.85)%Q
  | (None, _) => False
  end.
Proof.
  destruct (analyze_confluence sample_analyzer "VOLUME_SPIKE" 5006.5 "WDO" 9 1200
              (PyTime.hm 14 30) "") as [[sig |] a'] eqn:E.
  - pose proof (confluence_validity sample_analyzer "VOLUME_SPIKE" 5006.5 "WDO" 9 1200
                  (PyTime.hm 14 30) "" sig a' E) as H.
    cbv zeta in H.
    destruct H as (_ & _ & Hs & _ & _ & _ & _ & _ & Hx & Hd).
    vm_compute in E. injection E as <- <-.
    assert (Hnone : ConfluenceMatrix.find_rule (matrix sample_analyzer)
                      (_normalize_pattern_name "VOLUME_SPIKE") "SOFGRE" "" = None)
      by (vm_compute; reflexivity).
    destruct (Hx Hnone) as (_ & [[Hl Ha] | [Hl Ha]] & _ & Hc).
    + discriminate Hl.
    + destruct (Hd eq_refl eq_refl eq_refl) as (_ & _ & H9).
      split; [exact Hl |]. split; [exact Ha |]. split; [exact (H9 Hnone) |]. exact Hc.
  - vm_compute in E. discriminate E.
Defined.

(** *** The PTAX bonus *)

Lemma ptax_confidence_bounds (is_ptax : bool) (c : Q) :
  (c <= 0.95)%Q ->
  (c <= ptax_confidence is_ptax c)%Q /\ (ptax_confidence is_ptax c <= 0.95)%Q.
Proof.
  intros Hc. unfold ptax_confidence. destruct is_ptax.
  - split; [apply PyFacts.min_glb; lra | apply PyFacts.min_le_r].
  - split; lra.
Qed.

(** An analyzer whose matrix holds one rule of confidence 0.96. *)
Definition confident_analyzer : t :=
  {| tolerancia_proximidade := 3.0;
     matrix :=
       {| ConfluenceMatrix.rules :=
            {[ ("TRAP", "SOFRER_2X")%string :=
                 ConfluenceMatrix.mk "VENDA" 0.96 "Armadilha em resistencia maxima" ]};
          ConfluenceMatrix.extreme_force_threshold := 9;
          ConfluenceMatrix.minimum_force := 7;
          ConfluenceMatrix.minimum_confidence := 0.65 |};
     janelas_ptax := default_janelas_ptax;
     niveis_calculados := [sample_level "SOFRER_2X" 5045 "RESISTENCIA"] |}.

(** C5, as stated, fails: a rule confidence of 0.96 lies in [0, 1], and
    the signal built at 10:05, inside the first PTAX window, carries the
    confidence 0.95, which is lower. *)
Lemma ptax_bonus_lowers_high_confidence :
  exists sig a',
    analyze_confluence confident_analyzer "trap" 5044 "WDO" 8 100
      (PyTime.hm 10 5) "" = (Some sig, a') /\
    (0 <= ConfluenceMatrix.confianca (d_rule_applied sig))%Q /\
    (ConfluenceMatrix.confianca (d_rule_applied sig) <= 1)%Q /\
    d_is_ptax_window sig = true /\
    (d_confidence sig < ConfluenceMatrix.confianca (d_rule_applied sig))%Q.
Proof.
  eexists. eexists. split; [vm_compute; reflexivity |].
  simpl. repeat split; vm_compute; congruence.
Qed.

(** C5, amended. The confidence of an emitted signal is the rule
    confidence outside the PTAX windows; for a rule confidence of at
    most 0.95 the bonus never decreases it and the result never exceeds
    0.95. *)
Theorem ptax_bonus_monotone_capped
    a tape_pattern p symbol strength volume timestamp direction sig a' :
  analyze_confluence a tape_pattern p symbol strength volume timestamp direction
    = (Some sig, a') ->
  (is_ptax_window a timestamp = false ->
   d_confidence sig = ConfluenceMatrix.confianca (d_rule_applied sig)) /\
  ((ConfluenceMatrix.confianca (d_rule_applied sig) <= 0.95)%Q ->
   (ConfluenceMatrix.confianca (d_rule_applied sig) <= d_confidence sig)%Q /\
   (d_confidence sig <= 0.95)%Q).
Proof.
  intros H. rewrite (signal_confidence _ _ _ _ _ _ _ _ _ _ H). split.
  - intros Hw. rewrite Hw. reflexivity.
  - intros Hc. apply ptax_confidence_bounds. exact Hc.
Qed.

Lemma ptax_bonus_monotone_capped_witness :
  exists sig a',
    analyze_confluence sample_analyzer "SQUEEZE" 5044 "WDO" 8 100
      (PyTime.hm 10 5) "VENDA" = (Some sig, a') /\
    (ConfluenceMatrix.confianca (d_rule_applied sig) == 0.90)%Q /\
    (ConfluenceMatrix.confianca (d_rule_applied sig) <= d_confidence sig)%Q /\
    (d_confidence sig <= 0.95)%Q.
Proof.
  eexists. eexists. split; [vm_compute; reflexivity |].
  split; [vm_compute; reflexivity |].
  eapply (ptax_bonus_monotone_capped sample_analyzer "SQUEEZE" 5044 "WDO" 8 100
            (PyTime.hm 10 5) "VENDA").
  - vm_compute. reflexivity.
  - vm_compute. congruence.
Defined.

End ConfluenceFacts.

(** ** Circuit breakers and the risk manager *)

Module RiskFacts.
Import RiskTypes.

(** A breaker that [check_all] reports: active, triggered, and with a
    [seconds] field of the elapsed time below its cooldown. *)
Definition holds (now : PyTime.datetime) (st : CircuitBreakerState) : Prop :=
  active st = true /\
  exists at_, triggered_at st = Some at_ /\
              (PyTime.seconds (PyTime.sub now at_) < cooldown_seconds st)%Z.

Lemma check_one_keeps_blocked now name st res :
  CircuitBreakerSystem.all_clear res = false ->
  CircuitBreakerSystem.all_clear (fst (CircuitBreakerSystem.check_one now name st res)) = false.
Proof.
  intros H. unfold CircuitBreakerSystem.check_one.
  destruct (active st); [| exact H].
  destruct (triggered_at st); [| reflexivity].
  destruct (_ <? _)%Z; [reflexivity | exact H].
Qed.

Lemma check_loop_keeps_blocked now items : forall res,
  CircuitBreakerSystem.all_clear res = false ->
  CircuitBreakerSystem.all_clear (fst (CircuitBreakerSystem.check_loop now items res)) = false.
Proof.
  induction items as [| [name st] rest IH]; intros res H; simpl; [exact H |].
  pose proof (check_one_keeps_blocked now name st res H) as H1.
  destruct (CircuitBreakerSystem.check_one now name st res) as [res1 st1].
  specialize (IH res1 H1).
  destruct (CircuitBreakerSystem.check_loop now rest res1) as [res2 rest2].
  exact IH.
Qed.

Lemma check_one_holds now name st res :
  holds now st ->
  CircuitBreakerSystem.check_one now name st res =
    (CircuitBreakerSystem.blocked res
       {| CircuitBreakerSystem.t_name := name;
          CircuitBreakerSystem.t_reason := reason st;
          CircuitBreakerSystem.t_remaining :=
            match triggered_at st with
            | Some at_ => Some (cooldown_seconds st - PyTime.seconds (PyTime.sub now at_))%Z
            | None => None
            end |}, st).
Proof.
  intros (Ha & at_ & Ht & Hlt). unfold CircuitBreakerSystem.check_one.
  rewrite Ha, Ht. apply Z.ltb_lt in Hlt. rewrite Hlt. reflexivity.
Qed.

Lemma check_loop_holds now items : forall res name st,
  In (name, st) items -> holds now st ->
  CircuitBreakerSystem.all_clear (fst (CircuitBreakerSystem.check_loop now items res)) = false.
Proof.
  induction items as [| [n0 s0] rest IH]; intros res name st Hin Hh; [destruct Hin |].
  simpl. destruct Hin as [Heq | Hin].
  - injection Heq as -> ->. rewrite (check_one_holds _ _ _ _ Hh).
    pose proof (check_loop_keeps_blocked now rest
                  (CircuitBreakerSystem.blocked res
                     {| CircuitBreakerSystem.t_name := name;
                        CircuitBreakerSystem.t_reason := reason st;
                        CircuitBreakerSystem.t_remaining :=
                          match triggered_at st with
                          | Some at_ =>
                              Some (cooldown_seconds st - PyTime.seconds (PyTime.sub now at_))%Z
                          | None => None
                          end |}) eq_refl) as H.
    destruct (CircuitBreakerSystem.check_loop now rest _) as [res2 rest2]. exact H.
  - destruct (CircuitBreakerSystem.check_one now n0 s0 res) as [res1 st1].
    specialize (IH res1 name st Hin Hh).
    destruct (CircuitBreakerSystem.check_loop now rest res1) as [res2 rest2]. exact IH.
Qed.

(** Inside the cooldown window the [seconds] field is below the cooldown. *)
Lemma within_cooldown_holds now st at_ :
  active st = true -> triggered_at st = Some at_ ->
  (0 <= PyTime.sub now at_ < PyTime.of_seconds (cooldown_seconds st))%Z ->
  holds now st.
Proof.
  intros Ha Ht [H0 H1]. split; [exact Ha |]. exists at_. split; [exact Ht |].
  pose proof (PyFacts.seconds_le_total _ H0) as Hle.
  unfold PyTime.of_seconds, PyTime.us_per_second in *. nia.
Qed.

(** The first half of C2: a breaker that is active and inside its
    cooldown window makes [evaluate_signal] reject the signal with the
    level CRITICAL, and nothing is published. *)
Lemma active_breaker_rejects m signal now name st at_ :
  In (name, st) (RiskManager.circuit_breakers m) ->
  active st = true -> triggered_at st = Some at_ ->
  (0 <= PyTime.sub now at_ < PyTime.of_seconds (cooldown_seconds st))%Z ->
  exists a m',
    RiskManager.evaluate_signal m signal now = (false, a, m') /\
    RiskManager.approved a = false /\
    RiskManager.risk_level a = CRITICAL /\
    RiskManager.published m' = RiskManager.published m.
Proof.
  intros Hin Ha Ht Hw.
  pose proof (within_cooldown_holds _ _ _ Ha Ht Hw) as Hh.
  unfold RiskManager.evaluate_signal, CircuitBreakerSystem.check_all.
  pose proof (check_loop_holds now (RiskManager.circuit_breakers m)
                {| CircuitBreakerSystem.all_clear := true;
                   CircuitBreakerSystem.triggered := [] |} name st Hin Hh) as Hc.
  destruct (CircuitBreakerSystem.check_loop now _ _) as [cb bs]. simpl in Hc.
  rewrite Hc. simpl. eexists. eexists. split; [reflexivity |]. simpl. auto.
Qed.

(** A breaker whose [seconds] field has reached the cooldown is reset
    by the check. *)
Lemma check_one_resets now name st res at_ :
  active st = true -> triggered_at st = Some at_ ->
  (cooldown_seconds st <= PyTime.seconds (PyTime.sub now at_))%Z ->
  CircuitBreakerSystem.check_one now name st res =
    (res, CircuitBreakerSystem.reset_state st).
Proof.
  intros Ha Ht Hge. unfold CircuitBreakerSystem.check_one. rewrite Ha, Ht.
  destruct (Z.ltb_spec (PyTime.seconds (PyTime.sub now at_)) (cooldown_seconds st));
    [lia | reflexivity].
Qed.

(** Less than a day after the trigger, an elapsed cooldown is seen. *)
Lemma cooldown_elapsed_same_day now st at_ :
  (PyTime.of_seconds (cooldown_seconds st) <= PyTime.sub now at_ < PyTime.us_per_day)%Z ->
  (0 <= cooldown_seconds st)%Z ->
  (cooldown_seconds st <= PyTime.seconds (PyTime.sub now at_))%Z.
Proof.
  intros [H1 H2] H0. rewrite PyFacts.seconds_small.
  - unfold PyTime.of_seconds, PyTime.us_per_second in *.
    apply Z.div_le_lower_bound; lia.
  - unfold PyTime.of_seconds, PyTime.us_per_second in *. lia.
Qed.

(** The drawdown breaker, triggered at noon of day 0. *)
Definition tripped : CircuitBreakerSystem.t :=
  CircuitBreakerSystem.trigger (CircuitBreakerSystem.init 300) (PyTime.hm 12 0)
    "drawdown" "Drawdown 2.5%".

Definition a_signal : Signal.t :=
  {| Signal.source := Signal.CONFLUENCE; Signal.level := Signal.ALERT;
     Signal.details := {| Signal.symbol := Some "WDO"%string; Signal.pattern := None;
                          Signal.original_pattern := None; Signal.profit := None;
                          Signal.cvd_roc := None |} |}.

(** C2, second half, fails on the code: one day and ten seconds after
    the trigger the cooldown of 300 s has long elapsed, but the check
    reads the [seconds] field of the elapsed time (10), keeps the
    breaker active with "290s restantes", and the manager rejects the
    signal as CRITICAL. *)
Theorem breaker_not_reset_after_a_day :
  let now := (PyTime.hm 12 0 + PyTime.us_per_day + PyTime.of_seconds 10)%Z in
  (PyTime.of_seconds 300 <= PyTime.sub now (PyTime.hm 12 0))%Z /\
  (exists st,
     Dict.get "drawdown" (snd (CircuitBreakerSystem.check_all tripped now)) = Some st /\
     active st = true /\ triggered_at st = Some (PyTime.hm 12 0)) /\
  CircuitBreakerSystem.check_all tripped now =
    ({| CircuitBreakerSystem.all_clear := false;
        CircuitBreakerSystem.triggered :=
          [{| CircuitBreakerSystem.t_name := "drawdown";
              CircuitBreakerSystem.t_reason := "Drawdown 2.5%";
              CircuitBreakerSystem.t_remaining := Some 290%Z |}] |}, tripped) /\
  (forall m signal,
     RiskManager.circuit_breakers m = tripped ->
     exists a m', RiskManager.evaluate_signal m signal now = (false, a, m') /\
                  RiskManager.risk_level a = CRITICAL).
Proof.
  intros now. split; [vm_compute; discriminate |].
  split; [eexists; split; [vm_compute; reflexivity | split; reflexivity] |].
  split; [vm_compute; reflexivity |].
  intros m signal Hm. unfold RiskManager.evaluate_signal. rewrite Hm.
  replace (CircuitBreakerSystem.check_all tripped now) with
    ({| CircuitBreakerSystem.all_clear := false;
        CircuitBreakerSystem.triggered :=
          [{| CircuitBreakerSystem.t_name := "drawdown"%string;
              CircuitBreakerSystem.t_reason := "Drawdown 2.5%"%string;
              CircuitBreakerSystem.t_remaining := Some 290%Z |}] |}, tripped)
    by (vm_compute; reflexivity).
  simpl. eexists. eexists. split; reflexivity.
Qed.

(** *** Contextual risk *)

Lemma hour_lt_10 now :
  (PyTime.hour now < 10)%Z <-> (PyTime.time_of_day now < PyTime.hm 10 0)%Z.
Proof.
  unfold PyTime.hour, PyTime.hm, PyTime.us_per_second.
  set (t := PyTime.time_of_day now). split; intros H.
  - apply Z.nle_gt. intros Hge.
    assert (10 <= t / (3600 * 1000000))%Z by (apply Z.div_le_lower_bound; lia). lia.
  - apply Z.div_lt_upper_bound; lia.
Qed.

Lemma hour_gt_16 now :
  (16 < PyTime.hour now)%Z <-> (PyTime.hm 17 0 <= PyTime.time_of_day now)%Z.
Proof.
  unfold PyTime.hour, PyTime.hm, PyTime.us_per_second.
  set (t := PyTime.time_of_day now). split; intros H.
  - apply Z.nlt_ge. intros Hlt.
    assert (t / (3600 * 1000000) < 17)%Z by (apply Z.div_lt_upper_bound; lia). lia.
  - assert (17 <= t / (3600 * 1000000))%Z by (apply Z.div_le_lower_bound; lia). lia.
Qed.

Lemma level_of_score_spec s :
  (SignalEvaluator.level_of_score s = CRITICAL <-> (4 <= s)%Z) /\
  (SignalEvaluator.level_of_score s = HIGH <-> (s = 3)%Z) /\
  (SignalEvaluator.level_of_score s = MEDIUM <-> (s = 2)%Z) /\
  (SignalEvaluator.level_of_score s = LOW <-> (s <= 1)%Z).
Proof.
  unfold SignalEvaluator.level_of_score.
  destruct (Z.leb_spec 4 s); [repeat split; intros; try discriminate; try lia; reflexivity |].
  destruct (Z.leb_spec 3 s); [repeat split; intros; try discriminate; try lia; reflexivity |].
  destruct (Z.leb_spec 2 s); repeat split; intros; try discriminate; try lia; reflexivity.
Qed.

(** The context that step 5 of [evaluate_signal] builds from the manager. *)
Definition context_of (m : RiskManager.t) : SignalEvaluator.Context :=
  {| SignalEvaluator.system_risk_level := RiskManager._calculate_current_risk_level m;
     SignalEvaluator.current_drawdown :=
       RiskMetricsTracker.current_drawdown (RiskMetricsTracker.metrics (RiskManager.metrics_tracker m));
     SignalEvaluator.consecutive_losses :=
       RiskMetricsTracker.consecutive_losses (RiskMetricsTracker.metrics (RiskManager.metrics_tracker m)) |}.

(** C8, amended. The contextual score is the sum of four contributions:
    3, 2 or 1 for a system risk level CRITICAL, HIGH or MEDIUM; 2 when
    the current drawdown exceeds the fixed value 1.5; 1 when the clock
    hour is below 10 or above 16, that is before 10:00 or from 17:00 on;
    1 when the signal has a CVD-RoC whose absolute value exceeds 150.
    The level is CRITICAL iff the score is at least 4, HIGH iff it is 3,
    MEDIUM iff it is 2 and LOW otherwise, and at step 5 the manager
    rejects the signal iff the level is HIGH or CRITICAL, publishing
    SIGNAL_APPROVED exactly when it does not. *)
Theorem contextual_risk_score :
  (forall signal context now,
     let r := SignalEvaluator.evaluate_contextual_risk signal context now in
     exists s d h v : Z,
       SignalEvaluator.score r = (s + d + h + v)%Z /\
       (match SignalEvaluator.system_risk_level context with
        | CRITICAL => s = 3 | HIGH => s = 2 | MEDIUM => s = 1 | LOW => s = 0
        end)%Z /\
       ((d = 2%Z /\ (1.5 < SignalEvaluator.current_drawdown context)%Q) \/
        (d = 0%Z /\ (SignalEvaluator.current_drawdown context <= 1.5)%Q)) /\
       ((h = 1%Z /\ ((PyTime.time_of_day now < PyTime.hm 10 0)%Z \/
                     (PyTime.hm 17 0 <= PyTime.time_of_day now)%Z)) \/
        (h = 0%Z /\ (PyTime.hm 10 0 <= PyTime.time_of_day now < PyTime.hm 17 0)%Z)) /\
       ((v = 1%Z /\ exists roc, Signal.cvd_roc (Signal.details signal) = Some roc /\
                                (150 < Qabs roc)%Q) \/
        (v = 0%Z /\ forall roc, Signal.cvd_roc (Signal.details signal) = Some roc ->
                                (Qabs roc <= 150)%Q)) /\
       (SignalEvaluator.level r = CRITICAL <-> (4 <= SignalEvaluator.score r)%Z) /\
       (SignalEvaluator.level r = HIGH <-> SignalEvaluator.score r = 3%Z) /\
       (SignalEvaluator.level r = MEDIUM <-> SignalEvaluator.score r = 2%Z) /\
       (SignalEvaluator.level r = LOW <-> (SignalEvaluator.score r <= 1)%Z)) /\
  (forall m signal assessment q now,
     let r := SignalEvaluator.evaluate_contextual_risk signal (context_of m) now in
     let '(ok, a, m') := RiskManager.contextual_stage m signal assessment q now in
     (ok = false <-> SignalEvaluator.level r = HIGH \/ SignalEvaluator.level r = CRITICAL) /\
     RiskManager.approved a = ok /\
     RiskManager.risk_level a = SignalEvaluator.level r /\
     (ok = false -> RiskManager.published m' = RiskManager.published m) /\
     (ok = true ->
      RiskManager.published m' =
        RiskManager.published m ++ [RiskManager.SIGNAL_APPROVED signal a])).
Proof.
  split.
  - intros signal context now r.
    unfold SignalEvaluator.evaluate_contextual_risk in r.
    destruct (SignalEvaluator.system_points _) as [s fs] eqn:Es.
    destruct (SignalEvaluator.drawdown_points _) as [d fd] eqn:Ed.
    destruct (SignalEvaluator.hour_points now) as [h fh] eqn:Eh.
    destruct (SignalEvaluator.volatility_points signal) as [v fv] eqn:Ev.
    exists s, d, h, v. subst r. cbn [SignalEvaluator.score SignalEvaluator.level].
    split; [lia |].
    split.
    { unfold SignalEvaluator.system_points in Es.
      destruct (SignalEvaluator.system_risk_level context); injection Es as <- _; reflexivity. }
    split.
    { unfold SignalEvaluator.drawdown_points in Ed.
      destruct (Py.Qltb 1.5 _) eqn:E; injection Ed as <- _.
      - left. split; [reflexivity | apply PyFacts.Qltb_lt; exact E].
      - right. split; [reflexivity | apply PyFacts.Qltb_ge; exact E]. }
    split.
    { unfold SignalEvaluator.hour_points in Eh.
      destruct (Z.ltb_spec (PyTime.hour now) 10) as [H1 | H1]; simpl in Eh.
      - injection Eh as <- _. left. split; [reflexivity |]. left. apply hour_lt_10. exact H1.
      - destruct (Z.ltb_spec 16 (PyTime.hour now)) as [H2 | H2]; injection Eh as <- _.
        + left. split; [reflexivity |]. right. apply hour_gt_16. exact H2.
        + right. split; [reflexivity |]. split.
          * apply Z.nlt_ge. intros Hc. apply hour_lt_10 in Hc. lia.
          * apply Z.nle_gt. intros Hc. apply hour_gt_16 in Hc. lia. }
    split.
    { unfold SignalEvaluator.volatility_points in Ev.
      destruct (Signal.cvd_roc (Signal.details signal)) as [roc |].
      - destruct (Py.Qltb 150 (Qabs roc)) eqn:E; injection Ev as <- _.
        + left. split; [reflexivity |]. exists roc. split; [reflexivity |].
          apply PyFacts.Qltb_lt. exact E.
        + right. split; [reflexivity |]. intros r0 Hr. injection Hr as <-.
          apply PyFacts.Qltb_ge. exact E.
      - injection Ev as <- _. right. split; [reflexivity |]. intros r0 Hr. discriminate. }
    replace (0 + s + d + h + v)%Z with (s + d + h + v)%Z by lia.
    apply level_of_score_spec.
  - intros m signal assessment q now r.
    unfold RiskManager.contextual_stage. fold (context_of m). fold r.
    destruct (SignalEvaluator.level r) eqn:El; simpl;
      repeat split; intros; try discriminate; try reflexivity; auto;
      try (match goal with H : _ \/ _ |- _ => destruct H; discriminate end).
Qed.

(** A manager with three consecutive losses (system risk HIGH), at
    16:30 of day 0. *)
Definition three_losses : RiskManager.t :=
  let m := RiskManager.init (AdaptiveRiskSystem.pre_init AdaptiveRiskSystem.default_config) in
  let t := RiskManager.metrics_tracker m in
  {| RiskManager.circuit_breakers := RiskManager.circuit_breakers m;
     RiskManager.evaluator := RiskManager.evaluator m;
     RiskManager.adaptive_system := RiskManager.adaptive_system m;
     RiskManager.metrics_tracker :=
       {| RiskMetricsTracker.cfg_signal_timeout := RiskMetricsTracker.cfg_signal_timeout t;
          RiskMetricsTracker.ts_all := []; RiskMetricsTracker.ts_confluence := [];
          RiskMetricsTracker.ts_arbitrage := []; RiskMetricsTracker.ts_tape_reading := [];
          RiskMetricsTracker.active_signals := ∅;
          RiskMetricsTracker.signal_history := [];
          RiskMetricsTracker.metrics :=
            {| RiskMetricsTracker.total_signals := 3;
               RiskMetricsTracker.signals_approved := 3;
               RiskMetricsTracker.signals_rejected := 0;
               RiskMetricsTracker.consecutive_losses := 3;
               RiskMetricsTracker.daily_pnl := -300;
               RiskMetricsTracker.peak_pnl := 0;
               RiskMetricsTracker.current_drawdown := 0 |} |};
     RiskManager.consecutive_losses_limit := RiskManager.consecutive_losses_limit m;
     RiskManager.max_drawdown_percent := RiskManager.max_drawdown_percent m;
     RiskManager.emergency_stop_loss := RiskManager.emergency_stop_loss m;
     RiskManager.published := [] |}.

(** C8, as stated, fails: 16:30 is outside 10:00-16:00, so with a system
    risk HIGH the stated score is 3 and the stated level HIGH (reject);
    the code adds nothing for the hour 16, scores 2, finds MEDIUM and
    the manager approves the signal. *)
Lemma contextual_risk_at_half_past_four :
  let now := PyTime.hm 16 30 in
  let r := SignalEvaluator.evaluate_contextual_risk a_signal (context_of three_losses) now in
  SignalEvaluator.system_risk_level (context_of three_losses) = HIGH /\
  ContextualRiskSpec.score HIGH 0 2.0 now None = 3%Z /\
  ContextualRiskSpec.level 3 = HIGH /\
  SignalEvaluator.score r = 2%Z /\
  SignalEvaluator.level r = MEDIUM /\
  exists a m', RiskManager.evaluate_signal three_losses a_signal now = (true, a, m') /\
               RiskManager.published m' = [RiskManager.SIGNAL_APPROVED a_signal a].
Proof.
  repeat split; try (vm_compute; reflexivity).
  eexists. eexists. split; vm_compute; reflexivity.
Qed.

End RiskFacts.

(** ** Trade cache *)

Module CacheFacts.
Import TradeMemoryCache.

Lemma append_length {A} (M : nat) (d : list A) x :
  (length d <= M)%nat -> (length (Deque.append M d x) <= M)%nat.
Proof.
  intros H. unfold Deque.append. destruct M as [| M]; [exact H |].
  destruct (Nat.ltb_spec (length d) (S M)).
  - rewrite length_app. simpl. lia.
  - destruct d as [| y d]; simpl in *; [lia |]. rewrite length_app. simpl. lia.
Qed.

Lemma append_skipn {A} (M : nat) (d : list A) x :
  (length d <= M)%nat ->
  Deque.append M d x = skipn (length d + 1 - M) (d ++ [x]).
Proof.
  intros H. unfold Deque.append. destruct M as [| M].
  - destruct d; simpl in *; [reflexivity | lia].
  - destruct (Nat.ltb_spec (length d) (S M)).
    + replace (length d + 1 - S M)%nat with 0%nat by lia. reflexivity.
    + replace (length d + 1 - S M)%nat with 1%nat by lia.
      destruct d; simpl in *; [lia | reflexivity].
Qed.

(** A bounded deque extended by a batch holds the last [M] elements of
    the old contents followed by the batch. *)
Lemma extend_skipn {A} (M : nat) (xs : list A) : forall d,
  (length d <= M)%nat ->
  Deque.extend M d xs = skipn (length d + length xs - M) (d ++ xs).
Proof.
  unfold Deque.extend. induction xs as [| x xs IH]; intros d H; simpl.
  - replace (length d + 0 - M)%nat with 0%nat by lia. rewrite app_nil_r. reflexivity.
  - rewrite IH by (apply append_length; exact H).
    rewrite (append_skipn M d x H).
    rewrite length_skipn, length_app. simpl.
    set (k := (length d + 1 - M)%nat).
    replace (d ++ x :: xs) with ((d ++ [x]) ++ xs) by (rewrite <- app_assoc; reflexivity).
    rewrite (skipn_app (length d + S (length xs) - M)).
    rewrite (skipn_app (_ - k + length xs - M)).
    rewrite length_skipn, length_app. simpl.
    rewrite skipn_skipn.
    f_equal; [f_equal; lia | f_equal; lia].
Qed.

Lemma extend_length {A} (M : nat) (xs d : list A) :
  (length d <= M)%nat -> (length (Deque.extend M d xs) <= M)%nat.
Proof.
  intros H. rewrite extend_skipn by exact H.
  rewrite length_skipn, length_app. lia.
Qed.

Lemma new_addr_fresh c : objects c !! new_addr c = None.
Proof. unfold new_addr. apply (not_elem_of_dom (D := gset addr)). apply is_fresh. Qed.

Lemma alloc_bounded c st l a c' :
  bounded c -> alloc c st l = (a, c') ->
  bounded c' /\ max_size c' = max_size c /\ cache c' = cache c /\
  objects c !! a = None /\ objects c' = <[a := l]> (objects c).
Proof.
  intros Hb H. unfold alloc in H. injection H as <- <-. simpl.
  pose proof (new_addr_fresh c) as Hf.
  repeat split; auto.
  intros symbol a0 Hs. simpl in *. destruct (Hb _ _ Hs) as (d & Hd & Hl).
  exists d. split; [| exact Hl].
  rewrite lookup_insert_ne; [exact Hd |]. intros E. rewrite <- E in Hd. congruence.
Qed.

Lemma add_trades_bounded c symbol trades now :
  bounded c -> bounded (add_trades c symbol trades now).
Proof.
  intros Hb. unfold add_trades. destruct trades as [| t0 ts]; [exact Hb |].
  remember (t0 :: ts) as trades eqn:Ht. clear Ht.
  destruct (cache c !! symbol) as [a |] eqn:Hc.
  - destruct (Hb _ _ Hc) as (d & Hd & Hl). rewrite Hd. simpl.
    intros s a0 Hs. simpl in *.
    destruct (decide (a0 = a)) as [-> | Hne].
    + rewrite lookup_insert_eq. eexists. split; [reflexivity |].
      apply extend_length. exact Hl.
    + rewrite lookup_insert_ne by congruence. apply (Hb _ _ Hs).
  - rewrite lookup_insert_eq. simpl.
    intros s a0 Hs. simpl in *.
    destruct (decide (s = symbol)) as [-> | Hne].
    + rewrite lookup_insert_eq in Hs. injection Hs as <-.
      rewrite lookup_insert_eq. eexists. split; [reflexivity |].
      apply extend_length. simpl. lia.
    + rewrite lookup_insert_ne in Hs by congruence.
      destruct (Hb _ _ Hs) as (d & Hd & Hl).
      assert (a0 <> new_addr c) by (intros ->; rewrite new_addr_fresh in Hd; discriminate).
      rewrite !lookup_insert_ne by congruence. eauto.
Qed.

Lemma get_recent_bounded c symbol count a c' :
  bounded c -> get_recent_trades c symbol count = (a, c') ->
  bounded c' /\ max_size c' = max_size c /\ cache c' = cache c /\
  objects c !! a = None /\
  (forall a0, is_Some (objects c !! a0) -> objects c' !! a0 = objects c !! a0).
Proof.
  intros Hb H. unfold get_recent_trades in H.
  destruct (cache c !! symbol) as [a0 |].
  - destruct (alloc c (count_hit c) (deref c a0)) as [a1 c1] eqn:E1.
    destruct (alloc_bounded _ _ _ _ _ Hb E1) as (Hb1 & Hm1 & Hc1 & Hf1 & Ho1).
    destruct (_ <=? _)%Z.
    + injection H as <- <-. repeat split; auto.
      intros a2 [d Hd]. rewrite Ho1. apply lookup_insert_ne. congruence.
    + destruct (alloc_bounded _ _ _ _ _ Hb1 H) as (Hb2 & Hm2 & Hc2 & Hf2 & Ho2).
      repeat split; auto; try congruence.
      * rewrite Ho1 in Hf2. destruct (decide (a1 = a)) as [-> | Hne].
        -- rewrite lookup_insert_eq in Hf2. discriminate.
        -- rewrite lookup_insert_ne in Hf2 by exact Hne. exact Hf2.
      * intros a2 [d Hd]. rewrite Ho2, Ho1.
        assert (a2 <> a1) by congruence.
        assert (a2 <> a).
        { intros ->. rewrite Ho1 in Hf2. rewrite lookup_insert_ne in Hf2 by congruence.
          congruence. }
        rewrite !lookup_insert_ne by congruence. reflexivity.
  - destruct (alloc_bounded _ _ _ _ _ Hb H) as (Hb1 & Hm1 & Hc1 & Hf1 & Ho1).
    repeat split; auto.
    intros a2 [d Hd]. rewrite Ho1. apply lookup_insert_ne. congruence.
Qed.

Lemma step_bounded c o : bounded c -> bounded (step c o) /\ max_size (step c o) = max_size c.
Proof.
  intros Hb. destruct o as [symbol trades now | symbol count | symbol | symbol secs now]; simpl.
  - split; [apply add_trades_bounded; exact Hb |].
    unfold add_trades. destruct trades; [reflexivity |].
    destruct (cache c !! symbol); reflexivity.
  - destruct (get_recent_trades c symbol count) as [a c'] eqn:E.
    destruct (get_recent_bounded _ _ _ _ _ Hb E) as (H1 & H2 & _). auto.
  - unfold get_all_trades. destruct (cache c !! symbol);
      match goal with |- context [alloc ?c ?s ?l] =>
        destruct (alloc c s l) as [a1 c1] eqn:E;
        destruct (alloc_bounded _ _ _ _ _ Hb E) as (H1 & H2 & _); auto end.
  - unfold get_trades_by_time_window. destruct (cache c !! symbol);
      match goal with |- context [alloc ?c ?s ?l] =>
        destruct (alloc c s l) as [a1 c1] eqn:E;
        destruct (alloc_bounded _ _ _ _ _ Hb E) as (H1 & H2 & _); auto end.
Qed.

Lemma run_bounded ops : forall c,
  bounded c -> bounded (run c ops) /\ max_size (run c ops) = max_size c.
Proof.
  unfold run. induction ops as [| o ops IH]; intros c Hb; simpl; [auto |].
  destruct (step_bounded c o Hb) as [Hb1 Hm1].
  destruct (IH _ Hb1) as [Hb2 Hm2]. split; [exact Hb2 | congruence].
Qed.

Lemma init_bounded M : bounded (init M).
Proof. intros symbol a H. simpl in H. rewrite lookup_empty in H. discriminate. Qed.

Lemma bounded_contents c symbol :
  bounded c -> (length (contents c symbol) <= max_size c)%nat.
Proof.
  intros Hb. unfold contents, deref. destruct (cache c !! symbol) as [a |] eqn:Hc.
  - destruct (Hb _ _ Hc) as (d & Hd & Hl). rewrite Hd. exact Hl.
  - simpl. lia.
Qed.

(** What a batch does to the deque of its symbol and to the counter. *)
Lemma add_trades_effect c symbol trades now :
  bounded c ->
  let c' := add_trades c symbol trades now in
  let e := evicted (max_size c) (length (contents c symbol)) (length trades) in
  evictions (stats c') = (evictions (stats c) + Z.of_nat e)%Z /\
  (e <= length (contents c symbol))%nat /\
  contents c' symbol =
    skipn e (contents c symbol) ++ skipn (length trades - max_size c) trades.
Proof.
  intros Hb c' e. subst c' e.
  assert (He : forall s n, (evicted (max_size c) s n <= s)%nat).
  { intros s n. unfold evicted. destruct (_ <? _)%nat; lia. }
  pose proof (bounded_contents c symbol Hb) as Hlen.
  unfold add_trades. destruct trades as [| t0 ts].
  - unfold evicted. simpl.
    destruct (Nat.ltb_spec (max_size c) (length (contents c symbol) + 0)); [lia |].
    simpl. rewrite app_nil_r. split; [lia |]. split; [lia | reflexivity].
  - remember (t0 :: ts) as trades eqn:Ht. clear Ht.
    assert (Hskip : forall d : list Trade.t, (length d <= max_size c)%nat ->
              Deque.extend (max_size c) d trades =
              skipn (evicted (max_size c) (length d) (length trades)) d ++
              skipn (length trades - max_size c) trades).
    { intros d Hd. rewrite extend_skipn by exact Hd. rewrite skipn_app.
      unfold evicted. destruct (Nat.ltb_spec (max_size c) (length d + length trades)).
      - f_equal; [| f_equal; lia].
        destruct (Nat.le_gt_cases (length d) (length d + length trades - max_size c)).
        + rewrite Nat.min_l by lia. rewrite !skipn_all2 by lia. reflexivity.
        + rewrite Nat.min_r by lia. reflexivity.
      - f_equal; f_equal; lia. }
    unfold contents, deref in *.
    destruct (cache c !! symbol) as [a |] eqn:Hc.
    + destruct (Hb _ _ Hc) as (d & Hd & Hl). rewrite Hd in *.
      cbn [max_size cache objects stats evictions default].
      rewrite Hc, lookup_insert_eq. cbn [default].
      split; [reflexivity |]. split; [apply He |]. apply Hskip. exact Hl.
    + rewrite lookup_insert_eq.
      cbn [max_size cache objects stats evictions default].
      rewrite !lookup_insert_eq. cbn [default].
      split; [reflexivity |]. split; [apply He |]. apply (Hskip []). simpl. lia.
Qed.

Lemma get_recent_allocated c symbol count a c' :
  get_recent_trades c symbol count = (a, c') -> is_Some (objects c' !! a).
Proof.
  unfold get_recent_trades, alloc. intros H.
  destruct (cache c !! symbol) as [a0 |].
  - cbn zeta in H. destruct (_ <=? _)%Z; injection H as <- <-; simpl;
      rewrite lookup_insert_eq; eauto.
  - injection H as <- <-. simpl. rewrite lookup_insert_eq. eauto.
Qed.

Lemma contents_preserved c c' :
  bounded c -> cache c' = cache c ->
  (forall a0, is_Some (objects c !! a0) -> objects c' !! a0 = objects c !! a0) ->
  forall s, contents c' s = contents c s.
Proof.
  intros Hb Hc Ho s. unfold contents, deref. rewrite Hc.
  destruct (cache c !! s) as [a0 |] eqn:E; [| reflexivity].
  destruct (Hb _ _ E) as (d & Hd & _). rewrite Ho by eauto. reflexivity.
Qed.

(** The list returned by [get_recent_trades] is a new object: it is no
    deque of the cache, updating it in place leaves the cache as it
    is, and later batches leave the list as it is. *)
Lemma get_recent_no_alias c symbol count a c' :
  bounded c -> get_recent_trades c symbol count = (a, c') ->
  objects c !! a = None /\
  (forall s, cache c' !! s <> Some a) /\
  (forall s, contents c' s = contents c s) /\
  (forall s f, contents (mutate c' a f) s = contents c' s) /\
  (forall s trades now, deref (add_trades c' s trades now) a = deref c' a).
Proof.
  intros Hb H.
  destruct (get_recent_bounded _ _ _ _ _ Hb H) as (Hb' & Hm & Hc & Hf & Ho).
  pose proof (get_recent_allocated _ _ _ _ _ H) as [l Hl].
  assert (Hno : forall s, cache c' !! s <> Some a).
  { intros s Hs. rewrite Hc in Hs. destruct (Hb _ _ Hs) as (d & Hd & _). congruence. }
  split; [exact Hf |]. split; [exact Hno |].
  split; [apply contents_preserved; assumption |].
  split.
  - intros s f. unfold contents, deref, mutate. simpl.
    destruct (cache c' !! s) as [a0 |] eqn:E; [| reflexivity].
    rewrite lookup_insert_ne; [reflexivity |]. intros <-. exact (Hno _ E).
  - intros s trades now. unfold add_trades. destruct trades as [| t0 ts]; [reflexivity |].
    remember (t0 :: ts) as trades eqn:Ht. clear Ht. unfold deref.
    destruct (cache c' !! s) as [a0 |] eqn:E.
    + cbn [objects]. rewrite lookup_insert_ne; [reflexivity |].
      intros <-. exact (Hno _ E).
    + cbn [objects].
      assert (new_addr c' <> a)
        by (intros <-; rewrite new_addr_fresh in Hl; discriminate).
      rewrite !lookup_insert_ne by assumption. reflexivity.
Qed.

(** C7. In every state that the cache reaches by batches of trades and
    by reads: (1) no symbol holds more trades than the capacity;
    (2) a further batch removes the [e] oldest trades of its symbol,
    keeps the other cached trades in order before the part of the batch
    that fits, and adds exactly [e] to the evictions counter;
    (3) the list returned by [get_recent_trades] is a newly allocated
    object that is not the deque of any symbol: updating it in place
    does not change what the cache holds, and later batches do not
    change the list. *)
Theorem trade_cache_invariants (M : nat) (ops : list Op) :
  let c := run (init M) ops in
  (forall symbol, (get_size c symbol <= M)%nat) /\
  (forall symbol trades now,
     let c' := add_trades c symbol trades now in
     let old := contents c symbol in
     exists e : nat,
       evictions (stats c') = (evictions (stats c) + Z.of_nat e)%Z /\
       (e <= length old)%nat /\
       contents c' symbol = skipn e old ++ skipn (length trades - M) trades /\
       (length (contents c' symbol) <= M)%nat) /\
  (forall symbol count,
     let '(a, c') := get_recent_trades c symbol count in
     objects c !! a = None /\
     (forall s, cache c' !! s <> Some a) /\
     (forall s, contents c' s = contents c s) /\
     (forall s f, contents (mutate c' a f) s = contents c' s) /\
     (forall s trades now, deref (add_trades c' s trades now) a = deref c' a)).
Proof.
  intros c.
  destruct (run_bounded ops (init M) (init_bounded M)) as [Hb Hm].
  fold c in Hb, Hm. simpl in Hm.
  split; [| split].
  - intros symbol. unfold get_size. rewrite <- Hm. apply bounded_contents. exact Hb.
  - intros symbol trades now c' old.
    destruct (add_trades_effect c symbol trades now Hb) as (H1 & H2 & H3).
    rewrite Hm in H1, H2, H3.
    eexists. split; [exact H1 |]. split; [exact H2 |]. split; [exact H3 |].
    pose proof (bounded_contents c' symbol (add_trades_bounded _ _ _ _ Hb)) as Hle.
    replace (max_size c') with M in Hle; [exact Hle |].
    subst c'. unfold add_trades. destruct trades; [auto |].
    destruct (cache c !! symbol); simpl; auto.
  - intros symbol count.
    destruct (get_recent_trades c symbol count) as [a c'] eqn:E.
    apply (get_recent_no_alias _ _ _ _ _ Hb E).
Qed.

(** A cache of capacity 3 that receives batches of 2 and of 5 trades. *)
Definition tr (n : Z) : Trade.t :=
  {| Trade.symbol := "WDO"; Trade.price := 5000; Trade.volume := n;
     Trade.side := Trade.BUY; Trade.timestamp := PyTime.of_seconds n;
     Trade.time_str := "" |}.

Example overflowing_batches :
  let c1 := add_trades (init 3) "WDO" [tr 1; tr 2] 0%Z in
  let c2 := add_trades c1 "WDO" [tr 3; tr 4; tr 5; tr 6; tr 7] 0%Z in
  contents c1 "WDO" = [tr 1; tr 2] /\
  contents c2 "WDO" = [tr 5; tr 6; tr 7] /\
  evictions (stats c2) = 2%Z /\
  fst (recent c2 "WDO" 2) = [tr 6; tr 7] /\
  fst (recent c2 "WDO" 0) = [tr 5; tr 6; tr 7].
Proof. repeat split; vm_compute; reflexivity. Qed.

End CacheFacts.

(** ** Cooldown filter *)

Module CooldownFacts.
Import PatternCooldown.

(** What [can_emit_pattern] decides. *)
Lemma can_emit_spec c pattern symbol now :
  fst (can_emit_pattern c pattern symbol now) = true <->
  match last_pattern_time c !! key pattern symbol with
  | None => True
  | Some last => (cooldown_of c pattern <= PyTime.seconds (PyTime.sub now last))%Z
  end.
Proof.
  unfold can_emit_pattern. destruct (last_pattern_time c !! key pattern symbol) as [last |].
  - destruct (Z.leb_spec (cooldown_of c pattern) (PyTime.seconds (PyTime.sub now last)));
      simpl; split; intros; try lia; try discriminate; reflexivity.
  - simpl. split; auto.
Qed.




End CooldownFacts.

(** ** The tape reading pipeline *)

Module PipelineFacts.
Import TapeReading PipelineSpec.

(** *** The defensive filter *)

Lemma sum_volumes_from (vs : list Z) : forall acc,
  fold_left Z.add vs acc = (acc + DefensiveSignalFilter.sum_volumes vs)%Z.
Proof.
  unfold DefensiveSignalFilter.sum_volumes.
  induction vs as [| v vs IH]; intros acc; cbn [fold_left]; [lia |].
  rewrite (IH (acc + v)%Z), (IH (0 + v)%Z). lia.
Qed.

Lemma sum_volumes_positive (m : Z) (vs : list Z) :
  (0 < m)%Z -> vs <> [] ->
  forallb (fun vol => (m <=? vol)%Z) vs = true ->
  (0 < DefensiveSignalFilter.sum_volumes vs)%Z.
Proof.
  intros Hm. induction vs as [| v vs IH]; intros Hne Hall; [congruence |].
  simpl in Hall. apply andb_prop in Hall. destruct Hall as [Hv Hall].
  apply Z.leb_le in Hv.
  unfold DefensiveSignalFilter.sum_volumes. simpl. rewrite sum_volumes_from.
  destruct vs as [| v' vs'].
  - unfold DefensiveSignalFilter.sum_volumes. simpl. lia.
  - assert (0 < DefensiveSignalFilter.sum_volumes (v' :: vs'))%Z by (apply IH; [discriminate | exact Hall]).
    lia.
Qed.

(** With a positive [min_levels] and a positive [min_volume_per_level]
    the layering check divides by no zero. *)
Lemma layered_total f levels :
  (0 < DefensiveSignalFilter.min_levels f)%nat ->
  (0 < DefensiveSignalFilter.min_volume_per_level f)%Z ->
  exists b, DefensiveSignalFilter.layered f levels = Some b.
Proof.
  intros Hl Hv. unfold DefensiveSignalFilter.layered.
  destruct (_ <=? _)%nat; [| eauto].
  set (head := firstn _ _).
  destruct (forallb _ head) eqn:Hall; [| eauto].
  destruct (DefensiveSignalFilter.min_levels f) as [| n] eqn:En; [lia |].
  destruct head as [| v vs] eqn:Eh; [eauto |].
  assert (Hpos : (0 < DefensiveSignalFilter.sum_volumes (v :: vs))%Z)
    by (eapply sum_volumes_positive; [exact Hv | discriminate | exact Hall]).
  destruct (Qeq_bool _ 0) eqn:Eq; [| eauto].
  exfalso. apply Qeq_bool_eq in Eq.
  assert (Hn : (0 < inject_Z (Z.of_nat (S n)))%Q)
    by (unfold Qlt, inject_Z; simpl; lia).
  assert (Hs : (0 < inject_Z (DefensiveSignalFilter.sum_volumes (v :: vs)))%Q)
    by (unfold Qlt, inject_Z; simpl; lia).
  assert (Hq : (0 < inject_Z (DefensiveSignalFilter.sum_volumes (v :: vs)) /
                    inject_Z (Z.of_nat (S n)))%Q).
  { apply Qlt_shift_div_l; [exact Hn | lra]. }
  rewrite Eq in Hq. lra.
Qed.

Lemma check_layering_total f book :
  (0 < DefensiveSignalFilter.min_levels f)%nat ->
  (0 < DefensiveSignalFilter.min_volume_per_level f)%Z ->
  exists r, DefensiveSignalFilter._check_layering f book = Some r.
Proof.
  intros Hl Hv. unfold DefensiveSignalFilter._check_layering.
  destruct (layered_total f (OrderBook.bids book) Hl Hv) as [[|] ->]; [eauto |].
  destruct (layered_total f (OrderBook.asks book) Hl Hv) as [[|] ->]; eauto.
Qed.

(** The filter answers, and it finds a signal safe exactly when no
    enabled check detects a manipulation in the book. *)
Lemma is_signal_safe_spec f book :
  match DefensiveSignalFilter.is_signal_safe f book, manipulation_seen f book with
  | Some (ok, info), Some seen =>
      ok = negb seen /\ DefensiveSignalFilter.safe info = ok /\
      (ok = true <-> DefensiveSignalFilter.risks info = [])
  | None, None => True
  | _, _ => False
  end.
Proof.
  unfold DefensiveSignalFilter.is_signal_safe, manipulation_seen.
  destruct book as [b |]; [| simpl; tauto].
  destruct (DefensiveSignalFilter.block_signals f); [| simpl; tauto].
  unfold DefensiveSignalFilter.inspect.
  destruct (DefensiveSignalFilter.layering_enabled f).
  - destruct (DefensiveSignalFilter._check_layering f b) as [l |]; [| exact I].
    destruct (DefensiveSignalFilter.detected l);
      destruct (DefensiveSignalFilter.spoofing_enabled f);
      try destruct (DefensiveSignalFilter.detected (DefensiveSignalFilter._check_spoofing f b));
      simpl; repeat split; intros; try discriminate; reflexivity.
  - destruct (DefensiveSignalFilter.spoofing_enabled f);
      try destruct (DefensiveSignalFilter.detected (DefensiveSignalFilter._check_spoofing f b));
      simpl; repeat split; intros; try discriminate; reflexivity.
Qed.

Lemma is_signal_safe_total f book :
  (0 < DefensiveSignalFilter.min_levels f)%nat ->
  (0 < DefensiveSignalFilter.min_volume_per_level f)%Z ->
  exists ok info, DefensiveSignalFilter.is_signal_safe f book = Some (ok, info).
Proof.
  intros Hl Hv. unfold DefensiveSignalFilter.is_signal_safe.
  destruct book as [b |]; [| eauto].
  destruct (DefensiveSignalFilter.block_signals f); [| eauto].
  unfold DefensiveSignalFilter.inspect.
  destruct (DefensiveSignalFilter.layering_enabled f).
  - destruct (check_layering_total f b Hl Hv) as [r ->].
    destruct (DefensiveSignalFilter.detected r);
      destruct (DefensiveSignalFilter.spoofing_enabled f);
      try destruct (DefensiveSignalFilter.detected (DefensiveSignalFilter._check_spoofing f b));
      eauto.
  - destruct (DefensiveSignalFilter.spoofing_enabled f);
      try destruct (DefensiveSignalFilter.detected (DefensiveSignalFilter._check_spoofing f b));
      eauto.
Qed.

(** *** One candidate in the signal processor *)

Lemma process_candidate_outcome st d now :
  let sym := symbol_of d in
  let signal := fst (SignalFormatter.format (with_strength d) sym) in
  let before := published (shared st) ++ [PATTERN_DETECTED (with_strength d)] in
  match process_candidate st d now with
  | None => True
  | Some (out, st') =>
      if reaches_defensive_filter st d now then
        exists ok info,
          DefensiveSignalFilter.is_signal_safe (defensive_filter (shared st))
            (current_books (processor st) !! sym) = Some (ok, info) /\
          if ok then out = Some signal /\ published (shared st') = before
          else out = None /\
               published (shared st') = before ++ [MANIPULATION_DETECTED signal info sym]
      else out = None /\ published (shared st') = before
  end.
Proof.
  intros sym signal before. subst sym signal before.
  unfold process_candidate, reaches_defensive_filter, with_strength, symbol_of, pattern_of.
  set (sym := default "WDO"%string (RawSignal.symbol d)).
  set (pat := default "UNKNOWN"%string (RawSignal.pattern d)).
  set (d' := RawSignal.set_strength d (_calculate_strength pat d)).
  destruct (match confirmation st with
            | Some s => requires_confirmation s pat
            | None => false
            end) eqn:Hc.
  - destruct (confirmation st) as [s |]; [| discriminate].
    destruct (add_pending_pattern s pat sym d' now); [| exact I].
    simpl. auto.
  - cbn [negb andb publish pattern_cooldown].
    destruct (PatternCooldown.can_emit_pattern (pattern_cooldown (shared st)) pat sym now)
      as [ok cd]. cbn [fst].
    destruct ok; cbn [negb].
    + destruct (SignalFormatter.format d' sym) as [signal raw] eqn:Ef.
      unfold recent_trades.
      destruct (TradeMemoryCache.recent _ sym 50) as [l c]. cbn [fst].
      cbn [defensive_filter with_cache with_cooldown publish count_published current_books].
      destruct (DefensiveSignalFilter.is_signal_safe (defensive_filter (shared st))
                  (current_books (processor st) !! sym)) as [[ok info] |]; [| exact I].
      destruct ok; [exists true, info | exists false, info];
        (split; [reflexivity |]); simpl; auto.
    + simpl. auto.
Qed.

Lemma emit_confirmed_outcome s w p now :
  let signal :=
    fst (SignalFormatter.format
           (RawSignal.set_confirmed (data p) (attempts p)
              (PyTime.seconds (PyTime.sub now (created_at p)))
              (pattern p ++ "_CONFIRMED"))
           (symbol p)) in
  match _emit_confirmed_pattern s w p now with
  | None => True
  | Some (s', w') =>
      if fst (PatternCooldown.can_emit_pattern (pattern_cooldown w) (pattern p) (symbol p) now)
      then
        exists ok info,
          DefensiveSignalFilter.is_signal_safe (defensive_filter w)
            (pcs_current_books s !! symbol p) = Some (ok, info) /\
          if ok then published w' = published w ++ [SIGNAL_GENERATED signal]
          else published w' = published w ++ [MANIPULATION_DETECTED signal info (symbol p)]
      else published w' = published w
  end.
Proof.
  intros signal. subst signal. unfold _emit_confirmed_pattern.
  destruct (PatternCooldown.can_emit_pattern (pattern_cooldown w) (pattern p) (symbol p) now)
    as [ok cd]. cbn [fst].
  destruct ok; cbn [negb].
  - destruct (SignalFormatter.format _ (symbol p)) as [signal raw] eqn:Ef.
    unfold recent_trades.
    destruct (TradeMemoryCache.recent _ (symbol p) 50) as [l c]. cbn [fst].
    cbn [defensive_filter with_cache with_cooldown].
    destruct (DefensiveSignalFilter.is_signal_safe (defensive_filter w)
                (pcs_current_books s !! symbol p)) as [[ok info] |]; [| exact I].
    destruct ok; [exists true, info | exists false, info];
      (split; [reflexivity |]); simpl; auto.
  - simpl. reflexivity.
Qed.

Lemma quality_loop_single p d :
  quality_loop p [d] =
    (if SignalQualityFilter.passed
          (fst (SignalQualityFilter.evaluate_signal_quality (quality_filter p) d))
     then [d] else [],
     snd (quality_loop p [d])).
Proof.
  simpl. destruct (SignalQualityFilter.evaluate_signal_quality (quality_filter p) d) as [e qf].
  simpl. destruct (SignalQualityFilter.passed e); reflexivity.
Qed.

Lemma process_candidate_reached st d now ok info :
  reaches_defensive_filter st d now = true ->
  DefensiveSignalFilter.is_signal_safe (defensive_filter (shared st))
    (current_books (processor st) !! symbol_of d) = Some (ok, info) ->
  let sym := symbol_of d in
  let signal := fst (SignalFormatter.format (with_strength d) sym) in
  let before := published (shared st) ++ [PATTERN_DETECTED (with_strength d)] in
  exists st',
    process_candidate st d now = Some (if ok then Some signal else None, st') /\
    published (shared st') =
      if ok then before else before ++ [MANIPULATION_DETECTED signal info sym].
Proof.
  intros Hr Hs sym signal before. subst sym signal before. revert Hr Hs.
  unfold process_candidate, reaches_defensive_filter, with_strength, symbol_of, pattern_of.
  set (sym := default "WDO"%string (RawSignal.symbol d)).
  set (pat := default "UNKNOWN"%string (RawSignal.pattern d)).
  set (d' := RawSignal.set_strength d (_calculate_strength pat d)).
  destruct (match confirmation st with
            | Some s => requires_confirmation s pat
            | None => false
            end) eqn:Hc; [intros Hr; discriminate |].
  cbn [negb andb publish pattern_cooldown].
  destruct (PatternCooldown.can_emit_pattern (pattern_cooldown (shared st)) pat sym now)
    as [okc cd]. cbn [fst]. intros -> Hs. cbn [negb].
  destruct (SignalFormatter.format d' sym) as [signal raw] eqn:Ef.
  unfold recent_trades.
  destruct (TradeMemoryCache.recent _ sym 50) as [l c]. cbn [fst].
  cbn [defensive_filter with_cache with_cooldown publish count_published current_books].
  rewrite Hs. destruct ok; eexists; split; reflexivity.
Qed.

Lemma emit_confirmed_reached s w p now ok info :
  fst (PatternCooldown.can_emit_pattern (pattern_cooldown w) (pattern p) (symbol p) now)
    = true ->
  DefensiveSignalFilter.is_signal_safe (defensive_filter w)
    (pcs_current_books s !! symbol p) = Some (ok, info) ->
  let signal :=
    fst (SignalFormatter.format
           (RawSignal.set_confirmed (data p) (attempts p)
              (PyTime.seconds (PyTime.sub now (created_at p)))
              (pattern p ++ "_CONFIRMED"))
           (symbol p)) in
  exists s' w',
    _emit_confirmed_pattern s w p now = Some (s', w') /\
    published w' =
      published w ++ [if ok then SIGNAL_GENERATED signal
                      else MANIPULATION_DETECTED signal info (symbol p)].
Proof.
  intros Hc Hs signal. subst signal. revert Hc Hs. unfold _emit_confirmed_pattern.
  destruct (PatternCooldown.can_emit_pattern (pattern_cooldown w) (pattern p) (symbol p) now)
    as [okc cd]. cbn [fst]. intros -> Hs. cbn [negb].
  destruct (SignalFormatter.format _ (symbol p)) as [signal raw] eqn:Ef.
  unfold recent_trades.
  destruct (TradeMemoryCache.recent _ (symbol p) 50) as [l c]. cbn [fst].
  cbn [defensive_filter with_cache with_cooldown].
  rewrite Hs. destruct ok; eexists; eexists; split; reflexivity.
Qed.

Lemma seen_of_safe f book ok info :
  DefensiveSignalFilter.is_signal_safe f book = Some (ok, info) ->
  manipulation_seen f book = Some (negb ok) /\
  (DefensiveSignalFilter.risks info = [] <-> ok = true).
Proof.
  intros H. pose proof (is_signal_safe_spec f book) as Hs. rewrite H in Hs.
  destruct (manipulation_seen f book) as [seen |]; [| contradiction].
  destruct Hs as (-> & _ & Hr). rewrite negb_involutive. split; [reflexivity |].
  symmetry. exact Hr.
Qed.

(** C4. With a defensive filter whose [min_levels] and
    [min_volume_per_level] are positive (as by default):
    (1) a candidate that reaches the defensive filter in
    [process_raw_signals] ends in exactly one of two ways: no
    manipulation is seen in the current book, the signal is returned
    for emission and no MANIPULATION_DETECTED is published; or a
    manipulation is seen, the candidate is dropped and one
    MANIPULATION_DETECTED is published;
    (2) a candidate that is staged or stopped by the cooldown is not
    returned and publishes no MANIPULATION_DETECTED;
    (3) a candidate that fails the quality filter is not returned and
    publishes nothing;
    (4) a confirmed pattern that passes the cooldown publishes exactly
    one of SIGNAL_GENERATED and MANIPULATION_DETECTED, the first when no
    manipulation is seen, the second otherwise. *)
Theorem exclusive_outcome (f : DefensiveSignalFilter.t) :
  (0 < DefensiveSignalFilter.min_levels f)%nat ->
  (0 < DefensiveSignalFilter.min_volume_per_level f)%Z ->
  (forall st d now,
     defensive_filter (shared st) = f ->
     reaches_defensive_filter st d now = true ->
     let sym := symbol_of d in
     let signal := fst (SignalFormatter.format (with_strength d) sym) in
     let before := published (shared st) ++ [PATTERN_DETECTED (with_strength d)] in
     exists seen info st',
       manipulation_seen f (current_books (processor st) !! sym) = Some seen /\
       (DefensiveSignalFilter.risks info = [] <-> seen = false) /\
       (seen = false ->
        process_candidate st d now = Some (Some signal, st') /\
        published (shared st') = before) /\
       (seen = true ->
        process_candidate st d now = Some (None, st') /\
        published (shared st') = before ++ [MANIPULATION_DETECTED signal info sym])) /\
  (forall st d now out st',
     reaches_defensive_filter st d now = false ->
     process_candidate st d now = Some (out, st') ->
     out = None /\
     published (shared st') = published (shared st) ++ [PATTERN_DETECTED (with_strength d)]) /\
  (forall st d now,
     SignalQualityFilter.passed
       (fst (SignalQualityFilter.evaluate_signal_quality (quality_filter (processor st)) d))
       = false ->
     exists st', process_raw_signals st [d] now = Some ([], st') /\
                 published (shared st') = published (shared st)) /\
  (forall s w p now,
     defensive_filter w = f ->
     fst (PatternCooldown.can_emit_pattern (pattern_cooldown w) (pattern p) (symbol p) now)
       = true ->
     let signal :=
       fst (SignalFormatter.format
              (RawSignal.set_confirmed (data p) (attempts p)
                 (PyTime.seconds (PyTime.sub now (created_at p)))
                 (pattern p ++ "_CONFIRMED"))
              (symbol p)) in
     exists seen info s' w',
       manipulation_seen f (pcs_current_books s !! symbol p) = Some seen /\
       _emit_confirmed_pattern s w p now = Some (s', w') /\
       (seen = false -> published w' = published w ++ [SIGNAL_GENERATED signal]) /\
       (seen = true ->
        published w' = published w ++ [MANIPULATION_DETECTED signal info (symbol p)])).
Proof.
  intros Hl Hv. split; [| split; [| split]].
  - intros st d now Hf Hr sym signal before.
    destruct (is_signal_safe_total f (current_books (processor st) !! sym) Hl Hv)
      as (ok & info & Hs).
    destruct (seen_of_safe _ _ _ _ Hs) as [Hseen Hrisks].
    rewrite <- Hf in Hs.
    destruct (process_candidate_reached st d now ok info Hr Hs) as (st' & Hp & Hpub).
    exists (negb ok), info, st'. split; [exact Hseen |].
    split; [rewrite Hrisks; destruct ok; simpl; split; congruence |].
    split; intros Hk; destruct ok; try discriminate; split; assumption.
  - intros st d now out st' Hr Hp.
    pose proof (process_candidate_outcome st d now) as H. cbv zeta in H.
    rewrite Hp, Hr in H. exact H.
  - intros st d now Hq. unfold process_raw_signals.
    rewrite quality_loop_single, Hq. simpl. eexists. split; reflexivity.
  - intros s w p now Hf Hc signal.
    destruct (is_signal_safe_total f (pcs_current_books s !! symbol p) Hl Hv)
      as (ok & info & Hs).
    destruct (seen_of_safe _ _ _ _ Hs) as [Hseen _].
    rewrite <- Hf in Hs.
    destruct (emit_confirmed_reached s w p now ok info Hc Hs) as (s' & w' & He & Hpub).
    exists (negb ok), info, s', w'. split; [exact Hseen |]. split; [exact He |].
    split; intros Hk; destruct ok; try discriminate; exact Hpub.
Qed.

(** A pipeline around an empty cache, the default filters and the book
    of five bids of nearly equal size. *)
Definition layered_book : OrderBook.t :=
  {| OrderBook.bids :=
       [{| OrderBook.price := 5000; OrderBook.volume := 250 |};
        {| OrderBook.price := 4999.5; OrderBook.volume := 255 |};
        {| OrderBook.price := 4999; OrderBook.volume := 248 |};
        {| OrderBook.price := 4998.5; OrderBook.volume := 252 |};
        {| OrderBook.price := 4998; OrderBook.volume := 251 |}];
     OrderBook.asks :=
       [{| OrderBook.price := 5000.5; OrderBook.volume := 300 |};
        {| OrderBook.price := 5001; OrderBook.volume := 120 |}] |}.

Definition blank : RawSignal.t :=
  {| RawSignal.symbol := None; RawSignal.pattern := None; RawSignal.volume := None;
     RawSignal.ratio := None; RawSignal.cvd_roc := None; RawSignal.concentration := None;
     RawSignal.repetitions := None; RawSignal.multiplier := None; RawSignal.pace := None;
     RawSignal.baseline := None; RawSignal.price := None; RawSignal.level := None;
     RawSignal.confidence := None; RawSignal.profit := None; RawSignal.direction := None;
     RawSignal.operation_type := None; RawSignal.hidden_levels := [];
     RawSignal.strength := None; RawSignal.original_pattern := None;
     RawSignal.confirmed := None; RawSignal.confirmation_attempts := None;
     RawSignal.confirmation_time := None |}.

(** A buying pressure of 95% on WDO. *)
Definition pressure : RawSignal.t :=
  {| RawSignal.symbol := Some "WDO"%string; RawSignal.pattern := Some "PRESSAO_COMPRA"%string;
     RawSignal.volume := Some 800%Q; RawSignal.ratio := Some 0.95%Q;
     RawSignal.cvd_roc := None; RawSignal.concentration := None;
     RawSignal.repetitions := None; RawSignal.multiplier := None; RawSignal.pace := None;
     RawSignal.baseline := None; RawSignal.price := Some 5000%Q; RawSignal.level := None;
     RawSignal.confidence := None; RawSignal.profit := None;
     RawSignal.direction := Some "COMPRA"%string;
     RawSignal.operation_type := None; RawSignal.hidden_levels := [];
     RawSignal.strength := None; RawSignal.original_pattern := None;
     RawSignal.confirmed := None; RawSignal.confirmation_attempts := None;
     RawSignal.confirmation_time := None |}.

Definition fresh_shared : Shared :=
  {| cache := TradeMemoryCache.init 100;
     defensive_filter := DefensiveSignalFilter.default;
     pattern_cooldown :=
       PatternCooldown.init {[ "default"%string := 30%Z; "PRESSAO_COMPRA"%string := 15%Z ]};
     published := [] |}.

Definition fresh_processor : SignalProcessor :=
  {| quality_filter := SignalQualityFilter.init 0.35;
     current_books := ∅;
     stats := {| signals_filtered := 0; signals_emitted := 0; manipulation_detected := 0;
                 patterns_published_for_confluence := 0 |} |}.


Definition layered_pipeline : Pipeline :=
  {| processor := update_book fresh_processor "WDO" layered_book;
     shared := fresh_shared; confirmation := None |}.

Lemma exclusive_outcome_witness :
  exists info st',
    manipulation_seen DefensiveSignalFilter.default (Some layered_book) = Some true /\
    process_candidate layered_pipeline pressure (PyTime.hm 10 30) = Some (None, st') /\
    published (shared st') =
      [PATTERN_DETECTED (with_strength pressure);
       MANIPULATION_DETECTED
         (fst (SignalFormatter.format (with_strength pressure) "WDO")) info "WDO"].
Proof.
  assert (Hl : (0 < DefensiveSignalFilter.min_levels DefensiveSignalFilter.default)%nat)
    by (simpl; lia).
  assert (Hv : (0 < DefensiveSignalFilter.min_volume_per_level DefensiveSignalFilter.default)%Z)
    by (simpl; lia).
  destruct (exclusive_outcome DefensiveSignalFilter.default Hl Hv) as (P1 & _).
  assert (Hr : reaches_defensive_filter layered_pipeline pressure (PyTime.hm 10 30) = true)
    by (vm_compute; reflexivity).
  destruct (P1 layered_pipeline pressure (PyTime.hm 10 30) eq_refl Hr)
    as (seen & info & st' & Hseen & Hrisks & _ & Hyes).
  assert (Hb : current_books (processor layered_pipeline) !! symbol_of pressure
               = Some layered_book) by (vm_compute; reflexivity).
  rewrite Hb in Hseen.
  assert (Hm : manipulation_seen DefensiveSignalFilter.default (Some layered_book) = Some true)
    by (vm_compute; reflexivity).
  assert (seen = true) by congruence. subst seen.
  destruct (Hyes eq_refl) as [Hp Hpub].
  exists info, st'. split; [exact Hm |]. split; [exact Hp | exact Hpub].
Defined.

(** *** The cooldown law on runs of the processor *)





















(** *** Confirmation of institutional footprints *)

Lemma inst_confirmation_spec w symbol mp vt pc :
  let recent := fst (recent_trades w symbol 100) in
  _check_institutional_confirmation w symbol mp vt pc =
    (negb (DefensiveSignalFilter.is_nil recent) &&
     Qle_bool vt (inst_ratio recent) && (mp <=? (pc + 1) * 10)%Z,
     Institutional mp vt (pc + 1), snd (recent_trades w symbol 100)).
Proof.
  unfold _check_institutional_confirmation.
  destruct (recent_trades w symbol 100) as [recent w']. cbn [fst snd].
  destruct recent; reflexivity.
Qed.

(** The calls of [_check_pending_patterns_if_needed] that the service
    makes at the given times. *)
Fixpoint checks (cvd : string -> list Trade.t -> Q)
    (hid : PyTime.datetime -> string -> Q -> bool)
    (s : PatternConfirmationSystem) (w : Shared) (last : PyTime.datetime)
    (times : list PyTime.datetime) : option (PatternConfirmationSystem * Shared) :=
  match times with
  | [] => Some (s, w)
  | now :: rest =>
      match _check_pending_patterns_if_needed cvd hid s w last now with
      | Some (s, w, last) => checks cvd hid s w last rest
      | None => None
      end
  end.

(** The configuration of service.py with a confirmation entry for the
    institutional footprint that leaves the defaults of 30 s and 0.3. *)
Definition footprint_config : Config :=
  {| enabled := true; max_pending := 50; default_timeout := 30; check_interval := 1;
     patterns :=
       {[ "INSTITUTIONAL_FOOTPRINT"%string :=
            {| pc_timeout := Some 60%Z; pc_min_tests := None; pc_test_threshold := None;
               pc_confirmation_bars := None; pc_price_confirmation := None;
               pc_requires_continuation := None; pc_min_continuation_cvd := None;
               pc_min_persistence := None; pc_volume_threshold := None;
               pc_reload_confirmations := None; pc_min_hidden_volume := None |} ]} |}.

Definition footprint_system : PatternConfirmationSystem :=
  {| config := footprint_config; pending_patterns := []; next_id := 0;
     pcs_current_books := ∅;
     pcs_stats := {| cs_signals_emitted := 0; cs_manipulation_detected := 0 |} |}.

Definition footprint : RawSignal.t :=
  RawSignal.set_strength
    {| RawSignal.symbol := Some "WDO"%string;
       RawSignal.pattern := Some "INSTITUTIONAL_FOOTPRINT"%string;
       RawSignal.volume := None; RawSignal.ratio := None;
       RawSignal.cvd_roc := None; RawSignal.concentration := None;
       RawSignal.repetitions := None; RawSignal.multiplier := None; RawSignal.pace := None;
       RawSignal.baseline := None; RawSignal.price := None; RawSignal.level := None;
       RawSignal.confidence := Some 0.8%Q; RawSignal.profit := None;
       RawSignal.direction := None;
       RawSignal.operation_type := Some "ACCUMULATION_PATIENT"%string;
       RawSignal.hidden_levels := [];
       RawSignal.strength := None; RawSignal.original_pattern := None;
       RawSignal.confirmed := None; RawSignal.confirmation_attempts := None;
       RawSignal.confirmation_time := None |} 8.

(** Two trades of 100 and 200 contracts held for WDO. *)
Definition block_trades (now : PyTime.datetime) : list Trade.t :=
  [{| Trade.symbol := "WDO"; Trade.price := 5000; Trade.volume := 100;
      Trade.side := Trade.BUY; Trade.timestamp := now; Trade.time_str := "10:30:00" |};
   {| Trade.symbol := "WDO"; Trade.price := 5000.5; Trade.volume := 200;
      Trade.side := Trade.BUY; Trade.timestamp := now; Trade.time_str := "10:30:00" |}].

Definition footprint_shared (now : PyTime.datetime) : Shared :=
  with_cache fresh_shared
    (TradeMemoryCache.add_trades (cache fresh_shared) "WDO" (block_trades now) now).

(** C9, as the code has it: the institutional check does not read the
    clock; it confirms when trades are held, the institutional share is
    at least the threshold and ten times the number of checks made so
    far reaches [min_persistence].  With the checks every second of the
    configured interval, a footprint that enters confirmation at
    10:30:00 with [min_persistence] 30 is left pending by the checks of
    10:30:01 and 10:30:02 and is confirmed and emitted by the check of
    10:30:03, 3 s after it entered. *)
Theorem institutional_confirmed_by_check_count :
  (forall w symbol mp vt pc,
     let recent := fst (recent_trades w symbol 100) in
     fst (fst (_check_institutional_confirmation w symbol mp vt pc)) = true <->
     recent <> [] /\ (vt <= inst_ratio recent)%Q /\ (mp <= 10 * (pc + 1))%Z) /\
  (forall cvd hid,
     let t0 := PyTime.hm 10 30 in
     let at_s (n : Z) := (t0 + PyTime.of_seconds n)%Z in
     exists s1,
       requires_confirmation footprint_system "INSTITUTIONAL_FOOTPRINT" = true /\
       add_pending_pattern footprint_system "INSTITUTIONAL_FOOTPRINT" "WDO" footprint t0
         = Some s1 /\
       map confirmation_criteria (pending_patterns s1) = [Institutional 30 0.3 0] /\
       (exists s2 w2,
          checks cvd hid s1 (footprint_shared t0) t0 [at_s 1%Z; at_s 2%Z] = Some (s2, w2) /\
          map confirmation_criteria (pending_patterns s2) = [Institutional 30 0.3 2] /\
          published w2 = []) /\
       (exists s3 w3,
          checks cvd hid s1 (footprint_shared t0) t0 [at_s 1%Z; at_s 2%Z; at_s 3%Z]
            = Some (s3, w3) /\
          pending_patterns s3 = [] /\
          published w3 =
            [SIGNAL_GENERATED
               (fst (SignalFormatter.format
                       (RawSignal.set_confirmed footprint 3 3 "INSTITUTIONAL_FOOTPRINT_CONFIRMED")
                       "WDO"))])).
Proof.
  split.
  - intros w symbol mp vt pc recent. rewrite inst_confirmation_spec. cbn [fst].
    fold recent. rewrite !andb_true_iff, negb_true_iff, Qle_bool_iff, Z.leb_le.
    split.
    + intros [[Hn Hr] Hp]. split; [| split; [exact Hr | lia]].
      intros ->. discriminate Hn.
    + intros (Hn & Hr & Hp). split; [split; [| exact Hr] | lia].
      destruct recent; [congruence | reflexivity].
  - intros cvd hid t0 at_s. subst at_s t0.
    destruct (add_pending_pattern footprint_system "INSTITUTIONAL_FOOTPRINT" "WDO" footprint
                (PyTime.hm 10 30)) as [s1 |] eqn:E1; [| vm_compute in E1; discriminate E1].
    exists s1. split; [vm_compute; reflexivity |]. split; [reflexivity |].
    vm_compute in E1. injection E1 as <-.
    split; [vm_compute; reflexivity |].
    split.
    + match goal with |- context [checks ?a ?b ?c ?d ?e ?f] =>
        destruct (checks a b c d e f) as [[s2 w2] |] eqn:E2;
        [| vm_compute in E2; discriminate E2] end.
      exists s2, w2. split; [reflexivity |].
      vm_compute in E2. injection E2 as <- <-. split; vm_compute; reflexivity.
    + match goal with |- context [checks ?a ?b ?c ?d ?e ?f] =>
        destruct (checks a b c d e f) as [[s3 w3] |] eqn:E3;
        [| vm_compute in E3; discriminate E3] end.
      exists s3, w3. split; [reflexivity |].
      vm_compute in E3. injection E3 as <- <-. split; vm_compute; reflexivity.
Qed.

End PipelineFacts.

(** ** Circuit breakers, metrics and handlers of the risk manager *)

Module BreakerFacts.
Import RiskTypes CircuitBreakerSystem.

Lemma check_one_active now name st res :
  let '(res', st') := check_one now name st res in
  exists l,
    triggered res' = triggered res ++ l /\
    all_clear res' = all_clear res && DefensiveSignalFilter.is_nil l /\
    map t_name l = (if active st' then [name] else []) /\
    cooldown_seconds st' = cooldown_seconds st.
Proof.
  unfold check_one. destruct (active st) eqn:Ha.
  - destruct (triggered_at st) as [at_ |].
    + destruct (_ <? _)%Z.
      * eexists [_]. cbn. rewrite Ha, andb_false_r. auto.
      * exists []. cbn. rewrite app_nil_r, andb_true_r. auto.
    + eexists [_]. cbn. rewrite Ha, andb_false_r. auto.
  - exists []. rewrite Ha. cbn. rewrite app_nil_r, andb_true_r. auto.
Qed.

Lemma check_loop_active now items : forall res,
  let '(res', items') := check_loop now items res in
  exists l,
    triggered res' = triggered res ++ l /\
    all_clear res' = all_clear res && DefensiveSignalFilter.is_nil l /\
    map t_name l = get_active_breakers items' /\
    map fst items' = map fst items /\
    map (fun kv => cooldown_seconds (snd kv)) items' =
      map (fun kv => cooldown_seconds (snd kv)) items.
Proof.
  induction items as [| [name st] rest IH]; intros res; cbn [check_loop].
  - exists []. rewrite app_nil_r, andb_true_r. auto.
  - pose proof (check_one_active now name st res) as H1.
    destruct (check_one now name st res) as [res1 st1].
    destruct H1 as (l1 & Ht1 & Hc1 & Hn1 & Hcd1).
    specialize (IH res1). destruct (check_loop now rest res1) as [res2 rest2].
    destruct IH as (l2 & Ht2 & Hc2 & Hn2 & Hk2 & Hcd2).
    exists (l1 ++ l2). rewrite Ht2, Ht1, Hc2, Hc1, <- app_assoc, map_app, Hn1, Hn2.
    split; [reflexivity |]. split.
    + destruct l1; cbn; [rewrite andb_true_r; reflexivity | rewrite andb_false_r; reflexivity].
    + unfold get_active_breakers. cbn. rewrite Hk2, Hcd1, Hcd2.
      destruct (active st1); auto.
Qed.

Lemma check_all_report bs now :
  let '(res, bs') := check_all bs now in
  get_active_breakers bs' = map t_name (triggered res) /\
  (all_clear res = true <-> triggered res = []) /\
  map fst bs' = map fst bs /\
  map (fun kv => cooldown_seconds (snd kv)) bs' =
    map (fun kv => cooldown_seconds (snd kv)) bs.
Proof.
  unfold check_all.
  pose proof (check_loop_active now bs {| all_clear := true; triggered := [] |}) as H.
  destruct (check_loop now bs _) as [res bs'].
  destruct H as (l & Ht & Hc & Hn & Hk & Hcd). cbn in Ht, Hc. subst l.
  split; [symmetry; exact Hn |]. split; [| auto].
  rewrite Hc. destruct (triggered res); cbn; split; congruence.
Qed.

(** X1. After [check_all], the breakers still active are exactly those
    that the check reports, in the same order, and the check is clear
    if and only if no breaker is left active; the names and the
    cooldowns of the breakers are unchanged. *)
Theorem active_breakers_are_reported bs now :
  get_active_breakers (snd (check_all bs now)) =
    map t_name (triggered (fst (check_all bs now))) /\
  (all_clear (fst (check_all bs now)) = true <->
   get_active_breakers (snd (check_all bs now)) = []) /\
  map fst (snd (check_all bs now)) = map fst bs /\
  map (fun kv => cooldown_seconds (snd kv)) (snd (check_all bs now)) =
    map (fun kv => cooldown_seconds (snd kv)) bs.
Proof.
  pose proof (check_all_report bs now) as H.
  destruct (check_all bs now) as [res bs']. cbn [fst snd].
  destruct H as (Ha & Hc & Hk & Hcd). rewrite Ha.
  split; [reflexivity |]. split; [| auto].
  rewrite Hc. destruct (triggered res); cbn; split; congruence.
Qed.

Lemma set_keys {V} k (v : V) d :
  is_Some (Dict.get k d) -> map fst (Dict.set k v d) = map fst d.
Proof.
  induction d as [| [k' v'] r IH]; cbn; intros [x Hx]; [discriminate |].
  destruct (String.eqb k' k) eqn:E; cbn; [reflexivity |].
  rewrite IH; eauto.
Qed.

(** X2. The first trigger of a breaker wins: while the breaker is
    active a further [trigger] changes nothing, so the time and the
    reason of the first one stay; an unknown name changes nothing; a
    known inactive breaker becomes active with the time of the call;
    the other breakers and the set of names are never touched. *)
Theorem trigger_first_wins bs t1 name r1 :
  (forall t2 r2, trigger (trigger bs t1 name r1) t2 name r2 = trigger bs t1 name r1) /\
  (Dict.get name bs = None -> trigger bs t1 name r1 = bs) /\
  (forall st, Dict.get name bs = Some st -> active st = false ->
     Dict.get name (trigger bs t1 name r1) =
       Some {| active := true; triggered_at := Some t1; reason := r1;
               cooldown_seconds := cooldown_seconds st |}) /\
  (forall other, other <> name ->
     Dict.get other (trigger bs t1 name r1) = Dict.get other bs) /\
  map fst (trigger bs t1 name r1) = map fst bs.
Proof.
  unfold trigger. destruct (Dict.get name bs) as [st |] eqn:Hg.
  - destruct (active st) eqn:Ha.
    + rewrite Hg, Ha. repeat split; auto. intros st' [= <-]. congruence.
    + rewrite PyFacts.get_set_eq. cbn.
      split; [reflexivity |]. split; [discriminate |].
      split; [intros st' [= <-] _; reflexivity |].
      split; [intros other Hne; apply PyFacts.get_set_ne; congruence |].
      apply set_keys. rewrite Hg. eauto.
  - rewrite Hg. repeat split; auto. discriminate.
Qed.

Lemma reset_names_spec names : forall bs,
  (forall n, In n names -> is_Some (Dict.get n bs)) ->
  exists bs',
    reset_names names bs = Some bs' /\
    map fst bs' = map fst bs /\
    (forall n, In n names -> exists st st',
        Dict.get n bs = Some st /\ Dict.get n bs' = Some st' /\
        active st' = false /\ triggered_at st' = None /\
        cooldown_seconds st' = cooldown_seconds st) /\
    (forall n, ~ In n names -> Dict.get n bs' = Dict.get n bs).
Proof.
  induction names as [| name rest IH]; intros bs Hin; cbn [reset_names].
  - exists bs. repeat split; auto. intros n [].
  - unfold _reset_breaker. destruct (Hin name (or_introl eq_refl)) as [st Hst].
    rewrite Hst.
    destruct (IH (Dict.set name (reset_state st) bs)) as (bs' & Hr & Hk & Hyes & Hno).
    { intros n Hn. apply PyFacts.get_set_is_Some. apply Hin. right. exact Hn. }
    exists bs'. split; [exact Hr |]. split.
    { rewrite Hk. apply set_keys. rewrite Hst. eauto. }
    split.
    + intros n [-> | Hn].
      * destruct (in_dec string_dec n rest) as [Hr' | Hr'].
        -- destruct (Hyes n Hr') as (s1 & s2 & H1 & H2 & H3 & H4 & H5).
           rewrite PyFacts.get_set_eq in H1. injection H1 as <-.
           exists st, s2. repeat split; auto.
        -- exists st, (reset_state st). rewrite (Hno n Hr'), PyFacts.get_set_eq.
           repeat split; auto.
      * destruct (Hyes n Hn) as (s1 & s2 & H1 & H2 & H3 & H4 & H5).
        destruct (string_dec name n) as [-> | Hne].
        -- rewrite PyFacts.get_set_eq in H1. injection H1 as <-.
           exists st, s2. repeat split; auto.
        -- rewrite PyFacts.get_set_ne in H1 by exact Hne.
           exists s1, s2. repeat split; auto.
    + intros n Hn. rewrite Hno by (intros H; apply Hn; right; exact H).
      apply PyFacts.get_set_ne. intros ->. apply Hn. left. reflexivity.
Qed.

Lemma get_in_keys {V} k (d : list (string * V)) :
  In k (map fst d) -> is_Some (Dict.get k d).
Proof.
  induction d as [| [k' v'] r IH]; cbn; [intros [] |].
  intros [-> | H].
  - rewrite String.eqb_refl. eauto.
  - destruct (String.eqb k' k); eauto.
Qed.

Lemma get_nodup {V} k (v : V) (d : list (string * V)) :
  NoDup (map fst d) -> In (k, v) d -> Dict.get k d = Some v.
Proof.
  induction d as [| [k' v'] r IH]; cbn; [intros _ [] |].
  intros Hnd [[= -> ->] | Hin].
  - rewrite String.eqb_refl. reflexivity.
  - apply NoDup_cons in Hnd as [Hni Hnd].
    destruct (String.eqb k' k) eqn:E.
    + apply String.eqb_eq in E. subst k'. exfalso. apply Hni.
      apply list_elem_of_In. apply (in_map fst) in Hin. exact Hin.
    + apply IH; assumption.
Qed.

Lemma check_loop_inactive now items : forall res,
  (forall kv, In kv items -> active (snd kv) = false) ->
  check_loop now items res = (res, items).
Proof.
  induction items as [| [name st] rest IH]; intros res Hall; cbn [check_loop]; [reflexivity |].
  unfold check_one. pose proof (Hall (name, st) (or_introl eq_refl)) as Ha.
  cbn in Ha. rewrite Ha.
  rewrite IH by (intros kv Hkv; apply Hall; right; exact Hkv). reflexivity.
Qed.

(** X3. [reset_all] raises no [KeyError] and leaves no breaker active:
    the following [check_all] is clear, whatever the time; names and
    cooldowns are kept.  The keys of the dictionary are distinct. *)
Theorem reset_all_clears bs now :
  NoDup (map fst bs) ->
  exists bs',
    reset_all bs = Some bs' /\
    get_active_breakers bs' = [] /\
    fst (check_all bs' now) = {| all_clear := true; triggered := [] |} /\
    map fst bs' = map fst bs /\
    (forall n st, Dict.get n bs = Some st ->
       exists st', Dict.get n bs' = Some st' /\
                   cooldown_seconds st' = cooldown_seconds st).
Proof.
  intros Hnd. unfold reset_all.
  destruct (reset_names_spec (map fst bs) bs) as (bs' & Hr & Hk & Hyes & _).
  { intros n Hn. apply get_in_keys. exact Hn. }
  assert (Hall : forall kv, In kv bs' -> active (snd kv) = false).
  { intros [n st'] Hin. cbn.
    assert (Hn : In n (map fst bs)).
    { rewrite <- Hk. apply (in_map fst) in Hin. exact Hin. }
    destruct (Hyes n Hn) as (s1 & s2 & _ & H2 & H3 & _).
    rewrite (get_nodup n st' bs') in H2; [congruence | rewrite Hk; exact Hnd | exact Hin]. }
  assert (Hact : get_active_breakers bs' = []).
  { unfold get_active_breakers.
    replace (List.filter (fun kv => active (snd kv)) bs') with (@nil (string * CircuitBreakerState));
      [reflexivity |].
    symmetry. clear -Hall. induction bs' as [| kv r IH]; cbn; [reflexivity |].
    rewrite (Hall kv (or_introl eq_refl)). apply IH. intros x Hx. apply Hall. right. exact Hx. }
  exists bs'. split; [exact Hr |]. split; [exact Hact |]. split; [| split; [exact Hk |]].
  - unfold check_all. rewrite check_loop_inactive by exact Hall. reflexivity.
  - intros n st Hg.
    assert (Hn : In n (map fst bs)).
    { clear -Hg. induction bs as [| [k v] r IH]; cbn in *; [discriminate |].
      destruct (String.eqb k n) eqn:E; [left; apply String.eqb_eq; exact E | right; auto]. }
    destruct (Hyes n Hn) as (s1 & s2 & H1 & H2 & _ & _ & H5).
    exists s2. split; [exact H2 | congruence].
Qed.

Lemma reset_all_clears_witness :
  get_active_breakers RiskFacts.tripped = ["drawdown"%string] /\
  exists bs', reset_all RiskFacts.tripped = Some bs' /\ get_active_breakers bs' = [].
Proof.
  split; [reflexivity |].
  assert (Hnd : NoDup (map fst RiskFacts.tripped)).
  { apply (bool_decide_unpack _). vm_compute. exact I. }
  destruct (reset_all_clears RiskFacts.tripped (PyTime.hm 12 1) Hnd) as (bs' & H1 & H2 & _).
  exists bs'. split; [exact H1 | exact H2].
Defined.

End BreakerFacts.

Module ManagerFacts.
Import RiskTypes.

Lemma limit_stages_effects m signal a now :
  match RiskManager.limit_stages m signal a now with
  | inl (a', m') =>
      RiskManager.approved a' = false /\ RiskManager.reasons a' <> [] /\
      RiskManager.published m' = RiskManager.published m /\
      RiskManager.metrics_tracker m' = RiskManager.metrics_tracker m /\
      RiskManager.adaptive_system m' = RiskManager.adaptive_system m /\
      RiskManager.circuit_breakers m' = RiskManager.circuit_breakers m
  | inr (q, m') =>
      RiskManager.published m' = RiskManager.published m /\
      RiskManager.metrics_tracker m' = RiskManager.metrics_tracker m /\
      RiskManager.adaptive_system m' = RiskManager.adaptive_system m /\
      RiskManager.circuit_breakers m' = RiskManager.circuit_breakers m /\
      RiskManager.consecutive_losses_limit m' = RiskManager.consecutive_losses_limit m /\
      RiskManager.max_drawdown_percent m' = RiskManager.max_drawdown_percent m /\
      RiskManager.emergency_stop_loss m' = RiskManager.emergency_stop_loss m
  end.
Proof.
  unfold RiskManager.limit_stages.
  destruct (_ <=? _)%Z.
  { cbn. repeat split; auto. intros H. apply app_eq_nil in H as [_ H]. discriminate H. }
  destruct (RiskMetricsTracker.check_signal_frequency _ _ _ _) eqn:Hf;
    try (cbn; repeat split; auto; intros H; apply app_eq_nil in H as [_ H]; discriminate H).
  destruct (SignalEvaluator.evaluate_quality _ _) as [qe e].
  destruct (SignalEvaluator.q_passed qe); cbn; repeat split; auto.
  intros H. apply app_eq_nil in H as [_ H]. discriminate H.
Qed.

Lemma evaluate_signal_effects m signal now :
  let '(ok, a, m') := RiskManager.evaluate_signal m signal now in
  RiskManager.approved a = ok /\
  RiskManager.adaptive_system m' = RiskManager.adaptive_system m /\
  map fst (RiskManager.circuit_breakers m') = map fst (RiskManager.circuit_breakers m) /\
  (ok = true ->
     RiskManager.published m' =
       RiskManager.published m ++ [RiskManager.SIGNAL_APPROVED signal a] /\
     RiskManager.metrics_tracker m' =
       RiskMetricsTracker.record_signal_approval (RiskManager.metrics_tracker m) signal now /\
     CircuitBreakerSystem.get_active_breakers (RiskManager.circuit_breakers m') = [] /\
     RiskManager.reasons a = [] /\
     RiskManager.is_high_or_critical (RiskManager.risk_level a) = false) /\
  (ok = false ->
     RiskManager.published m' = RiskManager.published m /\
     RiskManager.metrics_tracker m' = RiskManager.metrics_tracker m /\
     RiskManager.reasons a <> []).
Proof.
  unfold RiskManager.evaluate_signal.
  pose proof (BreakerFacts.check_all_report (RiskManager.circuit_breakers m) now) as Hb.
  destruct (CircuitBreakerSystem.check_all _ now) as [cb bs].
  destruct Hb as (Hact & Hclear & Hkeys & _).
  destruct (CircuitBreakerSystem.all_clear cb) eqn:Hc; cbn [negb].
  - assert (Ht : CircuitBreakerSystem.triggered cb = []) by (apply Hclear; reflexivity).
    rewrite Ht in Hact. cbn in Hact.
    pose proof (limit_stages_effects (RiskManager.with_breakers m bs) signal
                  (RiskManager.initial_assessment now) now) as Hl.
    destruct (RiskManager.limit_stages _ _ _ _) as [[a' m'] | [q m']].
    + destruct Hl as (H1 & H2 & H3 & H4 & H5 & H6). cbn in *.
      rewrite H6. repeat split; auto; discriminate.
    + destruct Hl as (H3 & H4 & H5 & H6 & _). cbn in H3, H4, H5, H6.
      unfold RiskManager.contextual_stage.
      destruct (RiskManager.is_high_or_critical _) eqn:Hh; cbn.
      * rewrite H6. repeat split; auto; try discriminate.
      * rewrite H4 in Hh. rewrite H3, H4, H5, H6. repeat split; auto; try discriminate.
  - cbn. split; [reflexivity |]. split; [reflexivity |]. split; [exact Hkeys |].
    split; [discriminate |]. intros _. split; [reflexivity |]. split; [reflexivity |].
    intros Hm. apply map_eq_nil in Hm.
    destruct Hclear as [_ Hclear]. discriminate (Hclear Hm).
Qed.

(** X4. What [evaluate_signal] does besides answering: an approval
    appends one [SIGNAL_APPROVED] and records the signal in the
    tracker, is given only with no breaker left active, and carries no
    reason and a level below HIGH; a rejection publishes nothing,
    leaves the tracker as it was, and carries at least one reason.
    The adaptive system and the names of the breakers are never
    touched. *)
Theorem evaluation_effects m signal now :
  let r := RiskManager.evaluate_signal m signal now in
  let ok := fst (fst r) in
  let a := snd (fst r) in
  let m' := snd r in
  RiskManager.approved a = ok /\
  RiskManager.adaptive_system m' = RiskManager.adaptive_system m /\
  map fst (RiskManager.circuit_breakers m') = map fst (RiskManager.circuit_breakers m) /\
  (ok = true ->
     RiskManager.published m' =
       RiskManager.published m ++ [RiskManager.SIGNAL_APPROVED signal a] /\
     RiskManager.metrics_tracker m' =
       RiskMetricsTracker.record_signal_approval (RiskManager.metrics_tracker m) signal now /\
     CircuitBreakerSystem.get_active_breakers (RiskManager.circuit_breakers m') = [] /\
     RiskManager.reasons a = [] /\
     RiskManager.is_high_or_critical (RiskManager.risk_level a) = false) /\
  (ok = false ->
     RiskManager.published m' = RiskManager.published m /\
     RiskManager.metrics_tracker m' = RiskManager.metrics_tracker m /\
     RiskManager.reasons a <> []).
Proof.
  pose proof (evaluate_signal_effects m signal now) as H.
  destruct (RiskManager.evaluate_signal m signal now) as [[ok a] m']. exact H.
Qed.

Lemma approval_limits m signal now a m' :
  RiskManager.evaluate_signal m signal now = (true, a, m') ->
  let limits := AdaptiveRiskSystem.current_limits (RiskManager.adaptive_system m) in
  let k := RiskManager.metrics_tracker m in
  (RiskMetricsTracker.get_active_signals_count k
     < AdaptiveRiskSystem.max_concurrent_signals limits)%Z /\
  (RiskMetricsTracker.count_after (now - PyTime.of_seconds 60) (RiskMetricsTracker.ts_all k)
     < AdaptiveRiskSystem.max_signals_per_minute limits)%Z /\
  (RiskMetricsTracker.count_after (now - PyTime.of_seconds 3600) (RiskMetricsTracker.ts_all k)
     < AdaptiveRiskSystem.max_signals_per_hour limits)%Z /\
  (Signal.source signal = Signal.CONFLUENCE ->
   (RiskMetricsTracker.count_after (now - PyTime.of_seconds 3600)
      (RiskMetricsTracker.ts_confluence k)
      < AdaptiveRiskSystem.max_confluence_per_hour limits)%Z).
Proof.
  unfold RiskManager.evaluate_signal.
  destruct (CircuitBreakerSystem.check_all _ now) as [cb bs].
  destruct (negb _); [discriminate |].
  unfold RiskManager.limit_stages. cbn [RiskManager.adaptive_system RiskManager.with_breakers
    RiskManager.metrics_tracker].
  destruct (Z.leb_spec
              (AdaptiveRiskSystem.max_concurrent_signals
                 (AdaptiveRiskSystem.current_limits (RiskManager.adaptive_system m)))
              (RiskMetricsTracker.get_active_signals_count (RiskManager.metrics_tracker m)));
    [discriminate |].
  unfold RiskMetricsTracker.check_signal_frequency.
  destruct (Z.leb_spec
              (AdaptiveRiskSystem.max_signals_per_minute
                 (AdaptiveRiskSystem.current_limits (RiskManager.adaptive_system m)))
              (RiskMetricsTracker.count_after (now - PyTime.of_seconds 60)
                 (RiskMetricsTracker.ts_all (RiskManager.metrics_tracker m))));
    [discriminate |].
  destruct (Z.leb_spec
              (AdaptiveRiskSystem.max_signals_per_hour
                 (AdaptiveRiskSystem.current_limits (RiskManager.adaptive_system m)))
              (RiskMetricsTracker.count_after (now - PyTime.of_seconds 3600)
                 (RiskMetricsTracker.ts_all (RiskManager.metrics_tracker m))));
    [discriminate |].
  intros Hev. split; [assumption |]. split; [assumption |]. split; [assumption |].
  intros Hsrc. rewrite Hsrc in Hev.
  destruct (Z.leb_spec
              (AdaptiveRiskSystem.max_confluence_per_hour
                 (AdaptiveRiskSystem.current_limits (RiskManager.adaptive_system m)))
              (RiskMetricsTracker.count_after (now - PyTime.of_seconds 3600)
                 (RiskMetricsTracker.ts_confluence (RiskManager.metrics_tracker m))));
    [discriminate | assumption].
Qed.

(** X5. An approval is given only below the limits in force: fewer
    active signals than [max_concurrent_signals], fewer signals in the
    last minute and hour than the two frequency limits, and, for a
    confluence signal, fewer confluences in the last hour than
    [max_confluence_per_hour]. *)
Theorem approval_below_limits m signal now a m' :
  RiskManager.evaluate_signal m signal now = (true, a, m') ->
  let limits := AdaptiveRiskSystem.current_limits (RiskManager.adaptive_system m) in
  let k := RiskManager.metrics_tracker m in
  (RiskMetricsTracker.get_active_signals_count k
     < AdaptiveRiskSystem.max_concurrent_signals limits)%Z /\
  (RiskMetricsTracker.count_after (now - PyTime.of_seconds 60) (RiskMetricsTracker.ts_all k)
     < AdaptiveRiskSystem.max_signals_per_minute limits)%Z /\
  (RiskMetricsTracker.count_after (now - PyTime.of_seconds 3600) (RiskMetricsTracker.ts_all k)
     < AdaptiveRiskSystem.max_signals_per_hour limits)%Z /\
  (Signal.source signal = Signal.CONFLUENCE ->
   (RiskMetricsTracker.count_after (now - PyTime.of_seconds 3600)
      (RiskMetricsTracker.ts_confluence k)
      < AdaptiveRiskSystem.max_confluence_per_hour limits)%Z).
Proof. exact (approval_limits m signal now a m'). Qed.

(** *** Profit, loss and drawdown *)

(** The profits and losses of the closed trades, in their order. *)
Definition after_trades (m : RiskMetricsTracker.t) (pnls : list Q) : RiskMetricsTracker.t :=
  fold_left RiskMetricsTracker.update_pnl pnls m.

(** The number of losses at the head of a list. *)
Fixpoint streak (pnls : list Q) : Z :=
  match pnls with
  | [] => 0
  | p :: rest => if Py.Qltb p 0 then (streak rest + 1)%Z else 0%Z
  end.

Definition pnl_inv (r : RiskMetricsTracker.RiskMetrics) : Prop :=
  (RiskMetricsTracker.daily_pnl r <= RiskMetricsTracker.peak_pnl r)%Q /\
  (0 <= RiskMetricsTracker.peak_pnl r)%Q /\
  (0 <= RiskMetricsTracker.current_drawdown r)%Q.

Lemma pnl_metrics_inv r pnl : pnl_inv r -> pnl_inv (RiskMetricsTracker.pnl_metrics r pnl).
Proof.
  intros (Hd & Hp & Hdd). unfold pnl_inv, RiskMetricsTracker.pnl_metrics.
  cbn [RiskMetricsTracker.daily_pnl RiskMetricsTracker.peak_pnl
       RiskMetricsTracker.current_drawdown].
  set (daily := (RiskMetricsTracker.daily_pnl r + pnl)%Q).
  destruct (Py.Qltb (RiskMetricsTracker.peak_pnl r) daily) eqn:E.
  - apply PyFacts.Qltb_lt in E. split; [lra |]. split; [lra |].
    destruct (Py.Qltb 0 daily) eqn:E0; [| lra].
    apply PyFacts.Qltb_lt in E0.
    assert (H : ((daily - daily) / daily * 100 == 0)%Q) by (field; lra).
    rewrite H. lra.
  - apply PyFacts.Qltb_ge in E. split; [lra |]. split; [lra |].
    destruct (Py.Qltb 0 (RiskMetricsTracker.peak_pnl r)) eqn:E0; [| lra].
    apply PyFacts.Qltb_lt in E0.
    apply Qmult_le_0_compat; [| lra].
    apply Qle_shift_div_l; [exact E0 | lra].
Qed.

Lemma after_trades_snoc m pnls p :
  after_trades m (pnls ++ [p]) = RiskMetricsTracker.update_pnl (after_trades m pnls) p.
Proof. unfold after_trades. rewrite fold_left_app. reflexivity. Qed.

Lemma pnl_inv_after timeout pnls :
  pnl_inv (RiskMetricsTracker.metrics (after_trades (RiskMetricsTracker.init timeout) pnls)).
Proof.
  induction pnls as [| p pnls IH] using rev_ind.
  - cbn. unfold pnl_inv. cbn. lra.
  - rewrite after_trades_snoc. apply pnl_metrics_inv. exact IH.
Qed.

(** X6. From the start of the day and after any closed trades, the
    peak is at least the daily result and never negative, and the
    drawdown is never negative; a trade that sets a new peak leaves a
    drawdown of zero; and while the day has shown no profit the
    drawdown stays at zero, whatever is lost. *)
Theorem drawdown_invariants timeout pnls :
  let r := RiskMetricsTracker.metrics (after_trades (RiskMetricsTracker.init timeout) pnls) in
  (RiskMetricsTracker.daily_pnl r <= RiskMetricsTracker.peak_pnl r)%Q /\
  (0 <= RiskMetricsTracker.peak_pnl r)%Q /\
  (0 <= RiskMetricsTracker.current_drawdown r)%Q /\
  (forall p,
     let r' := RiskMetricsTracker.pnl_metrics r p in
     (RiskMetricsTracker.peak_pnl r < RiskMetricsTracker.daily_pnl r + p)%Q ->
     (RiskMetricsTracker.current_drawdown r' == 0)%Q) /\
  ((forall p, In p pnls -> (p <= 0)%Q) ->
   RiskMetricsTracker.current_drawdown r = 0%Q /\ (RiskMetricsTracker.peak_pnl r == 0)%Q).
Proof.
  intros r.
  pose proof (pnl_inv_after timeout pnls) as Hinv. fold r in Hinv.
  destruct Hinv as (H1 & H2 & H3). split; [exact H1 |]. split; [exact H2 |].
  split; [exact H3 |]. split.
  - intros p r' Hlt. subst r'. unfold RiskMetricsTracker.pnl_metrics.
    cbn [RiskMetricsTracker.current_drawdown].
    apply PyFacts.Qltb_lt in Hlt. rewrite Hlt.
    destruct (Py.Qltb 0 _) eqn:E0; [| reflexivity].
    apply PyFacts.Qltb_lt in E0. field. lra.
  - subst r. clear H1 H2 H3. induction pnls as [| p pnls IH] using rev_ind; intros Hall.
    + cbn. split; reflexivity.
    + rewrite after_trades_snoc.
      destruct IH as [IHd IHp].
      { intros q Hq. apply Hall. apply in_or_app. left. exact Hq. }
      assert (Hp : (p <= 0)%Q) by (apply Hall; apply in_or_app; right; left; reflexivity).
      pose proof (pnl_inv_after timeout pnls) as (Hd & _).
      unfold RiskMetricsTracker.update_pnl, RiskMetricsTracker.pnl_metrics.
      cbn [RiskMetricsTracker.metrics RiskMetricsTracker.with_metrics
           RiskMetricsTracker.current_drawdown RiskMetricsTracker.peak_pnl].
      set (r := RiskMetricsTracker.metrics (after_trades (RiskMetricsTracker.init timeout) pnls)) in *.
      destruct (Py.Qltb (RiskMetricsTracker.peak_pnl r) _) eqn:E.
      * apply PyFacts.Qltb_lt in E. exfalso. lra.
      * destruct (Py.Qltb 0 (RiskMetricsTracker.peak_pnl r)) eqn:E0.
        -- apply PyFacts.Qltb_lt in E0. exfalso. lra.
        -- split; [reflexivity | exact IHp].
Qed.

(** X7. [consecutive_losses] is the number of losses since the last
    trade that closed without a loss: after any closed trades it is the
    length of the run of negative results that ends the list, counted
    on top of the count at the start when every trade was a loss. *)
Theorem consecutive_losses_is_streak m pnls :
  RiskMetricsTracker.consecutive_losses (RiskMetricsTracker.metrics (after_trades m pnls)) =
    if forallb (fun p => Py.Qltb p 0) pnls
    then (RiskMetricsTracker.consecutive_losses (RiskMetricsTracker.metrics m)
          + Z.of_nat (length pnls))%Z
    else streak (rev pnls).
Proof.
  induction pnls as [| p pnls IH] using rev_ind.
  - cbn. lia.
  - rewrite after_trades_snoc, forallb_app, rev_app_distr, length_app. cbn.
    rewrite IH. destruct (Py.Qltb p 0) eqn:Hp.
    + rewrite andb_true_r. destruct (forallb _ pnls) eqn:Hall; [lia | reflexivity].
    + rewrite andb_false_r. reflexivity.
Qed.

(** *** The handlers *)

Lemma get_In {V} k (v : V) d : Dict.get k d = Some v -> In (k, v) d.
Proof.
  induction d as [| [k' v'] r IH]; cbn; [discriminate |].
  destruct (String.eqb k' k) eqn:E.
  - apply String.eqb_eq in E. intros [= ->]. left. congruence.
  - intros H. right. auto.
Qed.

Lemma trigger_other bs now name why other :
  other <> name ->
  Dict.get other (CircuitBreakerSystem.trigger bs now name why) = Dict.get other bs.
Proof.
  intros Hne. unfold CircuitBreakerSystem.trigger.
  destruct (Dict.get name bs) as [st |]; [| reflexivity].
  destruct (active st); [reflexivity |]. apply PyFacts.get_set_ne. congruence.
Qed.

(** X8. A loss that brings the count of consecutive losses to five or
    more trips the breaker [consecutive_losses] (if it was not active)
    at the time of the handler, with the count in its reason; and
    until its cooldown has run, every signal is rejected as CRITICAL. *)
Theorem fifth_loss_trips_breaker format_1f format_2f h pnl now st :
  (pnl < 0)%Q ->
  (4 <= RiskMetricsTracker.consecutive_losses
          (RiskMetricsTracker.metrics (RiskManager.metrics_tracker (RiskEventHandlers.manager h))))%Z ->
  Dict.get "consecutive_losses" (RiskManager.circuit_breakers (RiskEventHandlers.manager h))
    = Some st ->
  active st = false ->
  let n := RiskMetricsTracker.consecutive_losses
             (RiskMetricsTracker.metrics
                (RiskManager.metrics_tracker (RiskEventHandlers.manager h))) in
  let h' := RiskEventHandlers.handle_trade_closed format_1f format_2f h pnl now in
  Dict.get "consecutive_losses" (RiskManager.circuit_breakers (RiskEventHandlers.manager h'))
    = Some {| active := true; triggered_at := Some now;
              reason := RiskEventHandlers.format_d (n + 1) ++ " perdas consecutivas";
              cooldown_seconds := cooldown_seconds st |} /\
  forall signal now',
    (0 <= PyTime.sub now' now < PyTime.of_seconds (cooldown_seconds st))%Z ->
    exists a m',
      RiskManager.evaluate_signal (RiskEventHandlers.manager h') signal now' = (false, a, m') /\
      RiskManager.risk_level a = CRITICAL.
Proof.
  intros Hp Hn Hg Ha n h'.
  assert (Hget : Dict.get "consecutive_losses"
                   (RiskManager.circuit_breakers (RiskEventHandlers.manager h'))
                 = Some {| active := true; triggered_at := Some now;
                           reason := RiskEventHandlers.format_d (n + 1) ++ " perdas consecutivas";
                           cooldown_seconds := cooldown_seconds st |}).
  { subst h'. unfold RiskEventHandlers.handle_trade_closed, RiskEventHandlers.update_from_metrics.
    cbn [RiskEventHandlers.manager RiskEventHandlers.with_manager RiskManager.circuit_breakers
         RiskManager.with_breakers RiskMetricsTracker.update_pnl RiskMetricsTracker.metrics
         RiskMetricsTracker.with_metrics RiskMetricsTracker.pnl_metrics
         RiskMetricsTracker.consecutive_losses RiskMetricsTracker.current_drawdown
         RiskMetricsTracker.daily_pnl].
    apply PyFacts.Qltb_lt in Hp. rewrite Hp. fold n.
    destruct (Z.leb_spec 5 (n + 1)) as [_ | Hlt]; [| subst n; lia].
    assert (H1 : Dict.get "consecutive_losses"
                   (CircuitBreakerSystem.trigger
                      (RiskManager.circuit_breakers (RiskEventHandlers.manager h)) now
                      "consecutive_losses"
                      (RiskEventHandlers.format_d (n + 1) ++ " perdas consecutivas"))
                 = Some {| active := true; triggered_at := Some now;
                           reason := RiskEventHandlers.format_d (n + 1) ++ " perdas consecutivas";
                           cooldown_seconds := cooldown_seconds st |}).
    { unfold CircuitBreakerSystem.trigger. rewrite Hg, Ha. apply PyFacts.get_set_eq. }
    destruct (Qle_bool 2.0 _); destruct (Qle_bool _ (-1000));
      rewrite ?trigger_other by discriminate; exact H1. }
  split; [exact Hget |].
  intros signal now' Hw.
  destruct (RiskFacts.active_breaker_rejects (RiskEventHandlers.manager h') signal now'
              "consecutive_losses" _ now (get_In _ _ _ Hget) eq_refl eq_refl Hw)
    as (a & m' & He & _ & Hl & _).
  exists a, m'. split; [exact He | exact Hl].
Qed.

(** X9. Every signal handled by [handle_signal_generated] is counted
    once: [total_signals] grows by one, and either the signal is
    approved, counted as approved and announced by one
    [SIGNAL_APPROVED], or it is rejected, counted as rejected and
    announced by one [SIGNAL_REJECTED] that carries the rejected
    assessment with its reasons; never both. *)
Theorem handled_signal_counted_once h signal now :
  let h' := RiskEventHandlers.handle_signal_generated h signal now in
  let r := RiskMetricsTracker.metrics (RiskManager.metrics_tracker (RiskEventHandlers.manager h)) in
  let r' := RiskMetricsTracker.metrics (RiskManager.metrics_tracker (RiskEventHandlers.manager h')) in
  let ev := RiskManager.evaluate_signal (RiskEventHandlers.manager h) signal now in
  let a := snd (fst ev) in
  (RiskMetricsTracker.total_signals r' = RiskMetricsTracker.total_signals r + 1)%Z /\
  (if fst (fst ev) then
     RiskManager.published (RiskEventHandlers.manager h') =
       RiskManager.published (RiskEventHandlers.manager h) ++ [RiskManager.SIGNAL_APPROVED signal a] /\
     RiskEventHandlers.rejected h' = RiskEventHandlers.rejected h /\
     (RiskMetricsTracker.signals_approved r' = RiskMetricsTracker.signals_approved r + 1)%Z /\
     RiskMetricsTracker.signals_rejected r' = RiskMetricsTracker.signals_rejected r
   else
     RiskManager.published (RiskEventHandlers.manager h') =
       RiskManager.published (RiskEventHandlers.manager h) /\
     RiskEventHandlers.rejected h' = RiskEventHandlers.rejected h ++ [(signal, a)] /\
     RiskManager.approved a = false /\ RiskManager.reasons a <> [] /\
     RiskMetricsTracker.signals_approved r' = RiskMetricsTracker.signals_approved r /\
     (RiskMetricsTracker.signals_rejected r' = RiskMetricsTracker.signals_rejected r + 1)%Z).
Proof.
  intros h' r r' ev a. subst h' r r' a ev.
  unfold RiskEventHandlers.handle_signal_generated.
  pose proof (evaluate_signal_effects (RiskEventHandlers.manager h) signal now) as H.
  destruct (RiskManager.evaluate_signal _ signal now) as [[ok a] m'].
  destruct H as (Hok & _ & _ & Hyes & Hno). cbn [fst snd].
  destruct ok; cbn [negb].
  - destruct (Hyes eq_refl) as (Hp & Hk & _). cbn. rewrite Hk, Hp. cbn. repeat split.
  - destruct (Hno eq_refl) as (Hp & Hk & Hr). cbn. rewrite Hk, Hp. cbn.
    repeat split; assumption.
Qed.

(** X10. [cleanup_expired_signals] keeps exactly the active signals
    whose timeout has not passed, unchanged; it returns their number,
    which is at most the number before; and its argument is not read:
    the timeout is the one recorded at the approval. *)
Theorem cleanup_keeps_unexpired m timeout now :
  let m' := fst (RiskMetricsTracker.cleanup_expired_signals m timeout now) in
  let n := snd (RiskMetricsTracker.cleanup_expired_signals m timeout now) in
  (forall id s,
     RiskMetricsTracker.active_signals m' !! id = Some s <->
     RiskMetricsTracker.active_signals m !! id = Some s /\
     (now <= RiskMetricsTracker.as_timeout s)%Z) /\
  n = RiskMetricsTracker.get_active_signals_count m' /\
  (n <= RiskMetricsTracker.get_active_signals_count m)%Z /\
  RiskMetricsTracker.metrics m' = RiskMetricsTracker.metrics m /\
  (forall timeout',
     RiskMetricsTracker.cleanup_expired_signals m timeout' now =
     RiskMetricsTracker.cleanup_expired_signals m timeout now).
Proof.
  cbn. split; [| split; [reflexivity | split; [| split; reflexivity]]].
  - intros id s. rewrite map_lookup_filter_Some. cbn. rewrite Z.ltb_ge. reflexivity.
  - unfold RiskMetricsTracker.get_active_signals_count.
    apply Nat2Z.inj_le. apply map_subseteq_size. apply map_filter_subseteq.
Qed.

Lemma approval_below_limits_witness :
  exists a m',
    RiskManager.evaluate_signal RiskFacts.three_losses RiskFacts.a_signal (PyTime.hm 16 30)
      = (true, a, m') /\
    (RiskMetricsTracker.get_active_signals_count
       (RiskManager.metrics_tracker RiskFacts.three_losses)
     < AdaptiveRiskSystem.max_concurrent_signals
         (AdaptiveRiskSystem.current_limits
            (RiskManager.adaptive_system RiskFacts.three_losses)))%Z.
Proof.
  assert (E : fst (fst (RiskManager.evaluate_signal RiskFacts.three_losses RiskFacts.a_signal
                          (PyTime.hm 16 30))) = true) by (vm_compute; reflexivity).
  destruct (RiskManager.evaluate_signal RiskFacts.three_losses RiskFacts.a_signal
              (PyTime.hm 16 30)) as [[ok a] m'] eqn:E'.
  cbn in E. subst ok.
  destruct (approval_below_limits _ _ _ _ _ E') as (H1 & _).
  exists a, m'. split; [reflexivity | exact H1].
Defined.

(** The handlers of a fresh manager after four losing trades. *)
Definition four_losses : RiskEventHandlers.t :=
  let m := RiskManager.init (AdaptiveRiskSystem.pre_init AdaptiveRiskSystem.default_config) in
  {| RiskEventHandlers.manager :=
       RiskEventHandlers.with_tracker m
         (after_trades (RiskManager.metrics_tracker m) [-100; -50; -120; -80]%Q);
     RiskEventHandlers.rejected := [] |}.

Lemma fifth_loss_trips_breaker_witness :
  let f := fun _ : Q => ""%string in
  let h' := RiskEventHandlers.handle_trade_closed f f four_losses (-100) (PyTime.hm 11 0) in
  exists a m',
    RiskManager.evaluate_signal (RiskEventHandlers.manager h') RiskFacts.a_signal
      (PyTime.hm 11 2) = (false, a, m') /\
    RiskManager.risk_level a = CRITICAL.
Proof.
  intros f h'.
  assert (Hp : (-100 < 0)%Q) by reflexivity.
  assert (Hn : (4 <= RiskMetricsTracker.consecutive_losses
                       (RiskMetricsTracker.metrics
                          (RiskManager.metrics_tracker (RiskEventHandlers.manager four_losses))))%Z)
    by (vm_compute; discriminate).
  destruct (fifth_loss_trips_breaker f f four_losses (-100) (PyTime.hm 11 0)
              (CircuitBreakerSystem.fresh 300) Hp Hn eq_refl eq_refl) as [_ H].
  apply H. vm_compute. split; [discriminate | reflexivity].
Defined.

End ManagerFacts.

(** ** Reads, counters and clearing of the trade cache *)

Module CacheReads.
Import TradeMemoryCache.

Lemma deref_alloc c st l :
  deref (snd (alloc c st l)) (fst (alloc c st l)) = l /\
  (forall a, is_Some (objects c !! a) ->
     deref (snd (alloc c st l)) a = deref c a) /\
  cache (snd (alloc c st l)) = cache c /\
  stats (snd (alloc c st l)) = st.
Proof.
  unfold alloc, deref. cbn. rewrite lookup_insert_eq. split; [reflexivity |].
  split; [| auto]. intros a [x Hx].
  rewrite lookup_insert_ne; [reflexivity |].
  intros <-. rewrite CacheFacts.new_addr_fresh in Hx. discriminate.
Qed.

Lemma recent_spec c symbol count :
  fst (recent c symbol count) =
    (if (Z.of_nat (length (contents c symbol)) <=? count)%Z then contents c symbol
     else last_slice count (contents c symbol)) /\
  cache (snd (recent c symbol count)) = cache c /\
  stats (snd (recent c symbol count)) =
    match cache c !! symbol with
    | Some _ => count_hit c
    | None => count_miss c
    end.
Proof.
  unfold recent, get_recent_trades, contents.
  destruct (cache c !! symbol) as [a0 |] eqn:Hc.
  - destruct (alloc c (count_hit c) (deref c a0)) as [a1 c1] eqn:E1.
    pose proof (deref_alloc c (count_hit c) (deref c a0)) as (H1 & _ & H3 & H4).
    rewrite E1 in H1, H3, H4. cbn [fst snd] in H1, H3, H4. rewrite H1.
    destruct (_ <=? _)%Z.
    + cbn [fst snd]. auto.
    + destruct (alloc c1 (stats c1) _) as [a2 c2] eqn:E2.
      pose proof (deref_alloc c1 (stats c1) (last_slice count (deref c a0))) as (G1 & _ & G3 & G4).
      rewrite E2 in G1, G3, G4. cbn [fst snd] in *. rewrite G1, G3, G4. auto.
  - destruct (alloc c (count_miss c) []) as [a1 c1] eqn:E1.
    pose proof (deref_alloc c (count_miss c) []) as (H1 & _ & H3 & H4).
    rewrite E1 in H1, H3, H4. cbn [fst snd] in *. rewrite H1.
    destruct (_ <=? _)%Z; [auto |]. split; [| auto].
    unfold last_slice. destruct (0 <? count)%Z; symmetry; apply skipn_nil.
Qed.

(** X11. What [get_recent_trades] hands out for the trades [l] cached
    for a symbol: all of [l] when [count] is at least their number;
    the last [count] of them when [count] is smaller and positive;
    all of [l], not none, when [count] is 0; and [l] without its first
    [-count] trades when [count] is negative.  A symbol that is not
    cached gives the empty list. *)
Theorem recent_trades_by_count c symbol count :
  let l := contents c symbol in
  let r := fst (recent c symbol count) in
  ((Z.of_nat (length l) <= count)%Z -> r = l) /\
  ((0 < count < Z.of_nat (length l))%Z ->
   r = skipn (length l - Z.to_nat count) l /\ length r = Z.to_nat count) /\
  (count = 0%Z -> r = l) /\
  ((count < 0)%Z -> r = skipn (Z.to_nat (- count)) l) /\
  (cache c !! symbol = None -> r = []) /\
  exists pre, l = pre ++ r.
Proof.
  intros l r. subst r. destruct (recent_spec c symbol count) as (Hr & _).
  rewrite Hr. fold l. unfold last_slice.
  split; [intros H; destruct (Z.leb_spec (Z.of_nat (length l)) count); [reflexivity | lia] |].
  split.
  { intros H. destruct (Z.leb_spec (Z.of_nat (length l)) count); [lia |].
    destruct (Z.ltb_spec 0 count); [| lia]. split; [reflexivity |].
    rewrite length_skipn. lia. }
  split.
  { intros ->. destruct (Z.leb_spec (Z.of_nat (length l)) 0); [reflexivity |]. reflexivity. }
  split.
  { intros H. destruct (Z.leb_spec (Z.of_nat (length l)) count); [lia |].
    destruct (Z.ltb_spec 0 count); [lia | reflexivity]. }
  split.
  { intros Hn. subst l. unfold contents. rewrite Hn. cbn [length].
    destruct (Z.of_nat 0 <=? count)%Z; [reflexivity |].
    destruct (0 <? count)%Z; apply skipn_nil. }
  destruct (_ <=? _)%Z; [exists []; reflexivity |].
  destruct (0 <? count)%Z; eexists; symmetry; apply firstn_skipn.
Qed.

Lemma newer_than_spec cutoff l :
  exists old,
    l = newer_than cutoff l ++ old /\
    Forall (fun t => (cutoff < Trade.timestamp t)%Z) (newer_than cutoff l) /\
    match old with
    | [] => True
    | t :: _ => (Trade.timestamp t <= cutoff)%Z
    end.
Proof.
  induction l as [| t l IH]; cbn.
  - exists []. repeat split; constructor.
  - destruct (Z.ltb_spec cutoff (Trade.timestamp t)) as [Hlt | Hge].
    + destruct IH as (old & H1 & H2 & H3). exists old. cbn. rewrite <- H1.
      split; [reflexivity |]. split; [constructor; assumption | exact H3].
    + exists (t :: l). split; [reflexivity |]. split; [constructor | exact Hge].
Qed.

(** The timestamps never decrease along the list. *)
Fixpoint in_time_order (l : list Trade.t) : Prop :=
  match l with
  | [] => True
  | t :: rest =>
      Forall (fun u => (Trade.timestamp t <= Trade.timestamp u)%Z) rest /\ in_time_order rest
  end.

Lemma window_of (c : t) (symbol : string) (seconds : Z) (now : PyTime.datetime) :
  deref (snd (get_trades_by_time_window c symbol seconds now))
        (fst (get_trades_by_time_window c symbol seconds now)) =
    rev (newer_than (now - PyTime.of_seconds seconds) (rev (contents c symbol))).
Proof.
  unfold get_trades_by_time_window, contents.
  destruct (cache c !! symbol) as [a |].
  - apply deref_alloc.
  - destruct (deref_alloc c (count_miss c) []) as (H & _). rewrite H. reflexivity.
Qed.

(** X12. [get_trades_by_time_window] returns the longest run of trades
    at the end of the cached list that are all newer than the cutoff:
    the result is a suffix of the cached trades, each of its trades is
    newer than the cutoff, and the trade just before it, if any, is
    not.  When the cached trades are in the order of their timestamps
    the result holds every cached trade newer than the cutoff. *)
Theorem time_window_is_newest_run c symbol seconds now :
  let cutoff := (now - PyTime.of_seconds seconds)%Z in
  let l := contents c symbol in
  let '(a, c') := get_trades_by_time_window c symbol seconds now in
  let r := deref c' a in
  (exists pre,
     l = pre ++ r /\
     match last pre with
     | Some t => (Trade.timestamp t <= cutoff)%Z
     | None => True
     end) /\
  Forall (fun t => (cutoff < Trade.timestamp t)%Z) r /\
  (in_time_order l -> r = List.filter (fun t => (cutoff <? Trade.timestamp t)%Z) l).
Proof.
  intros cutoff l.
  pose proof (window_of c symbol seconds now) as Hw.
  destruct (get_trades_by_time_window c symbol seconds now) as [a c']. cbn [fst snd] in Hw.
  cbn zeta. rewrite Hw. fold l. fold cutoff.
  destruct (newer_than_spec cutoff (rev l)) as (old & H1 & H2 & H3).
  assert (Hl : l = rev old ++ rev (newer_than cutoff (rev l))).
  { rewrite <- rev_app_distr, <- H1, rev_involutive. reflexivity. }
  split; [| split].
  - exists (rev old). split; [exact Hl |].
    destruct old as [| t old]; [exact I |]. cbn [rev]. rewrite last_snoc. exact H3.
  - apply Forall_rev. exact H2.
  - intros Hord. rewrite Hl at 2. rewrite List.filter_app.
    assert (Hnew : List.filter (fun t => (cutoff <? Trade.timestamp t)%Z)
                     (rev (newer_than cutoff (rev l))) = rev (newer_than cutoff (rev l))).
    { apply Forall_rev in H2. revert H2. generalize (rev (newer_than cutoff (rev l))).
      intros r Hr. induction Hr as [| t r Ht Hr IH]; cbn; [reflexivity |].
      apply Z.ltb_lt in Ht. rewrite Ht, IH. reflexivity. }
    rewrite Hnew.
    assert (Hold : List.filter (fun t => (cutoff <? Trade.timestamp t)%Z) (rev old) = []).
    { destruct old as [| t old]; [reflexivity |].
      (* every trade before [t] in [l] is at most as new as [t] *)
      assert (Hall : Forall (fun u => (Trade.timestamp u <= cutoff)%Z) (rev (t :: old))).
      { rewrite Hl in Hord. clear -Hord H3. cbn [rev] in *.
        rewrite <- app_assoc in Hord. cbn [app] in Hord.
        revert Hord. generalize (rev old). intros pre.
        induction pre as [| u pre IH]; cbn; intros Hord.
        - constructor; [exact H3 | constructor].
        - destruct Hord as [Hu Hrest]. constructor; [| apply IH; exact Hrest].
          rewrite Forall_app in Hu. destruct Hu as [_ Hu].
          apply Forall_cons in Hu as [Hu _]. lia. }
      revert Hall. generalize (rev (t :: old)). intros pre Hall.
      induction Hall as [| u pre Hu Hall IH]; cbn; [reflexivity |].
      destruct (Z.ltb_spec cutoff (Trade.timestamp u)); [lia | exact IH]. }
    rewrite Hold. reflexivity.
Qed.

(** *** Counters and metadata *)

Definition is_read (o : Op) : bool :=
  match o with
  | AddTrades _ _ _ => false
  | _ => true
  end.

Definition batch_size (o : Op) : Z :=
  match o with
  | AddTrades _ trades _ => Z.of_nat (length trades)
  | _ => 0%Z
  end.

Definition reads (ops : list Op) : Z := Z.of_nat (length (List.filter is_read ops)).

Definition added (ops : list Op) : Z := fold_right (fun o n => (batch_size o + n)%Z) 0%Z ops.

Definition counted (c : t) (ops : list Op) : Prop :=
  (hits (stats c) + misses (stats c) = reads ops)%Z /\
  (0 <= hits (stats c))%Z /\ (0 <= misses (stats c))%Z /\
  additions (stats c) = added ops /\
  (0 <= evictions (stats c) <= additions (stats c))%Z /\
  dom (metadata c) = dom (cache c).

Lemma run_snoc c ops o : run c (ops ++ [o]) = step (run c ops) o.
Proof. unfold run. rewrite fold_left_app. reflexivity. Qed.

Lemma reads_snoc ops o : reads (ops ++ [o]) = (reads ops + if is_read o then 1 else 0)%Z.
Proof.
  unfold reads. rewrite List.filter_app, length_app. cbn.
  destruct (is_read o); cbn; lia.
Qed.

Lemma added_snoc ops o : added (ops ++ [o]) = (added ops + batch_size o)%Z.
Proof. unfold added. induction ops as [| x ops IH]; cbn; [lia | rewrite IH; lia]. Qed.

Lemma read_counted c ops o st l :
  counted c ops -> is_read o = true -> batch_size o = 0%Z ->
  st = count_hit c \/ st = count_miss c ->
  counted (snd (alloc c st l)) (ops ++ [o]).
Proof.
  intros (H1 & H2 & H3 & H4 & H5 & H6) Hr Hb Hst. unfold counted.
  rewrite reads_snoc, added_snoc, Hr, Hb.
  destruct Hst as [-> | ->]; cbn; repeat split; try lia; exact H6.
Qed.

Lemma step_counted c ops o : bounded c -> counted c ops -> counted (step c o) (ops ++ [o]).
Proof.
  intros Hb Hc. destruct o as [symbol trades now | symbol count | symbol | symbol secs now].
  - destruct Hc as (H1 & H2 & H3 & H4 & H5 & H6). unfold counted.
    rewrite reads_snoc, added_snoc. cbn [is_read batch_size step].
    unfold add_trades. destruct trades as [| t0 ts].
    { cbn. repeat split; try lia. exact H6. }
    remember (t0 :: ts) as trades eqn:Ht. clear Ht.
    destruct (cache c !! symbol) as [a |] eqn:Hs.
    + destruct (Hb _ _ Hs) as (d & Hd & Hl). rewrite Hd.
      cbn [stats hits misses additions evictions metadata cache default].
      assert (He : (evicted (max_size c) (length d) (length trades) <= length trades)%nat).
      { unfold evicted. destruct (_ <? _)%nat; lia. }
      unfold id. repeat split; try lia.
      assert (Hin : symbol ∈ dom (metadata c)) by (rewrite H6; apply elem_of_dom; eauto).
      apply elem_of_dom in Hin as [md Hmd]. rewrite Hmd.
      rewrite dom_insert_L, H6. apply elem_of_dom_2 in Hs.
      apply set_eq. intros x. rewrite elem_of_union, elem_of_singleton.
      split; [intros [-> | Hx]; assumption | auto].
    + rewrite lookup_insert_eq.
      cbn [stats hits misses additions evictions metadata cache default length].
      rewrite lookup_insert_eq, insert_insert_eq, !dom_insert_L, H6.
      unfold evicted, id. cbn [Nat.add Nat.min length].
      destruct (_ <? _)%nat; repeat split; lia.
  - cbn [step]. unfold get_recent_trades.
    destruct (cache c !! symbol) as [a |].
    + pose proof (read_counted c ops (GetRecent symbol count) (count_hit c) (deref c a)
                    Hc eq_refl eq_refl (or_introl eq_refl)) as H1.
      destruct (alloc c (count_hit c) (deref c a)) as [a1 c1] eqn:E1. cbn [snd] in H1.
      destruct (_ <=? _)%Z; [exact H1 |].
      unfold alloc. cbn. exact H1.
    + exact (read_counted c ops (GetRecent symbol count) _ _ Hc eq_refl eq_refl
               (or_intror eq_refl)).
  - cbn [step]. unfold get_all_trades. destruct (cache c !! symbol) as [a |].
    + exact (read_counted c ops (GetAll symbol) _ _ Hc eq_refl eq_refl (or_introl eq_refl)).
    + exact (read_counted c ops (GetAll symbol) _ _ Hc eq_refl eq_refl (or_intror eq_refl)).
  - cbn [step]. unfold get_trades_by_time_window. destruct (cache c !! symbol) as [a |].
    + exact (read_counted c ops (GetWindow symbol secs now) _ _ Hc eq_refl eq_refl
               (or_introl eq_refl)).
    + exact (read_counted c ops (GetWindow symbol secs now) _ _ Hc eq_refl eq_refl
               (or_intror eq_refl)).
Qed.

(** X13. The counters of the cache after any sequence of additions and
    reads on a new cache: hits and misses together count the reads,
    [additions] is the number of trades handed to [add_trades],
    [evictions] never exceeds it, and the metadata has an entry for
    exactly the cached symbols (so that [add_trades] finds the entry
    it updates). *)
Theorem cache_counters M ops :
  let c := run (init M) ops in
  (hits (stats c) + misses (stats c) = reads ops)%Z /\
  (0 <= hits (stats c))%Z /\ (0 <= misses (stats c))%Z /\
  additions (stats c) = added ops /\
  (0 <= evictions (stats c) <= additions (stats c))%Z /\
  dom (metadata c) = dom (cache c).
Proof.
  cbn zeta. induction ops as [| o ops IH] using rev_ind.
  - cbn. rewrite !dom_empty_L. repeat split; lia.
  - rewrite run_snoc. apply step_counted; [| exact IH].
    apply CacheFacts.run_bounded. apply CacheFacts.init_bounded.
Qed.

(** X14. [clear] with the name of a symbol forgets that symbol alone:
    its trades are gone (and its metadata with them, when the two
    dictionaries hold the same symbols), the next read of it is a miss,
    and the other symbols and the counters are as before.  With the
    empty name, as without argument, every symbol is forgotten and the
    counters restart at zero. *)
Theorem clear_forgets c s :
  let c' := clear c (Some s) in
  if String.eqb s "" then
    c' = clear c None /\
    (forall s', contents c' s' = []) /\
    stats c' = {| hits := 0; misses := 0; additions := 0; evictions := 0 |}
  else
    contents c' s = [] /\
    cache c' !! s = None /\
    (dom (metadata c) = dom (cache c) -> dom (metadata c') = dom (cache c')) /\
    (forall count, stats (snd (get_recent_trades c' s count)) = count_miss c') /\
    (forall s', s' <> s ->
       contents c' s' = contents c s' /\ metadata c' !! s' = metadata c !! s') /\
    stats c' = stats c /\
    (bounded c -> bounded c').
Proof.
  cbn zeta. unfold clear. destruct (String.eqb s "") eqn:E.
  - split; [reflexivity |]. split; [| reflexivity].
    intros s'. unfold contents. cbn. rewrite lookup_empty. reflexivity.
  - destruct (cache c !! s) as [a |] eqn:Hs.
    + unfold contents, get_recent_trades. cbn.
      rewrite lookup_delete_eq. split; [reflexivity |].
      split; [reflexivity |].
      split; [intros Hd; rewrite !dom_delete_L, Hd; reflexivity |].
      split; [reflexivity |].
      split; [| split; [reflexivity |]].
      * intros s' Hne. rewrite !lookup_delete_ne by congruence. auto.
      * intros Hb s' a' H'. cbn in *.
        destruct (decide (s = s')) as [-> | Hne].
        -- rewrite lookup_delete_eq in H'. discriminate.
        -- rewrite lookup_delete_ne in H' by exact Hne. exact (Hb _ _ H').
    + unfold contents, get_recent_trades. rewrite Hs. cbn.
      split; [reflexivity |]. split; [reflexivity |]. split; [auto |].
      split; [reflexivity |]. split; [auto | split; auto].
Qed.

End CacheReads.

(** ** What the defensive filter sees in a book *)

Module DefensiveFacts.
Import DefensiveSignalFilter.

Definition advice (k : Manipulation) (s : Side) : Action :=
  match k, s with
  | LAYERING, BID => CarefulBuying
  | LAYERING, ASK => CarefulSelling
  | SPOOFING, BID => HeavyBid
  | SPOOFING, ASK => HeavyAsk
  end.

Lemma check_layering_sided f book r :
  _check_layering f book = Some r ->
  kind r = LAYERING /\ (detected r = true -> exists s, side r = Some s).
Proof.
  unfold _check_layering.
  destruct (layered f (OrderBook.bids book)) as [[|] |]; [| | discriminate].
  - intros [= <-]. cbn. eauto.
  - destruct (layered f (OrderBook.asks book)) as [[|] |]; [| | discriminate];
      intros [= <-]; cbn; eauto. split; [reflexivity | discriminate].
Qed.

Lemma check_spoofing_sided f book :
  kind (_check_spoofing f book) = SPOOFING /\
  (detected (_check_spoofing f book) = true -> exists s, side (_check_spoofing f book) = Some s).
Proof.
  unfold _check_spoofing.
  destruct (OrderBook.bids book) as [| b bs]; [cbn; split; [reflexivity | discriminate] |].
  destruct (OrderBook.asks book) as [| a0 as_]; [cbn; split; [reflexivity | discriminate] |].
  destruct (_ || _); [cbn; split; [reflexivity | discriminate] |].
  destruct (_ <? _)%Z; destruct (Qle_bool _ _); cbn; split; eauto; discriminate.
Qed.

(** X15. The verdict of [is_signal_safe]: a safe verdict has no risk,
    no detail, no advice and the confidence 1; an unsafe one advises by
    the side of a detection it lists, the layering one when there is
    one, else the spoofing one, so that the general advice for an
    abnormal book is never given. *)
Theorem unsafe_advice_names_side f book :
  match is_signal_safe f book with
  | Some (true, info) =>
      safe info = true /\ risks info = [] /\ details info = [] /\
      action_required info = None /\ confidence info = 1.0%Q
  | Some (false, info) =>
      safe info = false /\
      exists d s,
        In d (details info) /\ detected d = true /\ side d = Some s /\
        In (kind d) (risks info) /\
        action_required info = Some (advice (kind d) s) /\
        (kind d = SPOOFING -> risks info = [SPOOFING])
  | None => True
  end.
Proof.
  unfold is_signal_safe.
  destruct book as [b |]; [| cbn; auto].
  destruct (block_signals f); [| cbn; auto].
  unfold inspect.
  pose proof (check_spoofing_sided f b) as [Hks Hss].
  destruct (layering_enabled f).
  - pose proof (check_layering_sided f b) as Hl.
    destruct (_check_layering f b) as [l |]; [| exact I].
    destruct (Hl l eq_refl) as [Hkl Hsl].
    destruct (detected l) eqn:Hdl.
    + destruct (Hsl eq_refl) as [s Hs].
      assert (Hadv : forall rs ds,
                 _determine_action (LAYERING :: rs) (l :: ds) = advice LAYERING s).
      { intros rs ds. unfold _determine_action. cbn. unfold is_kind. rewrite Hkl, Hs.
        destruct s; reflexivity. }
      destruct (spoofing_enabled f); [destruct (detected (_check_spoofing f b)) |];
        cbn; (split; [reflexivity |]); exists l, s; rewrite Hkl;
        repeat split; auto; try (rewrite Hadv; reflexivity); discriminate.
    + destruct (spoofing_enabled f); [| cbn; auto].
      destruct (detected (_check_spoofing f b)) eqn:Hds; [| cbn; auto].
      destruct (Hss eq_refl) as [s Hs]. cbn. split; [reflexivity |].
      exists (_check_spoofing f b), s. rewrite Hks.
      repeat split; auto.
      unfold _determine_action. cbn. unfold is_kind. rewrite ?Hks, Hs. destruct s; reflexivity.
  - destruct (spoofing_enabled f); [| cbn; auto].
    destruct (detected (_check_spoofing f b)) eqn:Hds; [| cbn; auto].
    destruct (Hss eq_refl) as [s Hs]. cbn. split; [reflexivity |].
    exists (_check_spoofing f b), s. rewrite Hks.
    repeat split; auto.
    unfold _determine_action. cbn. unfold is_kind. rewrite ?Hks, Hs. destruct s; reflexivity.
Qed.

Lemma Qle_div_iff (a b c : Q) : (0 < c)%Q -> (a <= b / c)%Q <-> (a * c <= b)%Q.
Proof.
  intros Hc. split; intros H.
  - assert (Hb : (b == b / c * c)%Q) by (field; lra). rewrite Hb.
    apply Qmult_le_compat_r; lra.
  - apply Qle_shift_div_l; assumption.
Qed.

(** X16. Spoofing is an imbalance of the volumes at the first
    [levels_to_check] levels: with both volumes positive it is
    detected exactly when the heavier volume is at least
    [imbalance_ratio] times the lighter one, and the side reported is
    the heavier one, the ask side when they are equal; a side that is
    empty or holds no volume is never reported, however heavy the
    other one. *)
Theorem spoofing_is_imbalance f book :
  let bid := sum_volumes (map OrderBook.volume (firstn (levels_to_check f) (OrderBook.bids book))) in
  let ask := sum_volumes (map OrderBook.volume (firstn (levels_to_check f) (OrderBook.asks book))) in
  let r := _check_spoofing f book in
  ((0 < bid)%Z -> (0 < ask)%Z ->
   (detected r = true <->
    (imbalance_ratio f * inject_Z (Z.min bid ask) <= inject_Z (Z.max bid ask))%Q) /\
   (detected r = true -> side r = Some (if (ask <? bid)%Z then BID else ASK))) /\
  (bid = 0%Z \/ ask = 0%Z -> detected r = false /\ side r = None).
Proof.
  intros bid ask r. subst r. unfold _check_spoofing. fold bid. fold ask. split.
  - intros Hb Ha.
    destruct (OrderBook.bids book) as [| b bs] eqn:Eb.
    { exfalso. subst bid. rewrite firstn_nil in Hb. cbn in Hb. lia. }
    destruct (OrderBook.asks book) as [| a0 as_] eqn:Ea.
    { exfalso. subst ask. rewrite firstn_nil in Ha. cbn in Ha. lia. }
    destruct (Z.eqb_spec bid 0); [lia |]. destruct (Z.eqb_spec ask 0); [lia |].
    cbn [orb].
    assert (Hbq : (0 < inject_Z bid)%Q) by (unfold Qlt, inject_Z; cbn; lia).
    assert (Haq : (0 < inject_Z ask)%Q) by (unfold Qlt, inject_Z; cbn; lia).
    destruct (Z.ltb_spec ask bid) as [Hlt | Hge].
    + rewrite Z.min_r, Z.max_l by lia.
      destruct (Qle_bool _ _) eqn:E; cbn.
      * apply Qle_bool_iff, Qle_div_iff in E; [| exact Haq]. split; [tauto | reflexivity].
      * split; [| discriminate]. split; [discriminate |].
        intros H. apply Qle_div_iff, Qle_bool_iff in H; [congruence | exact Haq].
    + rewrite Z.min_l, Z.max_r by lia.
      destruct (Qle_bool _ _) eqn:E; cbn.
      * apply Qle_bool_iff, Qle_div_iff in E; [| exact Hbq]. split; [tauto | reflexivity].
      * split; [| discriminate]. split; [discriminate |].
        intros H. apply Qle_div_iff, Qle_bool_iff in H; [congruence | exact Hbq].
  - intros H0.
    destruct (OrderBook.bids book) as [| b bs]; [cbn; auto |].
    destruct (OrderBook.asks book) as [| a0 as_]; [cbn; auto |].
    destruct (Z.eqb_spec bid 0); [cbn; auto |]. destruct (Z.eqb_spec ask 0); [cbn; auto |].
    exfalso. destruct H0; contradiction.
Qed.

Lemma sum_volumes_cons v vs : sum_volumes (v :: vs) = (v + sum_volumes vs)%Z.
Proof.
  unfold sum_volumes. cbn [fold_left].
  rewrite (PipelineFacts.sum_volumes_from vs (0 + v)). unfold sum_volumes. lia.
Qed.

Lemma sum_volumes_same v vs :
  Forall (fun x => x = v) vs -> sum_volumes vs = (Z.of_nat (length vs) * v)%Z.
Proof.
  induction 1 as [| x vs Hx Hall IH]; [reflexivity |].
  rewrite sum_volumes_cons, IH, Hx. cbn [length]. lia.
Qed.

(** X17. Levels of one size are layering: a side of the book with at
    least [min_levels] levels, the first [min_levels] of which hold
    the same positive volume, not below [min_volume_per_level], is
    reported by the layering test whatever the uniformity threshold,
    provided [min_levels] is between 1 and 6, the number of levels
    that the test reads. *)
Theorem identical_levels_are_layering f levels v :
  (0 < min_levels f <= 6)%nat ->
  (0 < v)%Z -> (min_volume_per_level f <= v)%Z ->
  (0 <= uniformity_threshold f)%Q ->
  (min_levels f <= length levels)%nat ->
  Forall (fun l => OrderBook.volume l = v) (firstn (min_levels f) levels) ->
  layered f levels = Some true.
Proof.
  intros [Hn0 Hn6] Hv Hmin Hthr Hlen Hall. unfold layered.
  destruct (Nat.leb_spec (min_levels f) (length levels)); [| lia].
  set (head := firstn (min_levels f) (map OrderBook.volume (firstn 6 levels))).
  assert (Hhead : head = map OrderBook.volume (firstn (min_levels f) levels)).
  { subst head. rewrite <- firstn_map, firstn_firstn, firstn_map.
    replace (Nat.min (min_levels f) 6) with (min_levels f) by lia. reflexivity. }
  assert (Hsame : Forall (fun x => x = v) head).
  { rewrite Hhead. apply Forall_map. exact Hall. }
  assert (Hl : length head = min_levels f).
  { rewrite Hhead, length_map, length_firstn. lia. }
  assert (Hmv : forallb (fun vol => (min_volume_per_level f <=? vol)%Z) head = true).
  { apply forallb_forall. intros x Hx. rewrite Forall_forall in Hsame.
    apply list_elem_of_In in Hx. rewrite (Hsame x Hx). apply Z.leb_le. exact Hmin. }
  rewrite Hmv.
  destruct (min_levels f) as [| n] eqn:En; [lia |].
  assert (Havg : (inject_Z (sum_volumes head) / inject_Z (Z.of_nat (S n)) == inject_Z v)%Q).
  { rewrite (sum_volumes_same v head Hsame), Hl, inject_Z_mult. field.
    unfold Qeq, inject_Z. cbn. lia. }
  assert (Hvq : (0 < inject_Z v)%Q) by (unfold Qlt, inject_Z; cbn; lia).
  destruct head as [| x xs] eqn:Eh; [reflexivity |].
  destruct (Qeq_bool _ 0) eqn:E0.
  { apply Qeq_bool_eq in E0. rewrite Havg in E0. lra. }
  f_equal. apply forallb_forall. intros y Hy. rewrite Forall_forall in Hsame.
  apply list_elem_of_In in Hy. rewrite (Hsame y Hy).
  apply Qle_bool_iff. rewrite Havg.
  assert (H0 : (Qabs (inject_Z v - inject_Z v) / inject_Z v == 0)%Q).
  { assert (Hz : (inject_Z v - inject_Z v == 0)%Q) by ring. rewrite Hz.
    change (Qabs 0) with 0%Q. field. lra. }
  rewrite H0. exact Hthr.
Qed.

Definition flat_side : list OrderBook.BookLevel :=
  [{| OrderBook.price := 5000; OrderBook.volume := 200 |};
   {| OrderBook.price := 4999.5; OrderBook.volume := 200 |};
   {| OrderBook.price := 4999; OrderBook.volume := 200 |};
   {| OrderBook.price := 4998.5; OrderBook.volume := 200 |};
   {| OrderBook.price := 4998; OrderBook.volume := 35 |}].

Lemma identical_levels_are_layering_witness :
  layered default flat_side = Some true /\
  _check_layering default {| OrderBook.bids := flat_side; OrderBook.asks := [] |} =
    Some {| detected := true; kind := LAYERING; side := Some BID |}.
Proof.
  assert (H : layered default flat_side = Some true).
  { apply (identical_levels_are_layering default flat_side 200).
    - cbn. lia.
    - lia.
    - cbn. lia.
    - cbn. unfold Qle. cbn. lia.
    - cbn. lia.
    - cbn. repeat constructor. }
  split; [exact H |]. unfold _check_layering. cbn [OrderBook.bids]. rewrite H. reflexivity.
Defined.

End DefensiveFacts.

(** ** The filters of the tape reading pipeline *)

Module FilterFacts.
Import TapeReading.

(** *** Quality *)

Ltac score_cases :=
  repeat match goal with
         | |- context [if ?b then _ else _] => destruct b
         end.

Lemma raw_score_range d :
  let '(s, m) := SignalQualityFilter.raw_score d in
  (0 < m)%Q /\ (0.25 * m <= s)%Q /\ (s <= m)%Q.
Proof.
  unfold SignalQualityFilter.raw_score. score_cases; cbn; repeat split; lra.
Qed.

(** X18. The quality of a candidate is a score between 0.25 and 1,
    whatever the dictionary holds: a filter with a minimum of at most
    0.25 passes every candidate and one with a minimum above 1 passes
    none; a pattern that the filter does not know scores 0.3; and each
    evaluation is counted once, as passed or as filtered. *)
Theorem quality_score_range f d :
  let e := fst (SignalQualityFilter.evaluate_signal_quality f d) in
  let f' := snd (SignalQualityFilter.evaluate_signal_quality f d) in
  (0.25 <= SignalQualityFilter.score e)%Q /\
  (SignalQualityFilter.score e <= 1)%Q /\
  (SignalQualityFilter.passed e = true <->
   (SignalQualityFilter.min_quality_score f <= SignalQualityFilter.score e)%Q) /\
  (RawSignal.pattern d = None -> (SignalQualityFilter.score e == 0.3)%Q) /\
  (SignalQualityFilter.passed_count f' + SignalQualityFilter.filtered_count f'
   = SignalQualityFilter.passed_count f + SignalQualityFilter.filtered_count f + 1)%Z /\
  fst (SignalQualityFilter.should_emit_signal f d) = SignalQualityFilter.passed e.
Proof.
  unfold SignalQualityFilter.should_emit_signal, SignalQualityFilter.evaluate_signal_quality.
  pose proof (raw_score_range d) as Hr.
  assert (Hn : RawSignal.pattern d = None -> SignalQualityFilter.raw_score d = (0.3%Q, 1.0%Q)).
  { intros Hp. unfold SignalQualityFilter.raw_score. rewrite Hp. reflexivity. }
  destruct (SignalQualityFilter.raw_score d) as [s m]. destruct Hr as (Hm & Hlo & Hhi).
  cbn [fst snd SignalQualityFilter.score SignalQualityFilter.passed
       SignalQualityFilter.passed_count SignalQualityFilter.filtered_count].
  apply PyFacts.Qltb_lt in Hm. rewrite Hm. apply PyFacts.Qltb_lt in Hm.
  split; [apply Qle_shift_div_l; [exact Hm | exact Hlo] |].
  split; [apply Qle_shift_div_r; [exact Hm | lra] |].
  split; [apply Qle_bool_iff |].
  split; [intros Hp; specialize (Hn Hp); injection Hn as -> ->; reflexivity |].
  split; [destruct (Qle_bool _ _); lia | reflexivity].
Qed.

(** *** Strength *)

(** X19. The strength that the processor gives a pattern is between 5
    and 10, never below the base 5; it does not decrease when the
    volume of the candidate grows; and it is 10 only for one of the
    four strong patterns with a volume above 2000. *)
Theorem strength_range pattern d :
  (5 <= _calculate_strength pattern d <= 10)%Z /\
  (forall d',
     (default 0%Q (RawSignal.volume d) <= default 0%Q (RawSignal.volume d'))%Q ->
     (_calculate_strength pattern d <= _calculate_strength pattern d')%Z) /\
  (_calculate_strength pattern d = 10%Z ->
   In pattern strong_patterns /\ (2000 < default 0%Q (RawSignal.volume d))%Q).
Proof.
  unfold _calculate_strength.
  set (base := if existsb (String.eqb pattern) strong_patterns then 8%Z
               else if existsb (String.eqb pattern) medium_patterns then 7%Z else 5%Z).
  assert (Hb : (base = 8 /\ In pattern strong_patterns \/ base = 7 \/ base = 5)%Z).
  { subst base. destruct (existsb _ strong_patterns) eqn:E.
    - left. split; [reflexivity |]. apply existsb_exists in E as (x & Hx & Hxe).
      apply String.eqb_eq in Hxe. subst x. exact Hx.
    - destruct (existsb _ medium_patterns); auto. }
  split; [| split].
  - destruct (Py.Qltb 2000 _); [| destruct (Py.Qltb 1000 _)]; lia.
  - intros d' Hle.
    destruct (Py.Qltb 2000 (default 0%Q (RawSignal.volume d))) eqn:E1.
    + apply PyFacts.Qltb_lt in E1.
      assert (E1' : Py.Qltb 2000 (default 0%Q (RawSignal.volume d')) = true)
        by (apply PyFacts.Qltb_lt; lra).
      rewrite E1'. lia.
    + destruct (Py.Qltb 1000 (default 0%Q (RawSignal.volume d))) eqn:E2.
      * apply PyFacts.Qltb_lt in E2.
        assert (E2' : Py.Qltb 1000 (default 0%Q (RawSignal.volume d')) = true)
          by (apply PyFacts.Qltb_lt; lra).
        rewrite E2'. destruct (Py.Qltb 2000 (default 0%Q (RawSignal.volume d'))); lia.
      * destruct (Py.Qltb 2000 (default 0%Q (RawSignal.volume d')));
          [| destruct (Py.Qltb 1000 (default 0%Q (RawSignal.volume d')))]; lia.
  - destruct (Py.Qltb 2000 _) eqn:E1.
    + apply PyFacts.Qltb_lt in E1. intros H. split; [| exact E1].
      destruct Hb as [[_ Hs] | Hb]; [exact Hs | lia].
    + destruct (Py.Qltb 1000 _); intros H; exfalso; lia.
Qed.

(** *** Cooldown *)

Lemma total_insert (m : gmap string Z) k v :
  map_fold (fun _ n acc => (n + acc)%Z) 0%Z (<[k := v]> m)
  = (map_fold (fun _ n acc => (n + acc)%Z) 0%Z m - default 0%Z (m !! k) + v)%Z.
Proof.
  assert (Hc : forall (m' : gmap string Z) (j1 j2 : string) (z1 z2 y : Z),
             j1 <> j2 -> m' !! j1 = Some z1 -> m' !! j2 = Some z2 ->
             (z1 + (z2 + y) = z2 + (z1 + y))%Z) by (intros; lia).
  rewrite <- (insert_delete_eq m k v).
  rewrite map_fold_insert_L; [| apply Hc | apply lookup_delete_eq].
  destruct (m !! k) as [x |] eqn:E.
  - rewrite (map_fold_delete_L _ _ k x m); [cbn; lia | apply Hc | exact E].
  - rewrite delete_id by exact E. cbn. lia.
Qed.

(** X20. The statistics of the cooldown filter: a blocked candidate
    adds one to the count of its key and to [total_blocked] and leaves
    the stamps alone; a candidate that passes adds nothing to the
    counts, and [active_cooldowns] grows by one exactly when its key is
    seen for the first time. *)
Theorem blocked_candidates_are_counted c pattern symbol now :
  let k := PatternCooldown.key pattern symbol in
  let ok := fst (PatternCooldown.can_emit_pattern c pattern symbol now) in
  let c' := snd (PatternCooldown.can_emit_pattern c pattern symbol now) in
  PatternCooldown.total_blocked c' =
    (PatternCooldown.total_blocked c + if ok then 0 else 1)%Z /\
  default 0%Z (PatternCooldown.blocked_count c' !! k) =
    (default 0%Z (PatternCooldown.blocked_count c !! k) + if ok then 0 else 1)%Z /\
  PatternCooldown.active_cooldowns c' =
    (PatternCooldown.active_cooldowns c +
     match PatternCooldown.last_pattern_time c !! k with
     | Some _ => 0
     | None => 1
     end)%nat /\
  (ok = false ->
   PatternCooldown.last_pattern_time c' = PatternCooldown.last_pattern_time c).
Proof.
  cbn zeta. unfold PatternCooldown.can_emit_pattern, PatternCooldown.total_blocked,
    PatternCooldown.active_cooldowns.
  destruct (PatternCooldown.last_pattern_time c !! PatternCooldown.key pattern symbol)
    as [last |] eqn:El.
  - destruct (_ <=? _)%Z; cbn.
    + rewrite map_size_insert_Some by eauto. repeat split; try lia; discriminate.
    + rewrite total_insert, lookup_insert_eq. cbn. repeat split; lia.
  - cbn. rewrite map_size_insert_None by exact El. repeat split; try lia; discriminate.
Qed.

(** X21. The cooldown restarts every day: the filter reads the
    [seconds] field of the time since the stamp, so a candidate that
    comes any whole number of days after the stamp, plus less than
    the cooldown, is blocked like one that comes at once. *)
Theorem cooldown_wraps_daily c pattern symbol last days extra :
  PatternCooldown.last_pattern_time c !! PatternCooldown.key pattern symbol = Some last ->
  (0 <= days)%Z ->
  (0 <= extra < PyTime.of_seconds (PatternCooldown.cooldown_of c pattern))%Z ->
  (extra < PyTime.us_per_day)%Z ->
  fst (PatternCooldown.can_emit_pattern c pattern symbol
         (last + days * PyTime.us_per_day + extra)) = false.
Proof.
  intros Hl Hd He Hday.
  destruct (fst (PatternCooldown.can_emit_pattern c pattern symbol _)) eqn:E; [| reflexivity].
  apply CooldownFacts.can_emit_spec in E. rewrite Hl in E. exfalso.
  unfold PyTime.seconds, PyTime.sub in E.
  replace (last + days * PyTime.us_per_day + extra - last)%Z
    with (extra + days * PyTime.us_per_day)%Z in E by lia.
  rewrite Z_mod_plus_full, Z.mod_small in E by lia.
  unfold PyTime.of_seconds, PyTime.us_per_second in *.
  assert (extra / 1000000 < PatternCooldown.cooldown_of c pattern)%Z
    by (apply Z.div_lt_upper_bound; lia).
  lia.
Qed.

Lemma cooldown_wraps_daily_witness :
  let c := PatternCooldown.stamp (PatternCooldown.init PatternCooldown.default_cooldowns)
             (PatternCooldown.key "ICEBERG" "WDO") (PyTime.hm 10 0) in
  let now := (PyTime.hm 10 0 + 3 * PyTime.us_per_day + PyTime.of_seconds 12)%Z in
  (PyTime.of_seconds (PatternCooldown.cooldown_of c "ICEBERG") <= now - PyTime.hm 10 0)%Z /\
  fst (PatternCooldown.can_emit_pattern c "ICEBERG" "WDO" now) = false.
Proof.
  intros c now. split; [vm_compute; discriminate |].
  subst now.
  apply (cooldown_wraps_daily c "ICEBERG" "WDO" (PyTime.hm 10 0) 3 (PyTime.of_seconds 12)).
  - vm_compute. reflexivity.
  - lia.
  - vm_compute. split; [discriminate | reflexivity].
  - vm_compute. reflexivity.
Defined.

End FilterFacts.

(** ** The counters of the signal processor *)

Module ProcessorFacts.
Import TapeReading.

(** What one step changes in the counters and on the bus: [f], [p], [e]
    and [m] more filtered, published, emitted and manipulation counts,
    and [p + m] more events. *)
Definition counts (st st' : Pipeline) (f p e m : Z) : Prop :=
  let s := stats (processor st) in
  let s' := stats (processor st') in
  (signals_filtered s' = signals_filtered s + f)%Z /\
  (patterns_published_for_confluence s' = patterns_published_for_confluence s + p)%Z /\
  (signals_emitted s' = signals_emitted s + e)%Z /\
  (manipulation_detected s' = manipulation_detected s + m)%Z /\
  (Z.of_nat (length (published (shared st')))
   = Z.of_nat (length (published (shared st))) + p + m)%Z.

Definition bit {A} (o : option A) : Z :=
  match o with
  | Some _ => 1%Z
  | None => 0%Z
  end.

Lemma counts_trans st1 st2 st3 f p e m f' p' e' m' :
  counts st1 st2 f p e m -> counts st2 st3 f' p' e' m' ->
  counts st1 st3 (f + f') (p + p') (e + e') (m + m').
Proof. unfold counts. cbn zeta. intros (?&?&?&?&?) (?&?&?&?&?). repeat split; lia. Qed.

Lemma candidate_counts st d now out st' :
  process_candidate st d now = Some (out, st') ->
  exists m, (m = 0 \/ m = 1 /\ out = None)%Z /\
            counts st st' 0 1 (bit out) m /\
            quality_filter (processor st') = quality_filter (processor st) /\
            (forall s, out = Some s -> Signal.source s = Signal.TAPE_READING).
Proof.
  unfold process_candidate.
  destruct (match confirmation st with
            | Some s => requires_confirmation s _
            | None => false
            end).
  - destruct (confirmation st) as [s |]; [| discriminate].
    destruct (add_pending_pattern s _ _ _ now); [| discriminate].
    intros [= <- <-]. exists 0%Z. unfold counts. cbn. rewrite length_app. cbn.
    repeat split; auto; try lia. discriminate.
  - destruct (PatternCooldown.can_emit_pattern _ _ _ now) as [ok cd].
    destruct ok; cbn [negb].
    + destruct (SignalFormatter.format _ _) as [signal raw] eqn:Ef.
      assert (Hsrc : Signal.source signal = Signal.TAPE_READING).
      { unfold SignalFormatter.format in Ef. injection Ef as <- _. reflexivity. }
      unfold recent_trades. destruct (TradeMemoryCache.recent _ _ 50) as [l c].
      destruct (DefensiveSignalFilter.is_signal_safe _ _) as [[safe info] |]; [| discriminate].
      destruct safe; intros [= <- <-].
      * exists 0%Z. unfold counts. cbn. rewrite length_app. cbn.
        repeat split; auto; try lia. intros s [= <-]. exact Hsrc.
      * exists 1%Z. unfold counts. cbn. rewrite !length_app. cbn.
        repeat split; auto; try lia. discriminate.
    + intros [= <- <-]. exists 0%Z. unfold counts. cbn. rewrite length_app. cbn.
      repeat split; auto; try lia. discriminate.
Qed.

Lemma candidates_counts l : forall st now out st',
  candidates_loop st l now = Some (out, st') ->
  exists m, (0 <= m)%Z /\ (Z.of_nat (length out) + m <= Z.of_nat (length l))%Z /\
            counts st st' 0 (Z.of_nat (length l)) (Z.of_nat (length out)) m /\
            quality_filter (processor st') = quality_filter (processor st) /\
            Forall (fun s => Signal.source s = Signal.TAPE_READING) out.
Proof.
  induction l as [| d l IH]; intros st now out st'; cbn [candidates_loop].
  - intros [= <- <-]. exists 0%Z. unfold counts. cbn. repeat split; auto; try lia.
  - destruct (process_candidate st d now) as [[o st1] |] eqn:E1; [| discriminate].
    destruct (candidates_loop st1 l now) as [[outs st2] |] eqn:E2; [| discriminate].
    intros [= <- <-].
    destruct (candidate_counts _ _ _ _ _ E1) as (m1 & Hm1 & Hc1 & Hq1 & Hs1).
    destruct (IH _ _ _ _ E2) as (m2 & Hm2 & Hl2 & Hc2 & Hq2 & Hs2).
    exists (m1 + m2)%Z.
    pose proof (counts_trans _ _ _ _ _ _ _ _ _ _ _ Hc1 Hc2) as Hc.
    split; [lia |]. split; [destruct o; cbn [length]; destruct Hm1 as [-> | [-> ?]]; try discriminate; lia |].
    split.
    + replace (Z.of_nat (length (d :: l))) with (1 + Z.of_nat (length l))%Z by (cbn [length]; lia).
      replace (Z.of_nat (length match o with Some s => s :: outs | None => outs end))
        with (bit o + Z.of_nat (length outs))%Z
        by (destruct o; cbn [length bit]; lia).
      exact Hc.
    + split; [congruence |]. destruct o; [constructor; auto | exact Hs2].
Qed.

Lemma quality_counts raws : forall p,
  let '(kept, p') := quality_loop p raws in
  (signals_filtered (stats p') =
     signals_filtered (stats p) + Z.of_nat (length raws) - Z.of_nat (length kept))%Z /\
  (length kept <= length raws)%nat /\
  patterns_published_for_confluence (stats p') = patterns_published_for_confluence (stats p) /\
  signals_emitted (stats p') = signals_emitted (stats p) /\
  manipulation_detected (stats p') = manipulation_detected (stats p) /\
  (SignalQualityFilter.passed_count (quality_filter p') =
     SignalQualityFilter.passed_count (quality_filter p) + Z.of_nat (length kept))%Z /\
  current_books p' = current_books p.
Proof.
  induction raws as [| d raws IH]; intros p; cbn [quality_loop].
  - cbn. repeat split; lia.
  - destruct (SignalQualityFilter.evaluate_signal_quality (quality_filter p) d) as [e qf] eqn:Ee.
    assert (Hqf : SignalQualityFilter.passed_count qf =
                  (SignalQualityFilter.passed_count (quality_filter p)
                   + if SignalQualityFilter.passed e then 1 else 0)%Z).
    { unfold SignalQualityFilter.evaluate_signal_quality in Ee.
      destruct (SignalQualityFilter.raw_score d) as [s m]. injection Ee as <- <-. cbn.
      destruct (Qle_bool _ _); lia. }
    match goal with |- context [quality_loop ?q raws] => specialize (IH q) end.
    destruct (quality_loop _ raws) as [kept p2].
    destruct IH as (H1 & H2 & H3 & H4 & H5 & H6 & H7).
    destruct (SignalQualityFilter.passed e); cbn in H1, H3, H4, H5, H6, H7;
      rewrite H1, H3, H4, H5, H6, H7, Hqf; cbn [length]; repeat split; lia.
Qed.

(** X22. The counters of a batch in [process_raw_signals]: each
    candidate is counted once, as filtered by quality or as published
    for the confluence; the signals returned are those counted as
    emitted, they are TAPE_READING signals, and together with the
    manipulations they are no more than the candidates that passed the
    quality filter; the bus receives one PATTERN_DETECTED for each such
    candidate and one further event for each manipulation. *)
Theorem batch_counters st raws now out st' :
  process_raw_signals st raws now = Some (out, st') ->
  let s := stats (processor st) in
  let s' := stats (processor st') in
  let passed := (patterns_published_for_confluence s'
                 - patterns_published_for_confluence s)%Z in
  let manipulations := (manipulation_detected s' - manipulation_detected s)%Z in
  (signals_filtered s' - signals_filtered s + passed = Z.of_nat (length raws))%Z /\
  (signals_emitted s' - signals_emitted s = Z.of_nat (length out))%Z /\
  (0 <= manipulations)%Z /\
  (Z.of_nat (length out) + manipulations <= passed)%Z /\
  (SignalQualityFilter.passed_count (quality_filter (processor st'))
   - SignalQualityFilter.passed_count (quality_filter (processor st)) = passed)%Z /\
  (Z.of_nat (length (published (shared st')))
   = Z.of_nat (length (published (shared st))) + passed + manipulations)%Z /\
  Forall (fun sig => Signal.source sig = Signal.TAPE_READING) out.
Proof.
  unfold process_raw_signals.
  pose proof (quality_counts raws (processor st)) as Hq.
  destruct (quality_loop (processor st) raws) as [kept p].
  destruct Hq as (H1 & H2 & H3 & H4 & H5 & H6 & _).
  intros Hc. destruct (candidates_counts _ _ _ _ _ Hc) as (m & Hm & Hl & Hcnt & Hqf & Hsrc).
  destruct Hcnt as (C1 & C2 & C3 & C4 & C5). cbn in C1, C2, C3, C4, C5, Hqf.
  cbn zeta. rewrite Hqf. repeat split; try lia. exact Hsrc.
Qed.

Lemma batch_counters_witness :
  let r := process_raw_signals PipelineFacts.layered_pipeline
             [PipelineFacts.pressure; PipelineFacts.blank] (PyTime.hm 10 30) in
  match r with
  | Some (out, st') =>
      out = [] /\
      signals_filtered (stats (processor st')) = 1%Z /\
      manipulation_detected (stats (processor st')) = 1%Z /\
      length (published (shared st')) = 2%nat
  | None => False
  end.
Proof.
  cbn zeta.
  destruct (process_raw_signals PipelineFacts.layered_pipeline
              [PipelineFacts.pressure; PipelineFacts.blank] (PyTime.hm 10 30))
    as [[out st'] |] eqn:E.
  - pose proof (batch_counters _ _ _ _ _ E) as (H1 & H2 & H3 & H4 & H5 & H6 & _).
    assert (Hf : signals_filtered (stats (processor st')) = 1%Z).
    { assert (Hx : option_map (fun r => signals_filtered (stats (processor (snd r))))
                     (process_raw_signals PipelineFacts.layered_pipeline
                        [PipelineFacts.pressure; PipelineFacts.blank] (PyTime.hm 10 30))
                   = Some 1%Z) by (vm_compute; reflexivity).
      rewrite E in Hx. cbn in Hx. injection Hx as Hx. exact Hx. }
    assert (Hm : manipulation_detected (stats (processor st')) = 1%Z).
    { assert (Hx : option_map (fun r => manipulation_detected (stats (processor (snd r))))
                     (process_raw_signals PipelineFacts.layered_pipeline
                        [PipelineFacts.pressure; PipelineFacts.blank] (PyTime.hm 10 30))
                   = Some 1%Z) by (vm_compute; reflexivity).
      rewrite E in Hx. cbn in Hx. injection Hx as Hx. exact Hx. }
    cbn in H1, H2, H3, H4, H5, H6.
    split; [destruct out; [reflexivity | cbn [length] in *; lia] |].
    split; [exact Hf |]. split; [exact Hm |]. lia.
  - vm_compute in E. discriminate E.
Defined.

End ProcessorFacts.

(** ** The frequency limit along a run of the risk manager *)

Module FrequencyFacts.
Import RiskTypes.

(** The signals handed to [evaluate_signal], each at its time; the
    times of the approvals, oldest first, and the manager afterwards. *)
Fixpoint evaluations (m : RiskManager.t) (l : list (Signal.t * PyTime.datetime))
  : list PyTime.datetime * RiskManager.t :=
  match l with
  | [] => ([], m)
  | (signal, now) :: rest =>
      let '(ok, _, m1) := RiskManager.evaluate_signal m signal now in
      let '(times, m2) := evaluations m1 rest in
      (if ok then now :: times else times, m2)
  end.

(** The calls come in the order of their times, none before [from]. *)
Fixpoint in_order (from : PyTime.datetime) (l : list (Signal.t * PyTime.datetime)) : Prop :=
  match l with
  | [] => True
  | (_, now) :: rest => (from <= now)%Z /\ in_order now rest
  end.

(** Before each time of the list, fewer than [limit] of the earlier
    ones fall in the [window] that ends there. *)
Definition spaced (limit : Z) (window : Z) (times : list PyTime.datetime) : Prop :=
  forall pre t post,
    times = pre ++ t :: post ->
    (RiskMetricsTracker.count_after (t - window) pre < limit)%Z.

Definition sorted_upto (T : PyTime.datetime) (l : list PyTime.datetime) : Prop :=
  Forall (fun x => (x <= T)%Z) l /\
  forall pre x post, l = pre ++ x :: post -> Forall (fun y => (y <= x)%Z) pre.

Lemma count_after_app cut l1 l2 :
  RiskMetricsTracker.count_after cut (l1 ++ l2) =
    (RiskMetricsTracker.count_after cut l1 + RiskMetricsTracker.count_after cut l2)%Z.
Proof.
  unfold RiskMetricsTracker.count_after. rewrite List.filter_app, length_app. lia.
Qed.

Lemma count_after_le cut l :
  (0 <= RiskMetricsTracker.count_after cut l <= Z.of_nat (length l))%Z.
Proof.
  unfold RiskMetricsTracker.count_after.
  pose proof (List.filter_length_le (fun t => (cut <? t)%Z) l). lia.
Qed.

Lemma count_after_none cut l :
  Forall (fun y => (y <= cut)%Z) l -> RiskMetricsTracker.count_after cut l = 0%Z.
Proof.
  unfold RiskMetricsTracker.count_after. induction 1 as [| y l Hy Hl IH]; cbn; [reflexivity |].
  destruct (Z.ltb_spec cut y); [lia | exact IH].
Qed.

Lemma count_after_all cut l :
  RiskMetricsTracker.count_after cut l = Z.of_nat (length l) \/
  exists pre x post, l = pre ++ x :: post /\ (x <= cut)%Z.
Proof.
  induction l as [| y l IH].
  - left. reflexivity.
  - destruct (Z.ltb_spec cut y) as [Hlt | Hge].
    + destruct IH as [IH | (pre & x & post & -> & Hx)].
      * left. unfold RiskMetricsTracker.count_after in *. cbn.
        apply Z.ltb_lt in Hlt. rewrite Hlt. cbn [length]. lia.
      * right. exists (y :: pre), x, post. split; [reflexivity | exact Hx].
    + right. exists [], y, l. split; [reflexivity | exact Hge].
Qed.

(** In a sorted list, a suffix that is not wholly after the cut holds
    every element after the cut. *)
Lemma count_after_suffix T cut l k :
  sorted_upto T l ->
  (RiskMetricsTracker.count_after cut (skipn k l) < Z.of_nat (length (skipn k l)))%Z ->
  RiskMetricsTracker.count_after cut l = RiskMetricsTracker.count_after cut (skipn k l).
Proof.
  intros [_ Hs] Hlt.
  rewrite <- (firstn_skipn k l) at 1. rewrite count_after_app.
  destruct (count_after_all cut (skipn k l)) as [Hall | (pre & x & post & Hsplit & Hx)]; [lia |].
  assert (Hl : l = (firstn k l ++ pre) ++ x :: post).
  { rewrite <- app_assoc, <- Hsplit. symmetry. apply firstn_skipn. }
  specialize (Hs _ _ _ Hl). rewrite Forall_app in Hs. destruct Hs as [Hs _].
  rewrite count_after_none; [lia |].
  eapply Forall_impl; [exact Hs |]. cbn. intros y Hy. lia.
Qed.

Lemma sorted_snoc T l now :
  sorted_upto T l -> (T <= now)%Z -> sorted_upto now (l ++ [now]).
Proof.
  intros [Hb Hs] Hle. split.
  - apply Forall_app. split; [eapply Forall_impl; [exact Hb |]; cbn; intros; lia |].
    constructor; [lia | constructor].
  - intros pre x post Heq.
    destruct post as [| y post] using rev_ind.
    + apply app_inj_tail in Heq as [<- <-].
      eapply Forall_impl; [exact Hb |]. cbn. intros; lia.
    + clear IHpost. rewrite app_comm_cons, app_assoc in Heq.
      apply app_inj_tail in Heq as [Heq _]. exact (Hs _ _ _ Heq).
Qed.

Lemma sorted_weaken T T' l : sorted_upto T l -> (T <= T')%Z -> sorted_upto T' l.
Proof.
  intros [Hb Hs] Hle. split; [| exact Hs].
  eapply Forall_impl; [exact Hb |]. cbn. intros; lia.
Qed.

Lemma spaced_snoc limit window l now :
  spaced limit window l ->
  (RiskMetricsTracker.count_after (now - window) l < limit)%Z ->
  spaced limit window (l ++ [now]).
Proof.
  intros Hs Hc pre t post Heq.
  destruct post as [| y post] using rev_ind.
  - apply app_inj_tail in Heq as [<- <-]. exact Hc.
  - clear IHpost. rewrite app_comm_cons, app_assoc in Heq.
    apply app_inj_tail in Heq as [Heq _]. exact (Hs _ _ _ Heq).
Qed.

Lemma drop_snoc {A} (l : list A) x k :
  (k < length l)%nat -> skipn (S k) (l ++ [x]) = skipn 1 (skipn k l ++ [x]).
Proof.
  intros Hk. rewrite !skipn_app, length_skipn, skipn_skipn.
  replace (S k - length l)%nat with 0%nat by lia.
  replace (1 - (length l - k))%nat with 0%nat by lia.
  reflexivity.
Qed.

(** The state of a run: [seen] are the approvals so far, of which the
    tracker holds the last 500. *)
Definition tracks (m0 m : RiskManager.t) (T : PyTime.datetime) (seen : list PyTime.datetime)
  : Prop :=
  RiskManager.adaptive_system m = RiskManager.adaptive_system m0 /\
  RiskMetricsTracker.ts_all (RiskManager.metrics_tracker m) = skipn (length seen - 500) seen /\
  sorted_upto T seen.

Lemma evaluations_spaced l : forall m0 m T seen times m',
  let limit := AdaptiveRiskSystem.max_signals_per_minute
                 (AdaptiveRiskSystem.current_limits (RiskManager.adaptive_system m0)) in
  (limit <= 500)%Z ->
  tracks m0 m T seen ->
  spaced limit (PyTime.of_seconds 60) seen ->
  in_order T l ->
  evaluations m l = (times, m') ->
  spaced limit (PyTime.of_seconds 60) (seen ++ times).
Proof.
  induction l as [| [signal now] l IH]; intros m0 m T seen times m' limit Hlim Htr Hsp Hord;
    cbn [evaluations].
  - intros [= <- <-]. rewrite app_nil_r. exact Hsp.
  - destruct Hord as [Hle Hord].
    pose proof (ManagerFacts.evaluate_signal_effects m signal now) as Heff.
    destruct (RiskManager.evaluate_signal m signal now) as [[ok a] m1] eqn:Ev.
    destruct (evaluations m1 l) as [times2 m2] eqn:Er. intros [= <- <-].
    destruct Htr as (Had & Hts & Hso).
    destruct Heff as (_ & Had1 & _ & Hyes & Hno).
    destruct ok.
    + destruct (Hyes eq_refl) as (_ & Hk & _).
      pose proof (ManagerFacts.approval_limits m signal now a m1 Ev) as (_ & Hmin & _).
      rewrite Had in Hmin. fold limit in Hmin. rewrite Hts in Hmin.
      assert (Hcount : (RiskMetricsTracker.count_after (now - PyTime.of_seconds 60) seen
                        < limit)%Z).
      { destruct (Nat.le_gt_cases (length seen) 500) as [Hsmall | Hbig].
        - replace (length seen - 500)%nat with 0%nat in Hmin by lia. exact Hmin.
        - rewrite (count_after_suffix T _ seen (length seen - 500) Hso); [exact Hmin |].
          rewrite length_skipn. lia. }
      replace (seen ++ now :: times2) with ((seen ++ [now]) ++ times2)
        by (rewrite <- app_assoc; reflexivity).
      apply (IH m0 m1 now (seen ++ [now]) times2 m2 Hlim); [| | exact Hord | exact Er].
      * split; [congruence |]. split; [| apply (sorted_snoc T); assumption].
        rewrite Hk. cbn [RiskMetricsTracker.record_signal_approval RiskMetricsTracker.ts_all].
        rewrite CacheFacts.append_skipn by (rewrite Hts, length_skipn; lia).
        rewrite Hts, length_skipn, length_app. cbn [length].
        destruct (Nat.le_gt_cases (length seen) 500) as [Hsmall | Hbig].
        -- replace (length seen - 500)%nat with 0%nat by lia. cbn [skipn].
           f_equal. lia.
        -- replace (length seen - (length seen - 500) + 1 - 500)%nat with 1%nat by lia.
           replace (length seen + 1 - 500)%nat with (S (length seen - 500)) by lia.
           symmetry. apply drop_snoc. lia.
      * apply spaced_snoc; assumption.
    + destruct (Hno eq_refl) as (_ & Hk & _).
      apply (IH m0 m1 now seen times2 m2 Hlim); [| exact Hsp | exact Hord | exact Er].
      split; [congruence |]. split; [rewrite Hk; exact Hts |].
      apply (sorted_weaken T); assumption.
Qed.

(** X23. The limit of signals per minute holds along a run: when a
    manager that has approved nothing yet evaluates signals in the
    order of their times, each approval finds fewer than
    [max_signals_per_minute] earlier approvals in the 60 seconds before
    it, so that no 60 seconds hold more approvals than the limit in
    force.  The tracker remembers the last 500 approvals, and the
    limit is taken to be at most that. *)
Theorem approvals_per_minute m l T times m' :
  RiskMetricsTracker.ts_all (RiskManager.metrics_tracker m) = [] ->
  (AdaptiveRiskSystem.max_signals_per_minute
     (AdaptiveRiskSystem.current_limits (RiskManager.adaptive_system m)) <= 500)%Z ->
  in_order T l ->
  evaluations m l = (times, m') ->
  spaced (AdaptiveRiskSystem.max_signals_per_minute
            (AdaptiveRiskSystem.current_limits (RiskManager.adaptive_system m)))
         (PyTime.of_seconds 60) times.
Proof.
  intros Hts Hlim Hord Hev.
  apply (evaluations_spaced l m m T [] times m' Hlim); [| | exact Hord | exact Hev].
  - split; [reflexivity |]. split; [exact Hts |]. split; [constructor |].
    intros pre x post Heq. destruct pre; discriminate Heq.
  - intros pre t post Heq. destruct pre; discriminate Heq.
Qed.

(** A manager that allows two signals per minute, and four signals
    within 75 seconds. *)
Definition two_per_minute : RiskManager.t :=
  RiskManager.init
    (AdaptiveRiskSystem.pre_init
       {| AdaptiveRiskSystem.cfg_max_signals_per_minute := 2;
          AdaptiveRiskSystem.cfg_max_signals_per_hour := 100;
          AdaptiveRiskSystem.cfg_max_confluence_per_hour := 20;
          AdaptiveRiskSystem.cfg_max_concurrent_signals := 5;
          AdaptiveRiskSystem.cfg_signal_timeout := 60;
          AdaptiveRiskSystem.cfg_signal_quality_threshold := 0.35 |}).

Definition four_calls : list (Signal.t * PyTime.datetime) :=
  [(RiskFacts.a_signal, PyTime.hm 11 0);
   (RiskFacts.a_signal, (PyTime.hm 11 0 + PyTime.of_seconds 10)%Z);
   (RiskFacts.a_signal, (PyTime.hm 11 0 + PyTime.of_seconds 20)%Z);
   (RiskFacts.a_signal, (PyTime.hm 11 0 + PyTime.of_seconds 75)%Z)].

Lemma approvals_per_minute_witness :
  fst (evaluations two_per_minute four_calls) =
    [PyTime.hm 11 0; (PyTime.hm 11 0 + PyTime.of_seconds 10)%Z;
     (PyTime.hm 11 0 + PyTime.of_seconds 75)%Z] /\
  spaced (AdaptiveRiskSystem.max_signals_per_minute
            (AdaptiveRiskSystem.current_limits (RiskManager.adaptive_system two_per_minute)))
         (PyTime.of_seconds 60) (fst (evaluations two_per_minute four_calls)).
Proof.
  split; [vm_compute; reflexivity |].
  destruct (evaluations two_per_minute four_calls) as [times m'] eqn:E. cbn [fst].
  apply (approvals_per_minute two_per_minute four_calls (PyTime.hm 11 0) times m').
  - reflexivity.
  - vm_compute. discriminate.
  - cbn. unfold PyTime.of_seconds, PyTime.us_per_second. lia.
  - exact E.
Defined.

End FrequencyFacts.

(** ** The limits that the regimes leave in force *)

Module LimitFacts.
Import AdaptiveRiskSystem.

Lemma int_bounds x :
  (0 <= x)%Q ->
  (0 <= Py.int x)%Z /\ (inject_Z (Py.int x) <= x)%Q /\ (x < inject_Z (Py.int x) + 1)%Q.
Proof.
  destruct x as [n d]. unfold Qle, Qlt, Py.int, inject_Z, Qplus. cbn. intros Hn.
  rewrite Z.quot_div_nonneg by lia.
  pose proof (Z.mul_div_le n (Z.pos d) ltac:(lia)).
  pose proof (Z.mul_succ_div_gt n (Z.pos d) ltac:(lia)).
  split; [apply Z.div_pos; lia |]. split; nia.
Qed.

Lemma scale_le (b f lo hi : Q) :
  (0 <= b)%Q -> (lo <= f)%Q -> (f <= hi)%Q -> (lo * b <= b * f)%Q /\ (b * f <= hi * b)%Q.
Proof.
  intros Hb Hlo Hhi.
  assert (H1 : (0 <= b * (f - lo))%Q) by (apply Qmult_le_0_compat; lra).
  assert (H2 : (0 <= b * (hi - f))%Q) by (apply Qmult_le_0_compat; lra).
  assert (E1 : (b * (f - lo) == b * f - lo * b)%Q) by ring.
  assert (E2 : (b * (hi - f) == hi * b - b * f)%Q) by ring.
  rewrite E1 in H1. rewrite E2 in H2. split; lra.
Qed.

(** A limit [l] computed from the base [b] by a factor between 0.3 and
    2: not negative, at most twice the base, and more than three
    tenths of the base less one. *)
Definition scaled (b l : Z) : Prop :=
  (0 <= l)%Z /\ (l <= 2 * b)%Z /\ (3 * b - 10 < 10 * l)%Z.

Lemma int_scaled b f : (0 <= b)%Z -> in_bounds f -> scaled b (Py.int (inject_Z b * f)).
Proof.
  intros Hb [Hlo Hhi].
  assert (Hbq : (0 <= inject_Z b)%Q) by (unfold Qle, inject_Z; cbn; lia).
  assert (Hx : (0 <= inject_Z b * f)%Q) by (apply Qmult_le_0_compat; lra).
  destruct (int_bounds _ Hx) as (H0 & H1 & H2).
  set (l := Py.int (inject_Z b * f)) in *.
  destruct (scale_le (inject_Z b) f 0.3 2.0 Hbq Hlo Hhi) as [H3 H4].
  assert (Hup : (inject_Z l <= inject_Z (2 * b))%Q).
  { rewrite inject_Z_mult. change (inject_Z 2) with 2%Q. lra. }
  assert (Hlow : (inject_Z (3 * b) < inject_Z (10 * l + 10))%Q).
  { rewrite inject_Z_plus, !inject_Z_mult.
    change (inject_Z 3) with 3%Q. change (inject_Z 10) with 10%Q. lra. }
  rewrite <- Zle_Qle in Hup. rewrite <- Zlt_Qlt in Hlow.
  split; [exact H0 | split; [assumption | lia]].
Qed.

Definition limits_ok (s : t) : Prop :=
  let l := current_limits s in
  scaled (base_max_signals_per_minute s) (max_signals_per_minute l) /\
  scaled (base_max_signals_per_hour s) (max_signals_per_hour l) /\
  scaled (base_max_confluence_per_hour s) (max_confluence_per_hour l) /\
  scaled (base_signal_timeout s) (signal_timeout l) /\
  (max_concurrent_signals l <= Z.max 1 (2 * base_max_concurrent_signals s))%Z /\
  (lim_quality_threshold l <= 2 * base_quality_threshold s)%Q /\
  (Py.min 0.9 (0.3 * base_quality_threshold s) <= lim_quality_threshold l)%Q.

Definition bases_ok (s : t) : Prop :=
  (0 <= base_max_signals_per_minute s)%Z /\ (0 <= base_max_signals_per_hour s)%Z /\
  (0 <= base_max_confluence_per_hour s)%Z /\ (0 <= base_max_concurrent_signals s)%Z /\
  (0 <= base_signal_timeout s)%Z /\ (0 <= base_quality_threshold s)%Q.

Definition same_bases (s s' : t) : Prop :=
  base_max_signals_per_minute s' = base_max_signals_per_minute s /\
  base_max_signals_per_hour s' = base_max_signals_per_hour s /\
  base_max_confluence_per_hour s' = base_max_confluence_per_hour s /\
  base_max_concurrent_signals s' = base_max_concurrent_signals s /\
  base_signal_timeout s' = base_signal_timeout s /\
  base_quality_threshold s' = base_quality_threshold s.

Lemma apply_limits_ok s :
  bases_ok s -> factors_in_bounds (regime_adjustment_factors s) ->
  limits_ok (_apply_regime_adjustments s).
Proof.
  intros (B1 & B2 & B3 & B4 & B5 & B6) (F1 & F2 & F3 & F4 & _).
  unfold limits_ok. cbn.
  split; [apply int_scaled; assumption |]. split; [apply int_scaled; assumption |].
  split; [apply int_scaled; assumption |]. split; [apply int_scaled; assumption |].
  destruct (int_scaled _ _ B4 F3) as (_ & Hc & _).
  split; [lia |]. destruct F2 as [Flo Fhi].
  destruct (scale_le (base_quality_threshold s)
              (quality_threshold (regime_adjustment_factors s)) 0.3 2.0 B6 Flo Fhi) as [Hq3 Hq2].
  split.
  - eapply Qle_trans; [apply PyFacts.min_le_r | lra].
  - apply PyFacts.min_glb.
    + apply PyFacts.min_le_l.
    + eapply Qle_trans; [apply PyFacts.min_le_r | exact Hq3].
Qed.

Lemma calculate_bases s s' :
  _calculate_regime_adjustments s = Some s' ->
  same_bases s s' /\ current_limits s' = current_limits s.
Proof.
  unfold _calculate_regime_adjustments.
  destruct (Dict.get "WDO" _); [| discriminate]. destruct (Dict.get "DOL" _); [| discriminate].
  intros [= <-]. unfold same_bases. cbn. repeat split.
Qed.

Lemma update_limits_ok s symbol r s' ch :
  AdaptiveFacts.regime_inv s -> bases_ok s -> limits_ok s ->
  update_market_regime s symbol r = Some (s', ch) ->
  bases_ok s' /\ limits_ok s' /\ same_bases s s'.
Proof.
  intros Hinv Hb Hl. unfold update_market_regime.
  destruct (match Dict.get symbol (current_market_regime s) with
            | Some o => regime_eqb o r
            | None => false
            end).
  - intros [= <- <-]. unfold same_bases. auto 10.
  - destruct Hinv as (Hw & Hd & _).
    destruct (AdaptiveFacts.calculate_total (set_regime s symbol r)) as (s1 & H1 & _ & Hf).
    { cbn. apply PyFacts.get_set_is_Some. exact Hw. }
    { cbn. apply PyFacts.get_set_is_Some. exact Hd. }
    rewrite H1. intros [= <- <-].
    destruct (calculate_bases _ _ H1) as [(E1 & E2 & E3 & E4 & E5 & E6) _]. cbn in *.
    assert (Hb1 : bases_ok s1).
    { unfold bases_ok. rewrite E1, E2, E3, E4, E5, E6. exact Hb. }
    split; [exact Hb1 |]. split; [apply apply_limits_ok; assumption |].
    unfold same_bases. cbn. auto 10.
Qed.

Lemma Qle_half_double (q : Q) : (0 <= q)%Q -> (q <= 2 * q)%Q.
Proof. intros H. lra. Qed.

(** X24. With a configuration without negative values, after the
    construction and any regime updates each frequency limit and the
    signal timeout in force is not negative, at most twice its
    configured value and more than three tenths of it less one; the
    limit of concurrent signals is at most twice its configured value
    (or 1); and the quality threshold in force is at most twice the
    configured one and at least the smaller of 0.9 and three tenths of
    it. *)
Theorem limits_within_regime_bounds c us :
  (0 <= cfg_max_signals_per_minute c)%Z -> (0 <= cfg_max_signals_per_hour c)%Z ->
  (0 <= cfg_max_confluence_per_hour c)%Z -> (0 <= cfg_max_concurrent_signals c)%Z ->
  (0 <= cfg_signal_timeout c)%Z -> (0 <= cfg_signal_quality_threshold c)%Q ->
  exists s,
    run c us = Some s /\
    let l := current_limits s in
    scaled (cfg_max_signals_per_minute c) (max_signals_per_minute l) /\
    scaled (cfg_max_signals_per_hour c) (max_signals_per_hour l) /\
    scaled (cfg_max_confluence_per_hour c) (max_confluence_per_hour l) /\
    scaled (cfg_signal_timeout c) (signal_timeout l) /\
    (max_concurrent_signals l <= Z.max 1 (2 * cfg_max_concurrent_signals c))%Z /\
    (lim_quality_threshold l <= 2 * cfg_signal_quality_threshold c)%Q /\
    (Py.min 0.9 (0.3 * cfg_signal_quality_threshold c) <= lim_quality_threshold l)%Q.
Proof.
  intros C1 C2 C3 C4 C5 C6. unfold run.
  destruct (AdaptiveFacts.init_inv c) as (s0 & H0 & Hinv0). rewrite H0.
  destruct (calculate_bases _ _ H0) as [Hsame0 Hlim0].
  assert (Hb0 : bases_ok s0).
  { destruct Hsame0 as (E1 & E2 & E3 & E4 & E5 & E6).
    unfold bases_ok. rewrite E1, E2, E3, E4, E5, E6. cbn. auto 10. }
  assert (Hl0 : limits_ok s0).
  { destruct Hsame0 as (E1 & E2 & E3 & E4 & E5 & E6).
    unfold limits_ok. rewrite Hlim0, E1, E2, E3, E4, E5, E6. cbn.
    unfold scaled. repeat split; try lia.
    - apply Qle_half_double. exact C6.
    - eapply Qle_trans; [apply PyFacts.min_le_r |]. lra. }
  assert (Hgen : forall us s, AdaptiveFacts.regime_inv s -> bases_ok s -> limits_ok s ->
                   exists s', updates s us = Some s' /\ limits_ok s' /\ same_bases s s').
  { clear. induction us as [| [symbol r] rest IH]; intros s Hinv Hb Hl; cbn [updates].
    - exists s. unfold same_bases. auto 10.
    - destruct (AdaptiveFacts.update_inv s symbol r Hinv) as (s1 & ch & H1 & Hinv1).
      rewrite H1. destruct (update_limits_ok _ _ _ _ _ Hinv Hb Hl H1) as (Hb1 & Hl1 & Hs1).
      destruct (IH s1 Hinv1 Hb1 Hl1) as (s' & Hu & Hl' & Hs').
      exists s'. split; [exact Hu |]. split; [exact Hl' |].
      destruct Hs1 as (A1 & A2 & A3 & A4 & A5 & A6).
      destruct Hs' as (D1 & D2 & D3 & D4 & D5 & D6).
      unfold same_bases. repeat split; congruence. }
  destruct (Hgen us s0 Hinv0 Hb0 Hl0) as (s & Hu & Hl & Hs).
  exists s. split; [exact Hu |].
  destruct Hsame0 as (E1 & E2 & E3 & E4 & E5 & E6).
  destruct Hs as (D1 & D2 & D3 & D4 & D5 & D6).
  unfold limits_ok in Hl. rewrite D1, D2, D3, D4, D5, D6, E1, E2, E3, E4, E5, E6 in Hl.
  exact Hl.
Qed.

Lemma limits_within_regime_bounds_witness :
  exists s,
    run default_config [("WDO"%string, QUIET); ("DOL"%string, QUIET)] = Some s /\
    max_signals_per_minute (current_limits s) = 3%Z /\
    scaled 10 (max_signals_per_minute (current_limits s)).
Proof.
  destruct (limits_within_regime_bounds default_config
              [("WDO"%string, QUIET); ("DOL"%string, QUIET)])
    as (s & Hr & Hm & _); try (cbn; lia); try (cbn; unfold Qle; cbn; lia).
  exists s. split; [exact Hr |]. split; [| exact Hm].
  assert (Hx : option_map (fun s => max_signals_per_minute (current_limits s))
                 (run default_config [("WDO"%string, QUIET); ("DOL"%string, QUIET)])
               = Some 3%Z) by (vm_compute; reflexivity).
  rewrite Hr in Hx. cbn in Hx. injection Hx as Hx. exact Hx.
Defined.

End LimitFacts.

(** ** The levels of the calculated market *)

Module LevelFacts.
Import CalculatedMarketAnalyzer LevelCalculator.

Lemma round_half_even_near x :
  (Qfloor x <= round_half_even x <= Qfloor x + 1)%Z.
Proof.
  unfold round_half_even. destruct (Py.Qltb _ _); [lia |].
  destruct (Py.Qltb _ _); [lia |]. destruct (Z.even _); lia.
Qed.

Lemma round_half_even_mono x y : (x <= y)%Q -> (round_half_even x <= round_half_even y)%Z.
Proof.
  intros Hxy. pose proof (Qfloor_resp_le _ _ Hxy) as Hf.
  pose proof (round_half_even_near x) as Hx. pose proof (round_half_even_near y) as Hy.
  destruct (Z.eq_dec (Qfloor x) (Qfloor y)) as [Heq | Hne]; [| lia].
  unfold round_half_even in *. rewrite Heq in *.
  set (f := Qfloor y) in *.
  destruct (Py.Qltb (y - inject_Z f) (1 # 2)) eqn:Ey1.
  - apply PyFacts.Qltb_lt in Ey1.
    assert (Ex1 : Py.Qltb (x - inject_Z f) (1 # 2) = true) by (apply PyFacts.Qltb_lt; lra).
    rewrite Ex1. lia.
  - destruct (Py.Qltb (x - inject_Z f) (1 # 2)) eqn:Ex1.
    + destruct (Py.Qltb (1 # 2) (y - inject_Z f)); [lia |]. destruct (Z.even f); lia.
    + apply PyFacts.Qltb_ge in Ey1. apply PyFacts.Qltb_ge in Ex1.
      destruct (Py.Qltb (1 # 2) (x - inject_Z f)) eqn:Ex2.
      * apply PyFacts.Qltb_lt in Ex2.
        assert (Ey2 : Py.Qltb (1 # 2) (y - inject_Z f) = true) by (apply PyFacts.Qltb_lt; lra).
        rewrite Ey2. lia.
      * destruct (Py.Qltb (1 # 2) (y - inject_Z f)); [destruct (Z.even f); lia | lia].
Qed.

Lemma round2_mono x y : (x <= y)%Q -> (round2 x <= round2 y)%Q.
Proof.
  intros Hxy. unfold round2.
  assert (H : (x * 100 <= y * 100)%Q) by lra.
  apply round_half_even_mono in H. rewrite Zle_Qle in H.
  apply Qmult_le_compat_r; [exact H | ]. unfold Qle. cbn. lia.
Qed.

Lemma Forall2_map_same {A B} (R : A -> B -> Prop) (g : A -> B) (l : list A) :
  (forall x, R x (g x)) -> Forall2 R l (map g l).
Proof. intros H. induction l as [| x l IH]; cbn [map]; constructor; auto. Qed.

(** X25. The levels of [calculate] for a positive PTAX and a
    volatility unit that is not negative: one level for each
    multiplier, under its name and in the same order; a level of a
    positive multiplier is a RESISTENCIA at or above the fair value
    that is returned, one of a negative multiplier a SUPORTE at or
    below it, and one of the multiplier zero the PIVOT at the fair
    value; a larger multiplier gives a price at least as high; and the
    strength of a level is between 0 and 3.  A PTAX that is not
    positive gives no level. *)
Theorem levels_around_fair_value lc ptax :
  (0 <= volatilidade_unidade lc)%Q ->
  let vj := fst (calculate lc ptax) in
  let niveis := snd (calculate lc ptax) in
  ((ptax <= 0)%Q -> niveis = [] /\ vj = 0%Q) /\
  ((0 < ptax)%Q ->
   map fst niveis = map fst (multiplicadores lc) /\
   Forall2
     (fun km kn =>
        let m := snd km in
        let n := snd kn in
        name n = fst km /\ (0 <= strength n <= 3)%Z /\
        ((0 < m)%Q -> type n = "RESISTENCIA"%string /\ (vj <= price n)%Q) /\
        ((m < 0)%Q -> type n = "SUPORTE"%string /\ (price n <= vj)%Q) /\
        ((m == 0)%Q -> type n = "PIVOT"%string /\ (price n == vj)%Q) /\
        (forall km' kn',
           In (km', kn') (combine (multiplicadores lc) niveis) ->
           (snd km' <= m)%Q -> (price (snd kn') <= price n)%Q))
     (multiplicadores lc) niveis).
Proof.
  intros Hvol vj niveis. subst vj niveis. unfold calculate. split.
  - intros Hp. apply Qle_bool_iff in Hp. rewrite Hp. cbn. auto.
  - intros Hp. destruct (Qle_bool ptax 0) eqn:E; [apply Qle_bool_iff in E; lra |].
    cbn [fst snd]. split; [rewrite map_map; reflexivity |].
    set (v := (ptax * 1000 + cupom_cambial lc)%Q).
    assert (Hcomb : forall l km' kn',
               In (km', kn') (combine l (map (fun kv => (fst kv, level_of lc v (fst kv) (snd kv))) l)) ->
               price (snd kn') = round2 (v + snd km' * volatilidade_unidade lc)).
    { induction l as [| kv l IH]; cbn; [intros ? ? [] |].
      intros km' kn' [[= <- <-] | Hin]; [reflexivity | exact (IH _ _ Hin)]. }
    set (g := fun kv : string * Q => (fst kv, level_of lc v (fst kv) (snd kv))).
    assert (Hpt : forall km : string * Q,
               let m := snd km in
               let n := snd (g km) in
               name n = fst km /\ (0 <= strength n <= 3)%Z /\
               ((0 < m)%Q -> type n = "RESISTENCIA"%string /\ (round2 v <= price n)%Q) /\
               ((m < 0)%Q -> type n = "SUPORTE"%string /\ (price n <= round2 v)%Q) /\
               ((m == 0)%Q -> type n = "PIVOT"%string /\ (price n == round2 v)%Q) /\
               (forall km' kn',
                  In (km', kn') (combine (multiplicadores lc) (map g (multiplicadores lc))) ->
                  (snd km' <= m)%Q -> (price (snd kn') <= price n)%Q)).
    { intros [nome m]. cbn. split; [reflexivity |]. split; [lia |].
      split; [| split; [| split]].
      - intros Hm. apply PyFacts.Qltb_lt in Hm. rewrite Hm. split; [reflexivity |].
        apply PyFacts.Qltb_lt in Hm. apply round2_mono.
        assert (0 <= m * volatilidade_unidade lc)%Q by (apply Qmult_le_0_compat; lra). lra.
      - intros Hm.
        assert (E0 : Py.Qltb 0 m = false) by (apply PyFacts.Qltb_ge; lra). rewrite E0.
        apply PyFacts.Qltb_lt in Hm. rewrite Hm. split; [reflexivity |].
        apply PyFacts.Qltb_lt in Hm. apply round2_mono.
        assert (0 <= (- m) * volatilidade_unidade lc)%Q by (apply Qmult_le_0_compat; lra).
        assert ((- m) * volatilidade_unidade lc == - (m * volatilidade_unidade lc))%Q by ring.
        lra.
      - intros Hm.
        assert (E0 : Py.Qltb 0 m = false) by (apply PyFacts.Qltb_ge; lra).
        assert (E1 : Py.Qltb m 0 = false) by (apply PyFacts.Qltb_ge; lra).
        rewrite E0, E1. split; [reflexivity |].
        assert (Hv : (v + m * volatilidade_unidade lc == v)%Q) by (rewrite Hm; ring).
        apply Qle_antisym; apply round2_mono; lra.
      - intros km' kn' Hin Hle. rewrite (Hcomb _ _ _ Hin). apply round2_mono.
        assert (0 <= (m - snd km') * volatilidade_unidade lc)%Q
          by (apply Qmult_le_0_compat; lra).
        assert ((m - snd km') * volatilidade_unidade lc
                == m * volatilidade_unidade lc - snd km' * volatilidade_unidade lc)%Q by ring.
        lra. }
    apply (Forall2_map_same _ g). exact Hpt.
Qed.

Lemma levels_around_fair_value_witness :
  map fst (snd (calculate default 5.4321)) = map fst (multiplicadores default) /\
  fst (calculate default 5.4321) = round2 5457.1.
Proof.
  assert (Hv : (0 <= volatilidade_unidade default)%Q) by (cbn; unfold Qle; cbn; lia).
  destruct (levels_around_fair_value default 5.4321 Hv) as [_ H].
  assert (Hp : (0 < 5.4321)%Q) by reflexivity.
  destruct (H Hp) as [Hn _]. split; [exact Hn | reflexivity].
Defined.

Lemma fold_max_in rest : forall x, In (fold_left Py.max rest x) (x :: rest).
Proof.
  induction rest as [| y rest IH]; intros x; cbn [fold_left]; [left; reflexivity |].
  destruct (IH (Py.max x y)) as [H | H].
  - rewrite <- H. unfold Py.max. destruct (Py.Qltb x y); cbn; auto.
  - right. right. exact H.
Qed.

Lemma fold_min_in rest : forall x, In (fold_left Py.min rest x) (x :: rest).
Proof.
  induction rest as [| y rest IH]; intros x; cbn [fold_left]; [left; reflexivity |].
  destruct (IH (Py.min x y)) as [H | H].
  - rewrite <- H. unfold Py.min. destruct (Py.Qltb y x); cbn; auto.
  - right. right. exact H.
Qed.

Lemma maximum_in l m : maximum l = Some m -> In m l.
Proof. destruct l as [| x rest]; [discriminate |]. intros [= <-]. apply fold_max_in. Qed.

Lemma minimum_in l m : minimum l = Some m -> In m l.
Proof. destruct l as [| x rest]; [discriminate |]. intros [= <-]. apply fold_min_in. Qed.

Lemma prices_of_keep tipo keep niveis p :
  In p (prices_of tipo keep niveis) -> keep p = true.
Proof.
  unfold prices_of. intros H. apply in_map_iff in H as (n & <- & Hn).
  apply filter_In in Hn as [_ Hn]. apply andb_prop in Hn as [_ Hk]. exact Hk.
Qed.

(** X26. The stop and the target of [calculate_stops_and_targets]
    bracket the price, whatever the levels are: for a COMPRA the stop
    is at or below the rounded price less 5 and the target at or above
    the rounded price; for any other action, taken as a VENDA, the
    stop is at or above the rounded price plus 5 and the target at or
    below the rounded price. *)
Theorem stop_and_target_bracket_price action current_price niveis :
  let stop := fst (calculate_stops_and_targets action current_price niveis) in
  let target := snd (calculate_stops_and_targets action current_price niveis) in
  if String.eqb action "COMPRA" then
    (stop <= round2 (current_price - 5.0))%Q /\ (round2 current_price <= target)%Q
  else
    (round2 (current_price + 5.0) <= stop)%Q /\ (target <= round2 current_price)%Q.
Proof.
  cbn zeta. unfold calculate_stops_and_targets.
  set (supports := prices_of "SUPORTE" _ niveis).
  set (resistances := prices_of "RESISTENCIA" _ niveis).
  assert (Hs : forall m, maximum supports = Some m -> (m < current_price)%Q).
  { intros m Hm. apply maximum_in in Hm. apply prices_of_keep in Hm.
    apply PyFacts.Qltb_lt in Hm. exact Hm. }
  assert (Hr : forall m, minimum resistances = Some m -> (current_price < m)%Q).
  { intros m Hm. apply minimum_in in Hm. apply prices_of_keep in Hm.
    apply PyFacts.Qltb_lt in Hm. exact Hm. }
  destruct (String.eqb action "COMPRA"); cbn [fst snd]; split; apply round2_mono.
  - destruct (maximum supports) as [m |]; [specialize (Hs m eq_refl) |]; lra.
  - destruct (minimum resistances) as [m |]; [specialize (Hr m eq_refl) |]; lra.
  - destruct (minimum resistances) as [m |]; [specialize (Hr m eq_refl) |]; lra.
  - destruct (maximum supports) as [m |]; [specialize (Hs m eq_refl) |]; lra.
Qed.

End LevelFacts.

(** ** The pending patterns of the confirmation system *)

Module PendingFacts.
Import TapeReading.

(** *** Absorption tests *)

Definition near (level : Q) (t : Trade.t) : bool :=
  Qle_bool (Qabs (Trade.price t - level)) 0.5.

Definition significant (original_volume test_threshold : Q) (t : Trade.t) : bool :=
  Qle_bool (original_volume * test_threshold) (inject_Z (Trade.volume t)).

Lemma absorption_fold level vol thr l : forall n vs,
  fold_left
    (fun '(n, vs) trade =>
       if Qle_bool (Qabs (Trade.price trade - level)) 0.5 then
         (if Qle_bool (vol * thr) (inject_Z (Trade.volume trade)) then (n + 1)%Z else n,
          vs ++ [Trade.volume trade])
       else (n, vs))
    l (n, vs)
  = ((n + Z.of_nat (length (List.filter
                              (fun t => near level t && significant vol thr t) l)))%Z,
     vs ++ map Trade.volume (List.filter (near level) l)).
Proof.
  induction l as [| t l IH]; intros n vs; cbn [fold_left List.filter].
  - cbn. rewrite app_nil_r. f_equal. lia.
  - change (Qle_bool (Qabs (Trade.price t - level)) 0.5) with (near level t).
    change (Qle_bool (vol * thr) (inject_Z (Trade.volume t))) with (significant vol thr t).
    destruct (near level t); cbn [andb]; [destruct (significant vol thr t) |];
      rewrite IH; cbn [length map]; rewrite <- ?app_assoc; cbn [app]; f_equal; lia.
Qed.

(** X27. The absorption check counts again at every check: each call
    adds to [test_count] the number of the last 20 trades read from
    the cache that are within 0.5 of the level with a volume of at
    least the threshold share of the original one, and appends the
    volumes of those near the level, whether or not an earlier check
    has counted the same trades.  Repeated on the same trades, [k]
    checks count each such trade [k] times. *)
Theorem absorption_tests_are_recounted cvd hid level vol thr trades :
  let last20 := TradeMemoryCache.last_slice 20 trades in
  let tests := List.filter (fun t => near level t && significant vol thr t) last20 in
  (forall n vs,
     absorption_tests level vol thr trades n vs =
       ((n + Z.of_nat (length tests))%Z,
        vs ++ map Trade.volume (List.filter (near level) last20))) /\
  (forall k,
     fst (Nat.iter k (fun r => absorption_tests level vol thr trades (fst r) (snd r))
            (0%Z, []))
     = (Z.of_nat k * Z.of_nat (length tests))%Z) /\
  (forall w now p min_tests n vs,
     pattern p = "ESCORA_DETECTADA"%string ->
     confirmation_criteria p = Escora min_tests thr level vol n vs ->
     fst (recent_trades w (symbol p) 100) = trades ->
     exists vs' w',
       _check_pattern_confirmation cvd hid w now p =
         Some ((min_tests <=? n + Z.of_nat (length tests))%Z,
               Escora min_tests thr level vol (n + Z.of_nat (length tests)) vs', w')).
Proof.
  cbn zeta.
  assert (H1 : forall n vs,
             absorption_tests level vol thr trades n vs =
               ((n + Z.of_nat (length (List.filter
                                         (fun t => near level t && significant vol thr t)
                                         (TradeMemoryCache.last_slice 20 trades))))%Z,
                vs ++ map Trade.volume
                        (List.filter (near level) (TradeMemoryCache.last_slice 20 trades)))).
  { intros n vs. unfold absorption_tests. apply absorption_fold. }
  split; [exact H1 |]. split.
  - induction k as [| k IH]; [reflexivity |].
    rewrite Nat.iter_succ, H1. cbn [fst]. rewrite IH. lia.
  - intros w now p min_tests n vs Hp Hc Ht.
    unfold _check_pattern_confirmation. rewrite Hp, Hc. cbn [String.eqb Ascii.eqb Bool.eqb].
    destruct (recent_trades w (symbol p) 100) as [recent w'] eqn:Er. cbn [fst] in Ht. subst recent.
    rewrite H1. eexists. eexists. reflexivity.
Qed.

(** *** The list of pending patterns *)

Lemma oldest_spec l :
  match oldest l with
  | Some o => In o l /\ Forall (fun q => (created_at o <= created_at q)%Z) l
  | None => l = []
  end.
Proof.
  induction l as [| p l IH]; cbn [oldest]; [reflexivity |].
  destruct (oldest l) as [q |].
  - destruct IH as [Hin Hall]. destruct (Z.ltb_spec (created_at q) (created_at p)).
    + split; [right; exact Hin |]. constructor; [lia | exact Hall].
    + split; [left; reflexivity |]. constructor; [lia |].
      eapply Forall_impl; [exact Hall |]. cbn. intros; lia.
  - subst l. split; [left; reflexivity |]. constructor; [lia | constructor].
Qed.

Lemma remove_id_length i l :
  (exists o, In o l /\ id o = i) -> (length (remove_id i l) < length l)%nat.
Proof.
  intros (o & Hin & Hid). unfold remove_id. induction l as [| p l IH]; [destruct Hin |].
  cbn [List.filter length]. destruct Hin as [-> | Hin].
  - rewrite Hid, Nat.eqb_refl. cbn [negb].
    pose proof (List.filter_length_le (fun p => negb (Nat.eqb (id p) i)) l). lia.
  - specialize (IH Hin). destruct (negb _); cbn [length]; lia.
Qed.

(** X28. With room for at least one pending pattern,
    [add_pending_pattern] raises nothing and never leaves more than
    [max_pending] patterns pending: below that number the new pattern
    is added to those pending; at it, the pending pattern created
    first makes room, and no pending pattern was created before that
    one.  The new pattern comes last, is created at the time of the
    call, has no attempt yet, and expires after the timeout configured
    for its pattern, or else the default one. *)
Theorem pending_never_exceeds_maximum s pattern symbol d now :
  (1 <= max_pending (config s))%Z ->
  exists s' p pre,
    add_pending_pattern s pattern symbol d now = Some s' /\
    pending_patterns s' = pre ++ [p] /\
    TapeReading.pattern p = pattern /\ TapeReading.symbol p = symbol /\
    created_at p = now /\ attempts p = 0%Z /\ last_check p = None /\
    expires_at p =
      (now + PyTime.of_seconds
               (default (default_timeout (config s))
                  (match patterns (config s) !! pattern with
                   | Some c => pc_timeout c
                   | None => None
                   end)))%Z /\
    (if (max_pending (config s) <=? Z.of_nat (length (pending_patterns s)))%Z
     then exists o, In o (pending_patterns s) /\
                    Forall (fun q => (created_at o <= created_at q)%Z) (pending_patterns s) /\
                    pre = remove_id (id o) (pending_patterns s)
     else pre = pending_patterns s) /\
    ((Z.of_nat (length (pending_patterns s)) <= max_pending (config s))%Z ->
     (Z.of_nat (length (pending_patterns s')) <= max_pending (config s))%Z).
Proof.
  intros Hmax. unfold add_pending_pattern.
  assert (Ht : forall c,
             default (default_timeout (config s))
               (pc_timeout
                  (default {| pc_timeout := Some (default_timeout (config s));
                              pc_min_tests := None; pc_test_threshold := None;
                              pc_confirmation_bars := None; pc_price_confirmation := None;
                              pc_requires_continuation := None;
                              pc_min_continuation_cvd := None;
                              pc_min_persistence := None; pc_volume_threshold := None;
                              pc_reload_confirmations := None;
                              pc_min_hidden_volume := None |} c))
             = default (default_timeout (config s))
                 (match c with Some c => pc_timeout c | None => None end)).
  { intros [c |]; reflexivity. }
  destruct (Z.leb_spec (max_pending (config s)) (Z.of_nat (length (pending_patterns s))))
    as [Hfull | Hroom].
  - pose proof (oldest_spec (pending_patterns s)) as Ho.
    destruct (oldest (pending_patterns s)) as [o |].
    + destruct Ho as [Hin Hall].
      eexists. eexists. exists (remove_id (id o) (pending_patterns s)).
      split; [reflexivity |]. cbn. rewrite Ht.
      repeat (split; [reflexivity |]).
      split; [exists o; auto |].
      intros Hle. rewrite length_app. cbn [length].
      pose proof (remove_id_length (id o) (pending_patterns s)
                    (ex_intro _ o (conj Hin eq_refl))). lia.
    + rewrite Ho in Hfull. cbn in Hfull. lia.
  - eexists. eexists. exists (pending_patterns s).
    split; [reflexivity |]. cbn. rewrite Ht.
    repeat (split; [reflexivity |]).
    intros _. rewrite length_app. cbn [length]. lia.
Qed.

Lemma pending_never_exceeds_maximum_witness :
  exists s',
    add_pending_pattern PipelineFacts.footprint_system "INSTITUTIONAL_FOOTPRINT" "WDO"
      PipelineFacts.footprint (PyTime.hm 10 30) = Some s' /\
    map expires_at (pending_patterns s') = [(PyTime.hm 10 30 + PyTime.of_seconds 60)%Z].
Proof.
  assert (Hm : (1 <= max_pending (config PipelineFacts.footprint_system))%Z) by (cbn; lia).
  destruct (pending_never_exceeds_maximum PipelineFacts.footprint_system
              "INSTITUTIONAL_FOOTPRINT" "WDO" PipelineFacts.footprint (PyTime.hm 10 30) Hm)
    as (s' & p & pre & Hadd & Hp & _ & _ & _ & _ & _ & Hexp & Hpre & _).
  exists s'. split; [exact Hadd |].
  change (pre = []) in Hpre. subst pre. rewrite Hp. cbn [map app]. rewrite Hexp. reflexivity.
Defined.

(** *** Checks *)

Lemma check_confirmation_quiet cvd hid w now p ok crit w' :
  _check_pattern_confirmation cvd hid w now p = Some (ok, crit, w') ->
  published w' = published w /\ pattern_cooldown w' = pattern_cooldown w /\
  defensive_filter w' = defensive_filter w.
Proof.
  assert (Hr : forall sym n, published (snd (recent_trades w sym n)) = published w /\
                             pattern_cooldown (snd (recent_trades w sym n)) = pattern_cooldown w /\
                             defensive_filter (snd (recent_trades w sym n)) = defensive_filter w).
  { intros sym n. unfold recent_trades.
    destruct (TradeMemoryCache.recent (cache w) sym n) as [l c]. cbn. auto. }
  unfold _check_pattern_confirmation, _check_institutional_confirmation.
  repeat match goal with
         | |- context [if ?b then _ else _] => destruct b
         | |- context [match confirmation_criteria p with _ => _ end] =>
             destruct (confirmation_criteria p)
         | |- context [recent_trades w ?s ?n] =>
             let H := fresh "H" in
             pose proof (Hr s n) as H; destruct (recent_trades w s n); cbn [snd] in H
         | |- context [absorption_tests ?a ?b ?c ?d ?e ?f] =>
             destruct (absorption_tests a b c d e f)
         | |- context [match ?l with [] => _ | _ :: _ => _ end] => destruct l
         end;
    try discriminate; intros [= <- <- <-]; auto.
Qed.

Lemma check_loop_spec cvd hid now l : forall w kept confirmed w',
  check_loop cvd hid w now l = Some (kept, confirmed, w') ->
  published w' = published w /\
  Forall (fun q => (now <= expires_at q)%Z /\ last_check q = Some now /\
                   exists p, In p l /\ id q = id p /\ created_at q = created_at p /\
                             expires_at q = expires_at p /\
                             attempts q = (attempts p + 1)%Z)
         (kept ++ confirmed) /\
  length kept + length confirmed
    = length (List.filter (fun p => negb (expires_at p <? now)%Z) l).
Proof.
  induction l as [| p l IH]; intros w kept confirmed w'; cbn [check_loop List.filter].
  - intros [= <- <- <-]. cbn. auto.
  - destruct (Z.ltb_spec (expires_at p) now) as [Hexp | Hlive]; cbn [negb].
    + intros H. destruct (IH _ _ _ _ H) as (H1 & H2 & H3).
      split; [exact H1 |]. split; [| exact H3].
      eapply Forall_impl; [exact H2 |]. cbn.
      intros q (Q1 & Q2 & p0 & Hin & Q3). repeat split; auto. exists p0. split; [right |]; auto.
    + destruct (_check_pattern_confirmation cvd hid w now p) as [[[ok crit] w1] |] eqn:Ec;
        [| discriminate].
      destruct (check_confirmation_quiet _ _ _ _ _ _ _ _ Ec) as (P1 & _).
      destruct (check_loop cvd hid w1 now l) as [[[kept1 conf1] w2] |] eqn:El; [| discriminate].
      destruct (IH _ _ _ _ El) as (H1 & H2 & H3).
      assert (Hrest : Forall (fun q => (now <= expires_at q)%Z /\ last_check q = Some now /\
                                exists p0, In p0 (p :: l) /\ id q = id p0 /\
                                           created_at q = created_at p0 /\
                                           expires_at q = expires_at p0 /\
                                           attempts q = (attempts p0 + 1)%Z)
                             (kept1 ++ conf1)).
      { eapply Forall_impl; [exact H2 |]. cbn.
        intros q (Q1 & Q2 & p0 & Hin & Q3). repeat split; auto.
        exists p0. split; [right |]; auto. }
      set (p' := {| id := id p; pattern := TapeReading.pattern p;
                    symbol := TapeReading.symbol p; data := data p;
                    created_at := created_at p; expires_at := expires_at p;
                    confirmation_criteria := crit; attempts := attempts p + 1;
                    last_check := Some now |}).
      assert (Hp' : (now <= expires_at p')%Z /\ last_check p' = Some now /\
                    exists p0, In p0 (p :: l) /\ id p' = id p0 /\
                               created_at p' = created_at p0 /\
                               expires_at p' = expires_at p0 /\
                               attempts p' = (attempts p0 + 1)%Z).
      { cbn. repeat split; auto. exists p. cbn. auto 10. }
      destruct ok; intros [= <- <- <-]; (split; [congruence |]); split.
      * apply Forall_app in Hrest as [Hk Hc]. apply Forall_app. split; [exact Hk |].
        constructor; assumption.
      * cbn [length]. lia.
      * cbn [app]. constructor; assumption.
      * cbn [length]. lia.
Qed.

Lemma emit_confirmed_pending s w p now s' w' :
  _emit_confirmed_pattern s w p now = Some (s', w') ->
  pending_patterns s' = pending_patterns s /\
  (length (published w) <= length (published w') <= length (published w) + 1)%nat.
Proof.
  unfold _emit_confirmed_pattern.
  destruct (PatternCooldown.can_emit_pattern _ _ _ now) as [ok cd].
  destruct ok; cbn [negb].
  - destruct (SignalFormatter.format _ _) as [sig raw].
    unfold recent_trades. destruct (TradeMemoryCache.recent _ _ 50) as [l c].
    destruct (DefensiveSignalFilter.is_signal_safe _ _) as [[safe info] |]; [| discriminate].
    destruct safe; intros [= <- <-]; cbn; rewrite length_app; cbn; split; auto; lia.
  - intros [= <- <-]. cbn. split; auto; lia.
Qed.

Lemma emit_all_pending confirmed : forall s w now s' w',
  emit_all s w confirmed now = Some (s', w') ->
  pending_patterns s' = pending_patterns s /\
  (length (published w) <= length (published w')
   <= length (published w) + length confirmed)%nat.
Proof.
  induction confirmed as [| p l IH]; intros s w now s' w'; cbn [emit_all].
  - intros [= <- <-]. cbn. split; auto; lia.
  - destruct (_emit_confirmed_pattern s w p now) as [[s1 w1] |] eqn:E; [| discriminate].
    destruct (emit_confirmed_pending _ _ _ _ _ _ E) as [H1 H2].
    intros H. destruct (IH _ _ _ _ _ H) as [H3 H4]. cbn [length].
    split; [congruence | lia].
Qed.

(** X29. After [check_pending_patterns] no pending pattern is past its
    expiry: the patterns that expired before the check are dropped
    without an event, those confirmed leave the list, and each pattern
    that stays is one of those pending before, checked once more at
    the time of the check.  The bus receives at most one event for
    each pattern that was confirmed. *)
Theorem checked_patterns_are_live cvd hid s w now s' w' :
  check_pending_patterns cvd hid s w now = Some (s', w') ->
  let live := List.filter (fun p => negb (expires_at p <? now)%Z) (pending_patterns s) in
  Forall (fun q => (now <= expires_at q)%Z /\ last_check q = Some now /\
                   exists p, In p (pending_patterns s) /\ id q = id p /\
                             created_at q = created_at p /\
                             expires_at q = expires_at p /\
                             attempts q = (attempts p + 1)%Z)
         (pending_patterns s') /\
  (length (pending_patterns s') <= length live)%nat /\
  (length (published w) <= length (published w')
   <= length (published w) + (length live - length (pending_patterns s')))%nat.
Proof.
  unfold check_pending_patterns.
  destruct (check_loop cvd hid w now (pending_patterns s)) as [[[kept confirmed] w1] |] eqn:El;
    [| discriminate].
  destruct (check_loop_spec _ _ _ _ _ _ _ _ El) as (H1 & H2 & H3).
  intros He. destruct (emit_all_pending _ _ _ _ _ _ He) as [H4 H5].
  cbn in H4. cbn zeta. rewrite H4. apply Forall_app in H2 as [Hk _].
  split; [exact Hk |]. split; [lia |]. rewrite H1 in H5. lia.
Qed.

Lemma checked_patterns_are_live_witness :
  let t0 := PyTime.hm 10 30 in
  let s1 := default PipelineFacts.footprint_system
              (add_pending_pattern PipelineFacts.footprint_system "INSTITUTIONAL_FOOTPRINT"
                 "WDO" PipelineFacts.footprint t0) in
  match check_pending_patterns (fun _ _ => 0%Q) (fun _ _ _ => false) s1
          (PipelineFacts.footprint_shared t0) (t0 + PyTime.of_seconds 61) with
  | Some (s', w') => pending_patterns s' = [] /\ published w' = []
  | None => False
  end.
Proof.
  cbn zeta.
  destruct (check_pending_patterns _ _ _ _ _) as [[s' w'] |] eqn:E.
  - destruct (checked_patterns_are_live _ _ _ _ _ _ _ E) as (_ & H2 & H3).
    assert (Hl : List.filter
                   (fun p => negb (expires_at p <? PyTime.hm 10 30 + PyTime.of_seconds 61)%Z)
                   (pending_patterns
                      (default PipelineFacts.footprint_system
                         (add_pending_pattern PipelineFacts.footprint_system
                            "INSTITUTIONAL_FOOTPRINT" "WDO" PipelineFacts.footprint
                            (PyTime.hm 10 30)))) = []) by (vm_compute; reflexivity).
    rewrite Hl in H2, H3. cbn [length] in H2, H3.
    assert (Hw : published (PipelineFacts.footprint_shared (PyTime.hm 10 30)) = [])
      by reflexivity.
    rewrite Hw in H3. cbn [length] in H3.
    split; [destruct (pending_patterns s'); [reflexivity | cbn in H2; lia] |].
    destruct (published w'); [reflexivity | cbn in H3; lia].
  - vm_compute in E. discriminate E.
Defined.

End PendingFacts.

(** ** The quality gate of the risk manager *)

Module QualityGate.
Import RiskTypes.

Lemma approval_quality m signal now a m' :
  RiskManager.evaluate_signal m signal now = (true, a, m') ->
  SignalEvaluator.q_passed
    (fst (SignalEvaluator.evaluate_quality
            (RiskManager.set_threshold (RiskManager.evaluator m)
               (AdaptiveRiskSystem.lim_quality_threshold
                  (AdaptiveRiskSystem.current_limits (RiskManager.adaptive_system m))))
            signal)) = true.
Proof.
  unfold RiskManager.evaluate_signal.
  destruct (CircuitBreakerSystem.check_all _ now) as [cb bs].
  destruct (negb _); [discriminate |].
  unfold RiskManager.limit_stages.
  cbn [RiskManager.adaptive_system RiskManager.with_breakers RiskManager.metrics_tracker
       RiskManager.evaluator].
  destruct (_ <=? _)%Z; [discriminate |].
  destruct (RiskMetricsTracker.check_signal_frequency _ _ _ _); try discriminate.
  destruct (SignalEvaluator.evaluate_quality _ signal) as [qe e]. cbn [fst].
  destruct (SignalEvaluator.q_passed qe); [reflexivity | discriminate].
Qed.

Lemma tape_reading_score e signal :
  SignalEvaluator.quality_weights e = SignalEvaluator.default_weights ->
  Signal.source signal = Signal.TAPE_READING ->
  Signal.profit (Signal.details signal) = None ->
  (SignalEvaluator.q_score (fst (SignalEvaluator.evaluate_quality e signal)) <= 0.58)%Q.
Proof.
  intros Hw Hs Hp. unfold SignalEvaluator.evaluate_quality, SignalEvaluator.quality_score.
  rewrite Hw, Hs, Hp. cbn [SignalEvaluator.default_weights SignalEvaluator.source_weight
    SignalEvaluator.level_weight SignalEvaluator.details_weight SignalEvaluator.pattern_weight
    default from_option id].
  destruct (Signal.level signal);
    destruct (SignalEvaluator.mem _ SignalEvaluator.high_quality_patterns);
    try destruct (SignalEvaluator.mem _ SignalEvaluator.medium_quality_patterns);
    vm_compute; discriminate.
Qed.

(** X30. With the default weights a TAPE_READING signal that carries
    no profit scores at most 0.58 in [evaluate_quality], since it
    earns nothing for its details and 0.6 of the weight of its source;
    so while the quality threshold in force is above 0.58, as it is
    when both instruments are QUIET, the risk manager approves no
    such signal, whatever its pattern and level. *)
Theorem quiet_regime_silences_tape_reading m signal now :
  SignalEvaluator.quality_weights (RiskManager.evaluator m) = SignalEvaluator.default_weights ->
  Signal.source signal = Signal.TAPE_READING ->
  Signal.profit (Signal.details signal) = None ->
  (0.58 < AdaptiveRiskSystem.lim_quality_threshold
            (AdaptiveRiskSystem.current_limits (RiskManager.adaptive_system m)))%Q ->
  fst (fst (RiskManager.evaluate_signal m signal now)) = false /\
  RiskManager.published (snd (RiskManager.evaluate_signal m signal now))
    = RiskManager.published m.
Proof.
  intros Hw Hs Hp Hthr.
  pose proof (ManagerFacts.evaluate_signal_effects m signal now) as Heff.
  destruct (RiskManager.evaluate_signal m signal now) as [[ok a] m'] eqn:Ev. cbn [fst snd].
  destruct ok.
  - exfalso. pose proof (approval_quality _ _ _ _ _ Ev) as Hq.
    pose proof (tape_reading_score
                  (RiskManager.set_threshold (RiskManager.evaluator m)
                     (AdaptiveRiskSystem.lim_quality_threshold
                        (AdaptiveRiskSystem.current_limits (RiskManager.adaptive_system m))))
                  signal Hw Hs Hp) as Hsc.
    unfold SignalEvaluator.evaluate_quality in Hq, Hsc.
    destruct (SignalEvaluator.quality_score _ signal) as [sc mx].
    cbn [fst SignalEvaluator.q_passed SignalEvaluator.q_score
         SignalEvaluator.quality_threshold RiskManager.set_threshold] in Hq, Hsc.
    unfold SignalEvaluator.Qgeb in Hq. apply Qle_bool_iff in Hq. lra.
  - destruct Heff as (_ & _ & _ & _ & Hno). destruct (Hno eq_refl) as (Hpub & _).
    split; [reflexivity | exact Hpub].
Qed.

(** The manager after both instruments turned quiet. *)
Definition quiet_manager : RiskManager.t :=
  RiskManager.init
    (default (AdaptiveRiskSystem.pre_init AdaptiveRiskSystem.default_config)
       (AdaptiveRiskSystem.run AdaptiveRiskSystem.default_config
          [("WDO"%string, AdaptiveRiskSystem.QUIET); ("DOL"%string, AdaptiveRiskSystem.QUIET)])).

Lemma quiet_regime_silences_tape_reading_witness :
  let signal :=
    fst (SignalFormatter.format
           (TapeReading.with_strength PipelineFacts.pressure) "WDO") in
  (AdaptiveRiskSystem.lim_quality_threshold
     (AdaptiveRiskSystem.current_limits (RiskManager.adaptive_system quiet_manager)) == 0.7)%Q /\
  fst (fst (RiskManager.evaluate_signal quiet_manager signal (PyTime.hm 11 0))) = false.
Proof.
  intros signal. split; [vm_compute; reflexivity |].
  apply (quiet_regime_silences_tape_reading quiet_manager signal (PyTime.hm 11 0)).
  - reflexivity.
  - reflexivity.
  - reflexivity.
  - vm_compute. reflexivity.
Defined.

End QualityGate.
